(** * Climate-risk advisory service: a shallow embedding and its properties

    The development follows the Python sources
      - [src/config.py]         (threshold provider),
      - [src/risk_analysis.py]  (daily aggregation and risk evaluation),
      - [src/advisories.py]     (advisory composer),
      - [src/geocoding.py]      (from an address to coordinates),
      - [src/weather.py]        (the forecast of a place),
      - [app.py]                (request handler).

    Modelling conventions.
      - Python numbers are integers ([Z]); a [bool] read where a number is
        expected counts as 0 or 1, as in Python.  Binary floating point is
        outside the embedding: [f"{x:.1f}"] of an integer is rendered
        exactly (true for |x| < 2^53), and the conversion of an integer
        to a float neither rounds nor overflows.
      - A decoded JSON document is a [pyval]; a JSON object is an
        association list read by first match.
      - Python dictionaries that the program builds and returns are records
        (the risk report), insertion-ordered association lists (the daily
        summaries) or finite maps (threshold sets).
      - Exceptions are explicit: a fallible library call returns a
        [result]; the two loops run in a state-and-exception monad in which
        the state reached when an exception is raised is kept, because the
        handlers of the source resume from the mutated objects.
      - The clock and the time zone of the host are parameters of the
        evaluator: [today] is [date.today()], [utc_offset] the offset of
        the local zone in seconds.  Dates are those of [datetime]: the
        years 1 to 9999 of the proleptic Gregorian calendar, outside of
        which the library raises.
      - Logging is not modelled.
      - The exchanges with the weather service are not performed: the
        outcome of an exchange is a parameter of the function that makes
        it.

    A day of the evaluation loop whose body raises is left where the
    exception occurred and the loop goes on with the next day.  In this
    embedding a day can raise in three places: when its key is not a date,
    when a humidity reading is neither a number nor [None], and when the
    start date of a drought falls outside the calendar. *)

From Stdlib Require Import ZArith String Ascii List DecimalString Lia Bool Sorted.
From stdpp Require Import base gmap strings list.

Open Scope string_scope.
Open Scope list_scope.
Open Scope Z_scope.

(* ================================================================== *)
(** * Python values and exceptions *)
(* ================================================================== *)

Module Py.

Set Warnings "-register-all".

Inductive pyval : Type :=
| VNone
| VBool (b : bool)
| VNum (z : Z)
| VStr (s : string)
| VList (l : list pyval)
| VDict (d : list (string * pyval)).

(** The exception classes the sources can meet. *)
Inductive exn : Type :=
| KeyError | TypeError | ValueError | AttributeError | OverflowError.

Inductive result (A : Type) : Type :=
| Ok (a : A)
| Raise (e : exn).
Arguments Ok {A} a.
Arguments Raise {A} e.

(** Lookup in an association list: the first binding of the key. *)
Fixpoint assoc_get {A : Type} (k : string) (d : list (string * A)) : option A :=
  match d with
  | [] => None
  | (k', v) :: d' => if String.eqb k k' then Some v else assoc_get k d'
  end.

(** [o.get(k, dflt)]: only a dictionary has the method. *)
Definition py_get (o : pyval) (k : string) (dflt : pyval) : result pyval :=
  match o with
  | VDict d => Ok (match assoc_get k d with Some v => v | None => dflt end)
  | _ => Raise AttributeError
  end.

(** A value used in arithmetic or in an ordering comparison with a number. *)
Definition as_num (v : pyval) : result Z :=
  match v with
  | VNum z => Ok z
  | VBool b => Ok (if b then 1 else 0)
  | _ => Raise TypeError
  end.

(** [str(n)] for an integer. *)
Definition str_Z (z : Z) : string := NilZero.string_of_int (Z.to_int z).

(** [f"{n:.1f}"] for an integer. *)
Definition fmt_1f (z : Z) : string := str_Z z +:+ ".0".

(** [f"{n / d:.0f}"] for integers [n], [d] with [0 < d]: the quotient
    rounded to the nearest integer, ties to even; a negative quotient that
    rounds to zero keeps its sign. *)
Definition round_half_even (n d : Z) : Z :=
  let q := n / d in
  let r := n mod d in
  if 2 * r <? d then q
  else if d <? 2 * r then q + 1
  else if Z.even q then q else q + 1.

Definition fmt_div_0f (n d : Z) : string :=
  let q := round_half_even n d in
  if (n <? 0) && (q =? 0) then "-0" else str_Z q.

(** [needle in hay] for strings. *)
Fixpoint contains (needle hay : string) : bool :=
  String.prefix needle hay ||
  match hay with
  | EmptyString => false
  | String _ hay' => contains needle hay'
  end.

(** ** State and exceptions

    [M S A] is a computation over a mutable state [S]: the state it leaves
    is returned also when it raises. *)
Definition M (S A : Type) : Type := S -> S * result A.

Definition ret {S A} (a : A) : M S A := fun s => (s, Ok a).
Definition raise {S A} (e : exn) : M S A := fun s => (s, Raise e).
Definition bind {S A B} (c : M S A) (k : A -> M S B) : M S B :=
  fun s => match c s with
           | (s', Ok a) => k a s'
           | (s', Raise e) => (s', Raise e)
           end.
Definition lift {S A} (r : result A) : M S A := fun s => (s, r).
Definition modify {S} (f : S -> S) : M S unit := fun s => (f s, Ok tt).
Definition gets {S A} (f : S -> A) : M S A := fun s => (s, Ok (f s)).

End Py.

Import Py.

Notation "'do' x <- c1 ; c2" := (Py.bind c1 (fun x => c2))
  (at level 10, x name, c1 at level 100, c2 at level 200, only parsing).

(* ================================================================== *)
(** * The calendar of [datetime] *)
(* ================================================================== *)

Module Calendar.

(** A [datetime.date]: the proleptic Gregorian year, month and day. *)
Record date : Type := mkdate { year : Z; month : Z; day : Z }.

Definition MINYEAR : Z := 1.
Definition MAXYEAR : Z := 9999.
Definition MAXORDINAL : Z := 3652059.

Definition is_leap (y : Z) : bool :=
  (y mod 4 =? 0) && (negb (y mod 100 =? 0) || (y mod 400 =? 0)).

Definition days_in_month (y m : Z) : Z :=
  if m =? 2 then (if is_leap y then 29 else 28)
  else if (m =? 4) || (m =? 6) || (m =? 9) || (m =? 11) then 30
  else 31.

(** [_DAYS_BEFORE_MONTH] of a common year. *)
Definition DAYS_BEFORE_MONTH (m : Z) : Z :=
  match m with
  | 1 => 0 | 2 => 31 | 3 => 59 | 4 => 90 | 5 => 120 | 6 => 151
  | 7 => 181 | 8 => 212 | 9 => 243 | 10 => 273 | 11 => 304 | 12 => 334
  | _ => 0
  end.

Definition days_before_year (y : Z) : Z :=
  let y1 := y - 1 in y1 * 365 + y1 / 4 - y1 / 100 + y1 / 400.

Definition days_before_month (y m : Z) : Z :=
  DAYS_BEFORE_MONTH m + (if (2 <? m) && is_leap y then 1 else 0).

(** [date.toordinal]: 0001-01-01 is day 1. *)
Definition ymd2ord (d : date) : Z :=
  days_before_year (year d) + days_before_month (year d) (month d) + day d.

(** [date.fromordinal], after [_ord2ymd] of the library. *)
Definition ord2ymd (n0 : Z) : date :=
  let n := n0 - 1 in
  let n400 := n / 146097 in
  let n := n mod 146097 in
  let n100 := n / 36524 in
  let n := n mod 36524 in
  let n4 := n / 1461 in
  let n := n mod 1461 in
  let n1 := n / 365 in
  let n := n mod 365 in
  let y := n400 * 400 + 1 + n100 * 100 + n4 * 4 + n1 in
  if (n1 =? 4) || (n100 =? 4) then mkdate (y - 1) 12 31
  else
    let leapyear := (n1 =? 3) && (negb (n4 =? 24) || (n100 =? 3)) in
    let m := Z.shiftr (n + 50) 5 in
    let preceding := DAYS_BEFORE_MONTH m + (if (2 <? m) && leapyear then 1 else 0) in
    if n <? preceding then
      let m' := m - 1 in
      let preceding' :=
        preceding - (days_in_month 1 m' + (if (m' =? 2) && leapyear then 1 else 0)) in
      mkdate y m' (n - preceding' + 1)
    else mkdate y m (n - preceding + 1).

(** The checks of the [date] constructor. *)
Definition valid_date (d : date) : bool :=
  (MINYEAR <=? year d) && (year d <=? MAXYEAR) &&
  (1 <=? month d) && (month d <=? 12) &&
  (1 <=? day d) && (day d <=? days_in_month (year d) (month d)).

(** [d1 < d2] on dates compares (year, month, day). *)
Definition date_ltb (d1 d2 : date) : bool :=
  (year d1 <? year d2) ||
  ((year d1 =? year d2) &&
   ((month d1 <? month d2) ||
    ((month d1 =? month d2) && (day d1 <? day d2)))).

(** [d - timedelta(days=k)]. *)
Definition date_sub_days (d : date) (k : Z) : result date :=
  let o := ymd2ord d - k in
  if (0 <? o) && (o <=? MAXORDINAL) then Ok (ord2ymd o) else Raise OverflowError.

(** Decimal digits. *)
Definition digit (n : Z) : ascii := ascii_of_nat (48 + Z.to_nat (n mod 10)).

Definition pad2 (n : Z) : string :=
  String (digit (n / 10)) (String (digit n) EmptyString).

Definition pad4 (n : Z) : string :=
  String (digit (n / 1000)) (String (digit (n / 100)) (pad2 n)).

(** [d.strftime('%Y-%m-%d')], the year zero-padded to four digits. *)
Definition strftime (d : date) : string :=
  pad4 (year d) +:+ "-" +:+ pad2 (month d) +:+ "-" +:+ pad2 (day d).

Definition digit_val (c : ascii) : option Z :=
  let n := Z.of_nat (nat_of_ascii c) in
  if (48 <=? n) && (n <=? 57) then Some (n - 48) else None.

(** A field of one or two digits as the directives [%m] and [%d] read it:
    the two-digit alternatives are tried first.  [hi] is the largest value
    the directive accepts. *)
Definition parse_field (hi : Z) (s : string) : option (Z * string) :=
  let one :=
    match s with
    | String c1 rest =>
        match digit_val c1 with
        | Some a => if 1 <=? a then Some (a, rest) else None
        | None => None
        end
    | EmptyString => None
    end in
  match s with
  | String c1 (String c2 rest) =>
      match digit_val c1, digit_val c2 with
      | Some a, Some b =>
          let v := 10 * a + b in
          if (1 <=? v) && (v <=? hi) then Some (v, rest) else one
      | _, _ => one
      end
  | _ => one
  end.

(** [datetime.strptime(s, '%Y-%m-%d').date()] on ASCII input: four digits,
    a dash, the month, a dash, the day, nothing after; then the checks of
    the constructor.  Every failure is a [ValueError]. *)
Definition strptime (s : string) : result date :=
  match s with
  | String y1 (String y2 (String y3 (String y4 (String dash1 rest)))) =>
      match digit_val y1, digit_val y2, digit_val y3, digit_val y4 with
      | Some a, Some b, Some c, Some e =>
          if Ascii.eqb dash1 "-" then
            match parse_field 12 rest with
            | Some (m, String dash2 rest') =>
                if Ascii.eqb dash2 "-" then
                  match parse_field 31 rest' with
                  | Some (dd, EmptyString) =>
                      let d := mkdate (1000 * a + 100 * b + 10 * c + e) m dd in
                      if valid_date d then Ok d else Raise ValueError
                  | _ => Raise ValueError
                  end
                else Raise ValueError
            | _ => Raise ValueError
            end
          else Raise ValueError
      | _, _, _, _ => Raise ValueError
      end
  | _ => Raise ValueError
  end.

(** The range of [time_t] values that [localtime] converts: beyond it the
    year does not fit the C calendar structure. *)
Definition LOCALTIME_MIN : Z := -67768040609740800.
Definition LOCALTIME_MAX : Z := 67767976233532799.

(** [datetime.fromtimestamp(ts)] for a number [ts], reduced to its date.
    The local zone is a fixed offset [utc_offset] (in seconds) from UTC.
    A timestamp that the platform cannot convert raises [OverflowError]
    (or an [OSError], which the handlers of the source treat alike); a
    converted date outside the years 1..9999 raises [ValueError]. *)
Definition fromtimestamp (utc_offset : Z) (ts : pyval) : result date :=
  match as_num ts with
  | Raise e => Raise e
  | Ok t =>
      let local := t + utc_offset in
      if (LOCALTIME_MIN <=? local) && (local <=? LOCALTIME_MAX) then
        let d := ord2ymd (719163 + local / 86400) in
        if valid_date d then Ok d else Raise ValueError
      else Raise OverflowError
  end.

End Calendar.

Import Calendar.

(* ================================================================== *)
(** * [src/config.py]: the threshold provider *)
(* ================================================================== *)

Module Config.

Definition DEFAULT_THRESHOLDS : gmap string Z :=
  list_to_map
    [ ("drought_risk_days", 7); ("drought_risk_mm", 2);
      ("flood_risk_mm_per_day", 50); ("heavy_rain_mm_per_3h", 15);
      ("heatwave_temp_c", 38); ("heatwave_days", 3);
      ("frost_risk_temp_c", 2);
      ("high_wind_speed_ms", 15);
      ("high_humidity_perc", 85); ("high_humidity_duration_h", 12) ].

(** [d.get(k, dflt)] on a threshold set. *)
Definition th_get (d : gmap string Z) (k : string) (dflt : Z) : Z :=
  default dflt (d !! k).

(** ** The store of dictionary objects

    [get_adjusted_thresholds] copies the dictionary it is given and
    assigns into the copy.  Dictionaries are objects in a store, named by
    their location, so that the copy and the original can be told apart. *)
Definition loc : Type := positive.
Abbreviation store := (gmap loc (gmap string Z)).

(** [d.copy()]: a new object with the same bindings. *)
Definition dict_copy (h : store) (l : loc) : option (store * loc) :=
  match h !! l with
  | Some d => let l' := fresh (dom h) in Some (<[l' := d]> h, l')
  | None => None
  end.

(** [d[k] = v] on the object at [l]. *)
Definition dict_setitem (h : store) (l : loc) (k : string) (v : Z) : store :=
  alter (fun d => <[k := v]> d) l h.

(** [d.get(k, dflt)] on the object at [l]. *)
Definition dict_get (h : store) (l : loc) (k : string) (dflt : Z) : Z :=
  match h !! l with
  | Some d => th_get d k dflt
  | None => dflt
  end.

Definition stage_is_sensitive (stage : string) : bool :=
  String.eqb stage "Flowering" || String.eqb stage "Fruiting/Maturity".

Definition get_adjusted_thresholds
    (h : store) (base_thresholds : loc) (crop stage : string)
  : option (store * loc) :=
  match dict_copy h base_thresholds with
  | None => None
  | Some (h, adjusted) =>
      let h :=
        if stage_is_sensitive stage then
          let h := dict_setitem h adjusted "heatwave_temp_c"
                     (Z.max 32 (dict_get h adjusted "heatwave_temp_c" 38 - 3)) in
          dict_setitem h adjusted "drought_risk_days"
            (Z.max 3 (dict_get h adjusted "drought_risk_days" 7 - 2))
        else h in
      let h :=
        if String.eqb crop "Rice" && negb (String.eqb stage "Germination/Seedling") then
          dict_setitem h adjusted "drought_risk_days"
            (Z.min 10 (dict_get h adjusted "drought_risk_days" 7 + 3))
        else h in
      let h :=
        if String.eqb crop "Vegetables" && String.eqb stage "Germination/Seedling" then
          dict_setitem h adjusted "frost_risk_temp_c"
            (Z.max 3 (dict_get h adjusted "frost_risk_temp_c" 2 + 1))
        else h in
      let h :=
        if String.eqb crop "Maize" && String.eqb stage "Fruiting/Maturity" then
          dict_setitem h adjusted "high_wind_speed_ms"
            (Z.max 10 (dict_get h adjusted "high_wind_speed_ms" 15 - 3))
        else h in
      Some (h, adjusted)
  end.

(** ** The rules as the specification words them

    Each rule is a function of the threshold set it reads ("base" in the
    rule's formula) to the set it leaves. *)
Definition spec_rule1 (stage : string) (t : gmap string Z) : gmap string Z :=
  if stage_is_sensitive stage then
    <["drought_risk_days" := Z.max 3 (th_get t "drought_risk_days" 7 - 2)]>
      (<["heatwave_temp_c" := Z.max 32 (th_get t "heatwave_temp_c" 38 - 3)]> t)
  else t.

Definition spec_rule2 (crop stage : string) (t : gmap string Z) : gmap string Z :=
  if String.eqb crop "Rice" && negb (String.eqb stage "Germination/Seedling") then
    <["drought_risk_days" := Z.min 10 (th_get t "drought_risk_days" 7 + 3)]> t
  else t.

Definition spec_rule3 (crop stage : string) (t : gmap string Z) : gmap string Z :=
  if String.eqb crop "Vegetables" && String.eqb stage "Germination/Seedling" then
    <["frost_risk_temp_c" := Z.max 3 (th_get t "frost_risk_temp_c" 2 + 1)]> t
  else t.

Definition spec_rule4 (crop stage : string) (t : gmap string Z) : gmap string Z :=
  if String.eqb crop "Maize" && String.eqb stage "Fruiting/Maturity" then
    <["high_wind_speed_ms" := Z.max 10 (th_get t "high_wind_speed_ms" 15 - 3)]> t
  else t.

(** Sequential reading: every rule reads what the rules before it left. *)
Definition spec_adjust_sequential (crop stage : string) (base : gmap string Z)
  : gmap string Z :=
  spec_rule4 crop stage (spec_rule3 crop stage (spec_rule2 crop stage (spec_rule1 stage base))).

(** Independent reading: every rule computes its new value from the base
    set, and the values are written in rule order. *)
Definition spec_adjust_independent (crop stage : string) (base : gmap string Z)
  : gmap string Z :=
  let t := base in
  let t :=
    if stage_is_sensitive stage then
      <["drought_risk_days" := Z.max 3 (th_get base "drought_risk_days" 7 - 2)]>
        (<["heatwave_temp_c" := Z.max 32 (th_get base "heatwave_temp_c" 38 - 3)]> t)
    else t in
  let t :=
    if String.eqb crop "Rice" && negb (String.eqb stage "Germination/Seedling") then
      <["drought_risk_days" := Z.min 10 (th_get base "drought_risk_days" 7 + 3)]> t
    else t in
  let t :=
    if String.eqb crop "Vegetables" && String.eqb stage "Germination/Seedling" then
      <["frost_risk_temp_c" := Z.max 3 (th_get base "frost_risk_temp_c" 2 + 1)]> t
    else t in
  if String.eqb crop "Maize" && String.eqb stage "Fruiting/Maturity" then
    <["high_wind_speed_ms" := Z.max 10 (th_get base "high_wind_speed_ms" 15 - 3)]> t
  else t.

End Config.

Import Config.

(* ================================================================== *)
(** * [src/risk_analysis.py]: daily aggregation and risk evaluation *)
(* ================================================================== *)

Module RiskAnalysis.

(** ** The risk report *)

Record risk_entry : Type := mk_entry { warning : bool; details : list string }.

Record risks : Type := mk_risks {
  drought : risk_entry;
  flood_heavy_rain : risk_entry;
  heatwave : risk_entry;
  frost : risk_entry;
  high_wind : risk_entry;
  prolonged_high_humidity : risk_entry;
  overall_alerts : list string
}.

(** The keys of the report other than ["overall_alerts"]. *)
Inductive category : Type :=
| Drought | FloodHeavyRain | Heatwave | Frost | HighWind | ProlongedHighHumidity.

Definition categories : list category :=
  [Drought; FloodHeavyRain; Heatwave; Frost; HighWind; ProlongedHighHumidity].

Definition entry (c : category) (r : risks) : risk_entry :=
  match c with
  | Drought => drought r
  | FloodHeavyRain => flood_heavy_rain r
  | Heatwave => heatwave r
  | Frost => frost r
  | HighWind => high_wind r
  | ProlongedHighHumidity => prolonged_high_humidity r
  end.

Definition set_entry (c : category) (e : risk_entry) (r : risks) : risks :=
  match c with
  | Drought =>
      mk_risks e (flood_heavy_rain r) (heatwave r) (frost r) (high_wind r)
        (prolonged_high_humidity r) (overall_alerts r)
  | FloodHeavyRain =>
      mk_risks (drought r) e (heatwave r) (frost r) (high_wind r)
        (prolonged_high_humidity r) (overall_alerts r)
  | Heatwave =>
      mk_risks (drought r) (flood_heavy_rain r) e (frost r) (high_wind r)
        (prolonged_high_humidity r) (overall_alerts r)
  | Frost =>
      mk_risks (drought r) (flood_heavy_rain r) (heatwave r) e (high_wind r)
        (prolonged_high_humidity r) (overall_alerts r)
  | HighWind =>
      mk_risks (drought r) (flood_heavy_rain r) (heatwave r) (frost r) e
        (prolonged_high_humidity r) (overall_alerts r)
  | ProlongedHighHumidity =>
      mk_risks (drought r) (flood_heavy_rain r) (heatwave r) (frost r) (high_wind r)
        e (overall_alerts r)
  end.

Definition no_risk : risk_entry := mk_entry false [].

Definition initial_risks : risks :=
  mk_risks no_risk no_risk no_risk no_risk no_risk no_risk [].

(** [risks[c]['warning'] = True] *)
Definition set_warning (c : category) (r : risks) : risks :=
  set_entry c (mk_entry true (details (entry c r))) r.

(** [risks[c]['details'].append(alert)] *)
Definition append_detail (c : category) (alert : string) (r : risks) : risks :=
  set_entry c (mk_entry (warning (entry c r)) (details (entry c r) ++ [alert])) r.

(** [risks['overall_alerts'].extend(day_alerts)] *)
Definition extend_overall (day_alerts : list string) (r : risks) : risks :=
  mk_risks (drought r) (flood_heavy_rain r) (heatwave r) (frost r) (high_wind r)
    (prolonged_high_humidity r) (overall_alerts r ++ day_alerts).

(** ** Daily summaries *)

Record day_summary : Type := mk_summary {
  max_temp : Z;
  min_temp : Z;
  total_rain : Z;
  max_wind_speed : Z;
  humidity_readings : list pyval;
  rain_3h_intervals : list Z;
  count : Z
}.

Definition new_summary : day_summary := mk_summary (-100) 200 0 0 [] [] 0.

Definition set_max_temp (v : Z) (s : day_summary) : day_summary :=
  mk_summary v (min_temp s) (total_rain s) (max_wind_speed s)
    (humidity_readings s) (rain_3h_intervals s) (count s).
Definition set_min_temp (v : Z) (s : day_summary) : day_summary :=
  mk_summary (max_temp s) v (total_rain s) (max_wind_speed s)
    (humidity_readings s) (rain_3h_intervals s) (count s).
Definition set_total_rain (v : Z) (s : day_summary) : day_summary :=
  mk_summary (max_temp s) (min_temp s) v (max_wind_speed s)
    (humidity_readings s) (rain_3h_intervals s) (count s).
Definition set_max_wind_speed (v : Z) (s : day_summary) : day_summary :=
  mk_summary (max_temp s) (min_temp s) (total_rain s) v
    (humidity_readings s) (rain_3h_intervals s) (count s).
Definition append_humidity (v : pyval) (s : day_summary) : day_summary :=
  mk_summary (max_temp s) (min_temp s) (total_rain s) (max_wind_speed s)
    (humidity_readings s ++ [v]) (rain_3h_intervals s) (count s).
Definition append_rain_3h (v : Z) (s : day_summary) : day_summary :=
  mk_summary (max_temp s) (min_temp s) (total_rain s) (max_wind_speed s)
    (humidity_readings s) (rain_3h_intervals s ++ [v]) (count s).
Definition incr_count (s : day_summary) : day_summary :=
  mk_summary (max_temp s) (min_temp s) (total_rain s) (max_wind_speed s)
    (humidity_readings s) (rain_3h_intervals s) (count s + 1).

(** The dictionary [daily_summary], in insertion order. *)
Definition daily_summaries : Type := list (string * day_summary).

(** [if day_str not in daily_summary: daily_summary[day_str] = {...}] *)
Definition init_day (day_str : string) (ds : daily_summaries) : daily_summaries :=
  match assoc_get day_str ds with
  | Some _ => ds
  | None => ds ++ [(day_str, new_summary)]
  end.

(** A mutation of the summary object stored under [day_str]. *)
Fixpoint on_day (day_str : string) (f : day_summary -> day_summary)
    (ds : daily_summaries) : daily_summaries :=
  match ds with
  | [] => []
  | (k, s) :: ds' =>
      if String.eqb day_str k then (k, f s) :: ds'
      else (k, s) :: on_day day_str f ds'
  end.

(** [daily_summary[day_str]] once the day has been initialised. *)
Definition summary_of (day_str : string) (ds : daily_summaries) : day_summary :=
  match assoc_get day_str ds with
  | Some s => s
  | None => new_summary
  end.

(** [e.get(k, {})] on a sample record. *)
Definition sub_record (e : list (string * pyval)) (k : string) : pyval :=
  match assoc_get k e with
  | Some v => v
  | None => VDict []
  end.

Section Environment.

(** The zone of the host, as seconds east of UTC, and [date.today()]. *)
Variable utc_offset : Z.
Variable today : date.

(** The aggregation of one sample [e] whose timestamp [ts] is not [None]:
    from the conversion of the timestamp to the end of the [try] block. *)
Definition aggregate_sample (e : list (string * pyval)) (ts : pyval)
  : M daily_summaries unit :=
  do dt_obj <- lift (fromtimestamp utc_offset ts);
  let day_str := strftime dt_obj in
  do _ <- modify (init_day day_str);
  let main := sub_record e "main" in
  let wind := sub_record e "wind" in
  let rain_data := sub_record e "rain" in
  do rain_3h_v <- lift (py_get rain_data "3h" (VNum 0));
  do cur_max <- gets (fun ds => max_temp (summary_of day_str ds));
  do temp_max_v <- lift (py_get main "temp_max" (VNum cur_max));
  do temp_max <- lift (as_num temp_max_v);
  do _ <- modify (on_day day_str (set_max_temp (Z.max cur_max temp_max)));
  do cur_min <- gets (fun ds => min_temp (summary_of day_str ds));
  do temp_min_v <- lift (py_get main "temp_min" (VNum cur_min));
  do temp_min <- lift (as_num temp_min_v);
  do _ <- modify (on_day day_str (set_min_temp (Z.min cur_min temp_min)));
  do rain_3h <- lift (as_num rain_3h_v);
  do _ <- modify (on_day day_str (fun s => set_total_rain (total_rain s + rain_3h) s));
  do speed_v <- lift (py_get wind "speed" (VNum 0));
  do speed <- lift (as_num speed_v);
  do _ <- modify (on_day day_str
                    (fun s => set_max_wind_speed (Z.max (max_wind_speed s) speed) s));
  do humidity <- lift (py_get main "humidity" VNone);
  do _ <- modify (on_day day_str (append_humidity humidity));
  do _ <- (if 0 <? rain_3h
           then modify (on_day day_str (append_rain_3h rain_3h))
           else ret tt);
  modify (on_day day_str incr_count).

Definition is_none (v : pyval) : bool :=
  match v with VNone => true | _ => false end.

(** The body of the [try] of the aggregation loop, for one item of the
    list: an item that is not a record, or has no timestamp, is passed
    over. *)
Definition aggregate_entry (item : pyval) : M daily_summaries unit :=
  match item with
  | VDict e =>
      match assoc_get "dt" e with
      | None => ret tt
      | Some ts => if is_none ts then ret tt else aggregate_sample e ts
      end
  | _ => ret tt
  end.

(** [except (KeyError, TypeError, ValueError, AttributeError)] *)
Definition entry_handler_catches (e : exn) : bool :=
  match e with
  | KeyError | TypeError | ValueError | AttributeError => true
  | OverflowError => false
  end.

(** The aggregation loop: a caught exception skips the sample, any other
    leaves the loop. *)
Fixpoint aggregate (forecast_list : list pyval) : M daily_summaries unit :=
  match forecast_list with
  | [] => ret tt
  | item :: rest =>
      fun ds =>
        match aggregate_entry item ds with
        | (ds', Ok _) => aggregate rest ds'
        | (ds', Raise e) =>
            if entry_handler_catches e then aggregate rest ds' else (ds', Raise e)
        end
  end.

(** [sorted(keys)]: strings in ascending order. *)
Fixpoint insert_sorted (k : string) (l : list string) : list string :=
  match l with
  | [] => [k]
  | k' :: l' => if String.leb k k' then k :: l else k' :: insert_sorted k l'
  end.

Definition sorted (l : list string) : list string :=
  foldr insert_sorted [] l.

(** ** The state of the evaluation loop *)

Record loop_state : Type := mk_state {
  rk : risks;
  consecutive_dry_days : Z;
  consecutive_hot_days : Z;
  days_processed_for_risk : Z
}.

Definition initial_state : loop_state := mk_state initial_risks 0 0 0.

Definition on_risks (f : risks -> risks) (st : loop_state) : loop_state :=
  mk_state (f (rk st)) (consecutive_dry_days st) (consecutive_hot_days st)
    (days_processed_for_risk st).
Definition set_dry (v : Z) (st : loop_state) : loop_state :=
  mk_state (rk st) v (consecutive_hot_days st) (days_processed_for_risk st).
Definition set_hot (v : Z) (st : loop_state) : loop_state :=
  mk_state (rk st) (consecutive_dry_days st) v (days_processed_for_risk st).
Definition incr_processed (st : loop_state) : loop_state :=
  mk_state (rk st) (consecutive_dry_days st) (consecutive_hot_days st)
    (days_processed_for_risk st + 1).

Variable thresholds : gmap string Z.

(** Each check returns the alerts it adds to [day_alerts]. *)

Definition frost_alert (day_str : string) (min_t frost_threshold : Z) : string :=
  "Frost Risk on " +:+ day_str +:+ ": Min temp forecast " +:+ fmt_1f min_t +:+
  "°C (Threshold: <= " +:+ str_Z frost_threshold +:+ "°C).".

Definition check_frost (day_str : string) (summary : day_summary)
  : M loop_state (list string) :=
  let frost_threshold := th_get thresholds "frost_risk_temp_c" 2 in
  if min_temp summary <=? frost_threshold then
    do _ <- modify (on_risks (set_warning Frost));
    let alert := frost_alert day_str (min_temp summary) frost_threshold in
    do _ <- modify (on_risks (append_detail Frost alert));
    ret [alert]
  else ret [].

Definition flood_alert (day_str : string) (rain thresh : Z) : string :=
  "Flood Risk on " +:+ day_str +:+ ": Total rain forecast " +:+ fmt_1f rain +:+
  "mm (Threshold: >= " +:+ str_Z thresh +:+ "mm).".

Definition burst_alert (day_str : string) (rain thresh : Z) : string :=
  "Heavy Rain Burst Risk on " +:+ day_str +:+ ": Max 3h rain forecast " +:+ fmt_1f rain +:+
  "mm (Threshold: >= " +:+ str_Z thresh +:+ "mm).".

(** [max(l) if l else 0] *)
Definition max_or_zero (l : list Z) : Z :=
  match l with
  | [] => 0
  | x :: l' => fold_left Z.max l' x
  end.

Definition check_flood (day_str : string) (summary : day_summary)
  : M loop_state (list string) :=
  let flood_thresh_day := th_get thresholds "flood_risk_mm_per_day" 50 in
  let flood_thresh_3h := th_get thresholds "heavy_rain_mm_per_3h" 15 in
  let max_3h_rain := max_or_zero (rain_3h_intervals summary) in
  if flood_thresh_day <=? total_rain summary then
    do _ <- modify (on_risks (set_warning FloodHeavyRain));
    let alert := flood_alert day_str (total_rain summary) flood_thresh_day in
    do _ <- modify (on_risks (append_detail FloodHeavyRain alert));
    ret [alert]
  else if flood_thresh_3h <=? max_3h_rain then
    do _ <- modify (on_risks (set_warning FloodHeavyRain));
    let alert := burst_alert day_str max_3h_rain flood_thresh_3h in
    do _ <- modify (on_risks (append_detail FloodHeavyRain alert));
    ret [alert]
  else ret [].

Definition wind_alert (day_str : string) (wind thresh : Z) : string :=
  "High Wind Risk on " +:+ day_str +:+ ": Max wind forecast " +:+ fmt_1f wind +:+
  " m/s (Threshold: >= " +:+ str_Z thresh +:+ " m/s).".

Definition check_wind (day_str : string) (summary : day_summary)
  : M loop_state (list string) :=
  let wind_threshold := th_get thresholds "high_wind_speed_ms" 15 in
  if wind_threshold <=? max_wind_speed summary then
    do _ <- modify (on_risks (set_warning HighWind));
    let alert := wind_alert day_str (max_wind_speed summary) wind_threshold in
    do _ <- modify (on_risks (append_detail HighWind alert));
    ret [alert]
  else ret [].

(** [[h for h in readings if h is not None]] *)
Definition not_none (v : pyval) : bool :=
  match v with VNone => false | _ => true end.

(** The comparisons [h >= humid_thresh] over the readings: each reading
    must be a number. *)
Fixpoint readings_as_numbers (l : list pyval) : result (list Z) :=
  match l with
  | [] => Ok []
  | v :: l' =>
      match as_num v with
      | Raise e => Raise e
      | Ok z =>
          match readings_as_numbers l' with
          | Raise e => Raise e
          | Ok zs => Ok (z :: zs)
          end
      end
  end.

Definition sum_Z (l : list Z) : Z := fold_right Z.add 0 l.

Definition humidity_alert (day_str : string) (humid_hours humid_thresh : Z)
    (avg_humid_high : string) (humid_dur_thresh : Z) : string :=
  "Prolonged High Humidity Risk on " +:+ day_str +:+ ": Approx " +:+ str_Z humid_hours +:+
  " hours >= " +:+ str_Z humid_thresh +:+ "% (Avg high: " +:+ avg_humid_high +:+
  "%, Threshold: >= " +:+ str_Z humid_dur_thresh +:+ "h).".

Definition check_humidity (day_str : string) (summary : day_summary)
  : M loop_state (list string) :=
  let humid_thresh := th_get thresholds "high_humidity_perc" 85 in
  let humid_dur_thresh := th_get thresholds "high_humidity_duration_h" 12 in
  let humid_readings := List.filter not_none (humidity_readings summary) in
  do readings <- lift (readings_as_numbers humid_readings);
  let high := List.filter (fun h => humid_thresh <=? h) readings in
  let humid_hours := Z.of_nat (length high) * 3 in
  if (humid_dur_thresh <=? humid_hours) && negb (Nat.eqb (length humid_readings) 0) then
    do _ <- modify (on_risks (set_warning ProlongedHighHumidity));
    let avg_humid_high :=
      match high with
      | [] => str_Z humid_thresh
      | _ => fmt_div_0f (sum_Z high) (Z.of_nat (length high))
      end in
    let alert :=
      humidity_alert day_str humid_hours humid_thresh avg_humid_high humid_dur_thresh in
    do _ <- modify (on_risks (append_detail ProlongedHighHumidity alert));
    ret [alert]
  else ret [].

Definition drought_alert (dry mm : Z) (drought_start_day : string) : string :=
  "Drought Risk Developing: " +:+ str_Z dry +:+ " consecutive days with <= " +:+
  str_Z mm +:+ "mm rain starting around " +:+ drought_start_day +:+ ".".

Definition check_drought (day_date : date) (summary : day_summary)
  : M loop_state (list string) :=
  let drought_mm_thresh := th_get thresholds "drought_risk_mm" 2 in
  let drought_days_thresh := th_get thresholds "drought_risk_days" 7 in
  do _ <- modify (fun st =>
            if total_rain summary <=? drought_mm_thresh
            then set_dry (consecutive_dry_days st + 1) st
            else set_dry 0 st);
  do dry <- gets consecutive_dry_days;
  do warned <- gets (fun st => warning (drought (rk st)));
  if (drought_days_thresh <=? dry) && negb warned then
    do _ <- modify (on_risks (set_warning Drought));
    do start <- lift (date_sub_days day_date (dry - 1));
    let alert := drought_alert dry drought_mm_thresh (strftime start) in
    do _ <- modify (on_risks (append_detail Drought alert));
    ret [alert]
  else ret [].

Definition heatwave_alert (hot heat_temp_thresh : Z) (day_str : string) : string :=
  "Heatwave Risk: " +:+ str_Z hot +:+ " consecutive days >= " +:+
  str_Z heat_temp_thresh +:+ "°C (ending " +:+ day_str +:+ ").".

(** [any(f"ending {day_str}" in d for d in details)] *)
Definition already_alerted (day_str : string) (dets : list string) : bool :=
  existsb (contains ("ending " +:+ day_str)) dets.

Definition check_heatwave (day_str : string) (summary : day_summary)
  : M loop_state (list string) :=
  let heat_temp_thresh := th_get thresholds "heatwave_temp_c" 38 in
  let heat_days_thresh := th_get thresholds "heatwave_days" 3 in
  do _ <- modify (fun st =>
            if heat_temp_thresh <=? max_temp summary
            then set_hot (consecutive_hot_days st + 1) st
            else set_hot 0 st);
  do hot <- gets consecutive_hot_days;
  do dets <- gets (fun st => details (heatwave (rk st)));
  if (heat_days_thresh <=? hot) && negb (already_alerted day_str dets) then
    do _ <- modify (on_risks (set_warning Heatwave));
    let alert := heatwave_alert hot heat_temp_thresh day_str in
    do _ <- modify (on_risks (append_detail Heatwave alert));
    ret [alert]
  else ret [].

(** How an iteration of the evaluation loop ends when it does not raise. *)
Inductive ctl : Type := Next | Break.

(** The rules applied to a day that has passed the date filter: the six
    checks, the extension of the overall alerts and the test of the 5-day
    limit. *)
Definition apply_rules (day_str : string) (day_date : date) (summary : day_summary)
  : M loop_state ctl :=
  do a_frost <- check_frost day_str summary;
  do a_flood <- check_flood day_str summary;
  do a_wind <- check_wind day_str summary;
  do a_humid <- check_humidity day_str summary;
  do a_drought <- check_drought day_date summary;
  do a_heat <- check_heatwave day_str summary;
  let day_alerts := a_frost ++ a_flood ++ a_wind ++ a_humid ++ a_drought ++ a_heat in
  do _ <- (match day_alerts with
           | [] => ret tt
           | _ => modify (on_risks (extend_overall day_alerts))
           end);
  do processed <- gets days_processed_for_risk;
  if 5 <=? processed then ret Break else ret Next.

(** The body of the [try] of the evaluation loop, for one day. *)
Definition assess_day (daily_summary : daily_summaries) (day_str : string)
  : M loop_state ctl :=
  do day_date <- lift (strptime day_str);
  if date_ltb day_date today then ret Next
  else
    do _ <- modify incr_processed;
    do summary <- lift (match assoc_get day_str daily_summary with
                        | Some s => Ok s
                        | None => Raise KeyError
                        end);
    apply_rules day_str day_date summary.

(** The evaluation loop: [except Exception] resumes with the next day.
    Beside the state the loop leaves, the result tells whether the loop was
    left by [break]. *)
Fixpoint risk_loop (daily_summary : daily_summaries) (days : list string)
    (st : loop_state) : loop_state * ctl :=
  match days with
  | [] => (st, Next)
  | day_str :: rest =>
      match assess_day daily_summary day_str st with
      | (st', Ok Break) => (st', Break)
      | (st', Ok Next) => risk_loop daily_summary rest st'
      | (st', Raise _) => risk_loop daily_summary rest st'
      end
  end.

(** The main block, once the document has passed validation. *)
Definition assess_list (forecast_list : list pyval) : risks :=
  match aggregate forecast_list [] with
  | (_, Raise _) => initial_risks
  | (daily_summary, Ok _) =>
      rk (fst (risk_loop daily_summary (sorted (map fst daily_summary)) initial_state))
  end.

Definition assess_climate_risks_enhanced (forecast_data : pyval) : risks :=
  match forecast_data with
  | VDict d =>
      match assoc_get "list" d with
      | Some (VList (item :: rest)) => assess_list (item :: rest)
      | _ => initial_risks
      end
  | _ => initial_risks
  end.

End Environment.

End RiskAnalysis.

Import RiskAnalysis.

(* ================================================================== *)
(** * [src/advisories.py]: the advisory composer *)
(* ================================================================== *)

Module Advisories.

(** The dictionary [crop_info] built by the request handler. *)
Record crop_info : Type := mk_crop_info { crop_type : string; crop_stage : string }.

Definition NL : string := String "010"%char EmptyString.

Definition max_details_in_advisory : nat := 7.

Definition MISSING_LINE : string :=
  "❌ Could not generate advisories: Risk assessment data is missing.".
Definition NO_RISK_LINE : string :=
  "✅ No significant climate risks detected in the upcoming forecast based on current thresholds. Monitor crops as usual.".
Definition HEADER_LINE : string :=
  "--- Climate Risk Advisories & Recommendations ---".
Definition DETAILS_HEADER : string :=
  NL +:+ "--- Specific Forecast Details Triggering Warnings ---".
Definition TRUNCATION_MARKER : string := "  - ... (and potentially more)".
Definition DISCLAIMER : list string :=
  [ NL +:+ "---";
    "NOTE: These advisories are based on forecast data and general rules. Always combine with your local knowledge, field observations, and consult local agricultural experts for critical decisions." ].

Definition detail_line (detail : string) : string := "  - " +:+ detail.

(** [for i, detail in enumerate(overall_alerts)] from index [i] on. *)
Fixpoint detail_lines (i : nat) (alerts : list string) : list string :=
  match alerts with
  | [] => []
  | detail :: rest =>
      if Nat.ltb i max_details_in_advisory then
        detail_line detail :: detail_lines (S i) rest
      else if Nat.eqb i max_details_in_advisory then
        [TRUNCATION_MARKER]
      else detail_lines (S i) rest
  end.

Definition has_any_warning (r : risks) : bool :=
  existsb (fun c => warning (entry c r)) categories.

Definition drought_lines (ci : crop_info) : list string :=
  [ NL +:+ "⚠️ Drought / Dry Spell Risk:";
    "  - Focus on water conservation: check irrigation system efficiency, repair leaks.";
    if String.eqb (crop_stage ci) "Flowering" || String.eqb (crop_stage ci) "Fruiting/Maturity"
    then "  - CRITICAL STAGE (" +:+ crop_stage ci +:+
         "): Ensure adequate water if possible, as yield is highly sensitive now."
    else "  - Consider adjusting irrigation schedule if water is limited." ].

(** The advice blocks, in the order the source tests the categories. *)
Definition category_lines (r : risks) (ci : crop_info) : list string :=
  (if warning (drought r) then drought_lines ci else []) ++
  (if warning (flood_heavy_rain r) then [NL +:+ "⚠️ Flood / Heavy Rain Risk:"] else []) ++
  (if warning (heatwave r) then [NL +:+ "⚠️ Heatwave Risk:"] else []) ++
  (if warning (frost r) then [NL +:+ "⚠️ Frost Risk:"] else []) ++
  (if warning (high_wind r) then [NL +:+ "⚠️ High Wind Risk:"] else []) ++
  (if warning (prolonged_high_humidity r)
   then [NL +:+ "⚠️ Prolonged High Humidity Risk:"] else []).

Definition details_section (alerts : list string) : list string :=
  match alerts with
  | [] => []
  | _ => DETAILS_HEADER :: detail_lines 0 alerts
  end.

(** [risks] is [None] when the caller has no report. *)
Definition generate_advisories_enhanced (risks : option RiskAnalysis.risks)
    (ci : crop_info) : list string :=
  match risks with
  | None => [MISSING_LINE]
  | Some r =>
      if negb (has_any_warning r) then [NO_RISK_LINE]
      else
        [HEADER_LINE] ++ category_lines r ci ++
        details_section (overall_alerts r) ++ DISCLAIMER
  end.

End Advisories.

Import Advisories.

(* ================================================================== *)
(** * The exchanges with the weather service *)
(* ================================================================== *)

Module Http.

(** How [requests.get] followed by [raise_for_status()] and [json()] ends:
    with an exception of the [requests] library (an error status, a
    timeout, a failed connection), with any other exception, or with the
    decoded body.  The outcome of an exchange is a parameter of the
    functions that make one. *)
Inductive outcome : Type :=
| RequestError
| OtherError
| Decoded (body : pyval).

End Http.

(* ================================================================== *)
(** * [src/geocoding.py]: from an address to coordinates *)
(* ================================================================== *)

Module Geocoding.

(** What a call of [geocode_address] comes to: the pair it returns, or the
    [NameError] that leaves it. *)
Inductive geocoded : Type :=
| Returned (lat lon : option Z)
| NameErrorRaised.

(** [not v] *)
Definition falsy (v : pyval) : bool :=
  match v with
  | VNone => true
  | VBool b => negb b
  | VNum z => z =? 0
  | VStr s => match s with EmptyString => true | _ => false end
  | VList l => match l with [] => true | _ => false end
  | VDict d => match d with [] => true | _ => false end
  end.

(** [r.get(k)] *)
Definition get_or_none (r : list (string * pyval)) (k : string) : pyval :=
  match assoc_get k r with
  | Some v => v
  | None => VNone
  end.

(** The body of the [try] block from the decoded [results] on.  An
    exception raised here is not one of the [requests] library, so the
    first three handlers pass it on to the fourth, whose clause names
    [json]; the module does not import [json], and evaluating the clause
    raises [NameError], which leaves the function.  The exceptions are the
    [AttributeError] of [.get] on a first result that is not a record, and
    the [ValueError] or [TypeError] of the format [:.4f] on a coordinate
    that is not a number. *)
Definition geocode_results (results : pyval) : geocoded :=
  if falsy results then Returned None None
  else
    match results with
    | VList (first_result :: _) =>
        match first_result with
        | VDict r =>
            let lat := get_or_none r "lat" in
            let lon := get_or_none r "lon" in
            if negb (is_none lat) && negb (is_none lon) then
              match as_num lat, as_num lon with
              | Ok la, Ok lo => Returned (Some la) (Some lo)
              | _, _ => NameErrorRaised
              end
            else Returned None None
        | _ => NameErrorRaised
        end
    | _ => Returned None None
    end.

Definition geocode_address (address_query api_key : string) (exchange : Http.outcome)
  : geocoded :=
  if String.eqb address_query EmptyString || String.eqb api_key EmptyString then Returned None None
  else
    match exchange with
    | Http.RequestError => Returned None None
    | Http.OtherError => NameErrorRaised
    | Http.Decoded results => geocode_results results
    end.

End Geocoding.

Import Geocoding.

(* ================================================================== *)
(** * [src/weather.py]: the forecast of a place *)
(* ================================================================== *)

Module Weather.

(** Every exception is answered by [None]. *)
Definition get_weather_forecast_latlon (api_key : string) (lat lon : Z)
    (exchange : Http.outcome) : pyval :=
  match exchange with
  | Http.Decoded body => body
  | _ => VNone
  end.

End Weather.

Import Weather.

(* ================================================================== *)
(** * [app.py]: the request handler *)
(* ================================================================== *)

Module App.

(** What the handler answers: a redirection to the form with a flashed
    error message, or the results page. *)
Inductive response : Type :=
| Redirect (flash : string)
| Render (advisories : list string) (address : string) (lat lon : Z) (ci : crop_info).

Definition KEY_MISSING : string := "Server configuration error: API Key missing.".
Definition ADDRESS_MISSING : string := "Please enter a location.".
Definition NOT_FOUND (address : string) : string :=
  "Could not find coordinates for the location: '" +:+ address +:+
  "'. Please try a different format (e.g., 'City, Country Code').".
Definition NO_FORECAST : string :=
  "Successfully found location, but could not retrieve weather forecast data. The weather service might be temporarily unavailable.".
Definition SERVER_ERROR : string :=
  "An unexpected server error occurred. Please try again later.".

(** [form.get(k, dflt)] *)
Definition form_get (form : list (string * string)) (k dflt : string) : string :=
  match assoc_get k form with
  | Some v => v
  | None => dflt
  end.

(** The handler of [/get_advisory].  [API_KEY] is the value of the
    environment variable, [form] the submitted form, [geocoding] and
    [weather] the outcomes of the two exchanges in case they are made, and
    [defaults] the location of the dictionary [DEFAULT_THRESHOLDS].  The
    result is [None] only if [defaults] names no dictionary of the
    store. *)
Definition get_advisory (API_KEY : option string) (form : list (string * string))
    (geocoding weather : Http.outcome) (utc_offset : Z) (today : date)
    (h : store) (defaults : loc) : option (store * response) :=
  match API_KEY with
  | None | Some EmptyString => Some (h, Redirect KEY_MISSING)
  | Some key =>
      match assoc_get "address" form with
      | None | Some EmptyString => Some (h, Redirect ADDRESS_MISSING)
      | Some address =>
          let crop := form_get form "crop_type" "Other" in
          let stage := form_get form "growth_stage" "Vegetative" in
          match geocode_address address key geocoding with
          | NameErrorRaised => Some (h, Redirect SERVER_ERROR)
          | Returned (Some lat) (Some lon) =>
              let weather_data := get_weather_forecast_latlon key lat lon weather in
              if is_none weather_data then Some (h, Redirect NO_FORECAST)
              else
                let ci := mk_crop_info crop stage in
                match get_adjusted_thresholds h defaults crop stage with
                | None => None
                | Some (h', adjusted) =>
                    match h' !! adjusted with
                    | None => None
                    | Some thresholds =>
                        let identified_risks :=
                          assess_climate_risks_enhanced utc_offset today thresholds
                            weather_data in
                        let farmer_advisories :=
                          generate_advisories_enhanced (Some identified_risks) ci in
                        Some (h', Render farmer_advisories address lat lon ci)
                    end
                end
          | Returned _ _ => Some (h, Redirect (NOT_FOUND address))
          end
      end
  end.

End App.

Import App.

(* ================================================================== *)
(** * Vocabulary of the statements *)
(* ================================================================== *)

(** A report in which nothing is flagged. *)
Definition all_clear (r : risks) : Prop :=
  (forall c, warning (entry c r) = false /\ details (entry c r) = []) /\
  overall_alerts r = [].

(** Forecast documents that do not carry a non-empty list of samples. *)
Inductive degraded_document : pyval -> Prop :=
| doc_null : degraded_document VNone
| doc_not_record v : (forall d, v <> VDict d) -> degraded_document v
| doc_no_list d : assoc_get "list" d = None -> degraded_document (VDict d)
| doc_empty_list d : assoc_get "list" d = Some (VList []) -> degraded_document (VDict d)
| doc_not_list d v :
    assoc_get "list" d = Some v -> (forall l, v <> VList l) ->
    degraded_document (VDict d).

(** The four thresholds that the adjustment rules assign. *)
Definition adjusted_keys : list string :=
  ["heatwave_temp_c"; "drought_risk_days"; "frost_risk_temp_c"; "high_wind_speed_ms"].

(** ** What a sample contributes to its day *)










(** ** Concrete forecasts for the examples *)

(** A sample with every field the aggregation reads. *)
Definition forecast_sample (ts temp_max temp_min : Z) (humidity : pyval)
    (wind_speed rain_3h : Z) : pyval :=
  VDict [ ("dt", VNum ts);
          ("main", VDict [ ("temp_max", VNum temp_max); ("temp_min", VNum temp_min);
                           ("humidity", humidity) ]);
          ("wind", VDict [ ("speed", VNum wind_speed) ]);
          ("rain", VDict [ ("3h", VNum rain_3h) ]) ].

(** Midnight UTC of 2026-11-03, and the length of a day, in seconds. *)
Definition T0 : Z := 1793664000.
Definition DAY : Z := 86400.

(** ** Reasoning about the loops *)

(** [triple P m Q E]: run from a state in [P], the computation [m] ends in
    a state in [Q a] when it returns [a], and in a state in [E] when it
    raises. *)
Definition triple {S A : Type} (P : S -> Prop) (m : M S A)
    (Q : A -> S -> Prop) (E : S -> Prop) : Prop :=
  forall s, P s ->
    match m s with
    | (s', Ok a) => Q a s'
    | (s', Raise _) => E s'
    end.

(** Setting the flag of a category and appending an alert to its details,
    as the checks do when they fire. *)
Definition fire (c : category) (alert : string) (st : loop_state) : loop_state :=
  on_risks (append_detail c alert) (on_risks (set_warning c) st).

(** A property of the loop state that no assignment to the entry of
    category [c] can break. *)
Definition stable_for (c : category) (P : loop_state -> Prop) : Prop :=
  forall st e, P st -> P (on_risks (set_entry c e) st).

(** The report is consistent: a category with details is flagged, and
    every overall alert is a detail of some category. *)
Definition report_consistent (r : risks) : Prop :=
  (forall c, details (entry c r) <> [] -> warning (entry c r) = true) /\
  (forall a, a ∈ overall_alerts r -> exists c, a ∈ details (entry c r)).

(** The same during a day: [alerts] are the alerts the day has produced
    so far. *)
Definition consistent_with (alerts : list string) (st : loop_state) : Prop :=
  report_consistent (rk st) /\
  (forall a, a ∈ alerts -> exists c, a ∈ details (entry c (rk st))).

(** The date a sample falls on, under the conditions of [sample_day]. *)
Definition sample_date (utc_offset : Z) (item : pyval) : option date :=
  match item with
  | VDict e =>
      match assoc_get "dt" e with
      | None => None
      | Some ts =>
          if is_none ts then None
          else match fromtimestamp utc_offset ts with
               | Ok d => Some d
               | Raise _ => None
               end
      end
  | _ => None
  end.

(** A forecast of six days from 2026-11-03 on, one sample a day.  The
    fifth day is cold and carries a humidity reading that is a string; the
    sixth day is cold. *)
Definition six_day_forecast : pyval :=
  VDict [ ("cod", VStr "200");
          ("list", VList
             [ forecast_sample T0 20 10 (VNum 50) 3 0;
               forecast_sample (T0 + DAY) 20 10 (VNum 50) 3 0;
               forecast_sample (T0 + 2 * DAY) 20 10 (VNum 50) 3 0;
               forecast_sample (T0 + 3 * DAY) 20 10 (VNum 50) 3 0;
               forecast_sample (T0 + 4 * DAY) 20 0 (VStr "high") 3 0;
               forecast_sample (T0 + 5 * DAY) 20 1 (VNum 50) 3 0 ]) ].

(** The key [k] of the summaries is the formatted date of one of the
    samples. *)
Definition key_of_sample (utc_offset : Z) (samples : list pyval) (k : string) : Prop :=
  exists item d,
    item ∈ samples /\ sample_date utc_offset item = Some d /\
    valid_date d = true /\ k = strftime d.

(** ** Days on which the rules run to their end *)




(** The drought entry and the dry-day counter agree: the counter stays
    below the threshold [n] until the flag is set, and the flag comes with
    exactly one detail.  [w] records that the flag was set before. *)
Definition drought_inv (n : Z) (w : bool) (st : loop_state) : Prop :=
  0 <= consecutive_dry_days st /\
  (warning (drought (rk st)) = false ->
   details (drought (rk st)) = [] /\ consecutive_dry_days st < n) /\
  (warning (drought (rk st)) = true -> length (details (drought (rk st))) = 1%nat) /\
  (w = true -> warning (drought (rk st)) = true).

(** A property of the loop state that depends only on the drought entry,
    the dry-day counter and the count of processed days. *)
Definition drought_view (P : loop_state -> Prop) : Prop :=
  forall st st',
    drought (rk st') = drought (rk st) ->
    consecutive_dry_days st' = consecutive_dry_days st ->
    days_processed_for_risk st' = days_processed_for_risk st ->
    P st -> P st'.


(** ** Strings *)







(** ** The shape of the summaries *)

(** What the aggregation maintains of a summary: [count] is the number of
    humidity readings, the rain intervals are positive and no more than
    the readings, the wind maximum is not negative, and the temperature
    extremes are within the sentinels. *)
Definition summary_shape (s : day_summary) : Prop :=
  count s = Z.of_nat (length (humidity_readings s)) /\
  (length (rain_3h_intervals s) <= length (humidity_readings s))%nat /\
  Forall (fun r => 0 < r) (rain_3h_intervals s) /\
  0 <= max_wind_speed s /\ -100 <= max_temp s /\ min_temp s <= 200.

(** The summary of day [d] satisfies [X], every other one has the shape. *)
Definition shaped_at (d : string) (X : day_summary -> Prop) (ds : daily_summaries) : Prop :=
  forall k s, assoc_get k ds = Some s ->
    if String.eqb d k then X s else summary_shape s.

Definition shaped (ds : daily_summaries) : Prop :=
  forall k s, assoc_get k ds = Some s -> summary_shape s.

(** An item of the forecast list that the aggregation passes over without
    touching the summaries: it is not a record, it has no timestamp, or the
    conversion of its timestamp raises an exception that the handler of the
    loop catches. *)
Definition passed_over (utc_offset : Z) (item : pyval) : bool :=
  match item with
  | VDict e =>
      match assoc_get "dt" e with
      | None => true
      | Some ts =>
          is_none ts ||
          match fromtimestamp utc_offset ts with
          | Raise err => entry_handler_catches err
          | Ok _ => false
          end
      end
  | _ => true
  end.


(** ** Complete samples and the exceptions of the aggregation *)



(** ** How a report grows *)

(** The report [r'] extends [r]: every category keeps its details, in
    order, at the front of its list, a flag that is set stays set, and the
    overall alerts of [r] are at the front of those of [r']. *)
Definition report_extends (r r' : risks) : Prop :=
  (forall c, details (entry c r) `prefix_of` details (entry c r') /\
             (warning (entry c r) = true -> warning (entry c r') = true)) /\
  overall_alerts r `prefix_of` overall_alerts r'.

(** Category [c] has at most [n] details. *)
Definition details_within (c : category) (n : Z) (st : loop_state) : Prop :=
  Z.of_nat (length (details (entry c (rk st)))) <= n.

(** No category has more details than days have been counted. *)
Definition details_counted (st : loop_state) : Prop :=
  forall c, details_within c (days_processed_for_risk st) st.

(** The drought entry has a detail only when it is flagged, and never more
    than one. *)
Definition drought_once (st : loop_state) : Prop :=
  (warning (drought (rk st)) = false -> details (drought (rk st)) = []) /\
  (length (details (drought (rk st))) <= 1)%nat.




(** ** The lines of an advisory *)

(** The heading of the advice block of a category. *)
Definition category_heading (c : category) : string :=
  match c with
  | Drought => NL +:+ "⚠️ Drought / Dry Spell Risk:"
  | FloodHeavyRain => NL +:+ "⚠️ Flood / Heavy Rain Risk:"
  | Heatwave => NL +:+ "⚠️ Heatwave Risk:"
  | Frost => NL +:+ "⚠️ Frost Risk:"
  | HighWind => NL +:+ "⚠️ High Wind Risk:"
  | ProlongedHighHumidity => NL +:+ "⚠️ Prolonged High Humidity Risk:"
  end.

Definition first_char (s : string) : option ascii :=
  match s with
  | EmptyString => None
  | String c _ => Some c
  end.

(* PROPERTIES *)

(* ================================================================== *)
(** * Degraded input *)
(* ================================================================== *)

Lemma initial_risks_all_clear : all_clear initial_risks.
Proof. split; [intros []; split; reflexivity | reflexivity]. Qed.

(** C1. A forecast document that is null, not a record, without a sample
    list, or whose sample list is empty or not a list, is answered by the
    report in which every category has [warning = false] and no details and
    the overall alert list is empty.  The evaluator is a total function:
    nothing is raised to its caller. *)
Theorem degraded_document_all_clear :
  forall (utc_offset : Z) (today : date) (thresholds : gmap string Z) (fd : pyval),
    degraded_document fd ->
    assess_climate_risks_enhanced utc_offset today thresholds fd = initial_risks /\
    all_clear (assess_climate_risks_enhanced utc_offset today thresholds fd).
Proof.
  intros utc_offset today thresholds fd Hdeg.
  assert (Heq : assess_climate_risks_enhanced utc_offset today thresholds fd
                = initial_risks).
  { destruct Hdeg as [ | v Hv | d Hd | d Hd | d v Hd Hv ]; simpl.
    - reflexivity.
    - destruct v; try reflexivity. exfalso. eapply Hv. reflexivity.
    - rewrite Hd. reflexivity.
    - rewrite Hd. reflexivity.
    - rewrite Hd. destruct v; try reflexivity.
      exfalso. eapply Hv. reflexivity. }
  split; [exact Heq |]. rewrite Heq. apply initial_risks_all_clear.
Qed.

Lemma degraded_document_all_clear_witness :
  all_clear
    (assess_climate_risks_enhanced 0 (mkdate 2026 11 3) DEFAULT_THRESHOLDS
       (VDict [("cod", VStr "200"); ("list", VStr "none")])).
Proof.
  apply (degraded_document_all_clear 0 (mkdate 2026 11 3) DEFAULT_THRESHOLDS
           (VDict [("cod", VStr "200"); ("list", VStr "none")])).
  apply (doc_not_list _ (VStr "none")); [reflexivity | intros l H; discriminate H].
Defined.

(* ================================================================== *)
(** * The threshold provider *)
(* ================================================================== *)

Section ConfigFacts.

Implicit Types (h : store) (l : loc) (d base : gmap string Z).

Lemma dict_setitem_insert h l d k v :
  dict_setitem (<[l := d]> h) l k v = <[l := <[k := v]> d]> h.
Proof. unfold dict_setitem. apply alter_insert_eq. Qed.

Lemma dict_get_insert h l d k dflt :
  dict_get (<[l := d]> h) l k dflt = th_get d k dflt.
Proof. unfold dict_get. by rewrite lookup_insert_eq. Qed.

(** The assignments of [get_adjusted_thresholds] land in the copy, and the
    copy ends as the four rules applied one after the other. *)
Lemma get_adjusted_thresholds_run h l base crop stage :
  h !! l = Some base ->
  get_adjusted_thresholds h l crop stage =
    Some (<[fresh (dom h) := spec_adjust_sequential crop stage base]> h,
          fresh (dom h)).
Proof.
  intros Hl. unfold get_adjusted_thresholds, dict_copy. rewrite Hl.
  unfold spec_adjust_sequential, spec_rule1, spec_rule2, spec_rule3, spec_rule4.
  set (a := fresh (dom h)).
  destruct (stage_is_sensitive stage);
    destruct (String.eqb crop "Rice" && negb (String.eqb stage "Germination/Seedling"));
    destruct (String.eqb crop "Vegetables" && String.eqb stage "Germination/Seedling");
    destruct (String.eqb crop "Maize" && String.eqb stage "Fruiting/Maturity");
    repeat (rewrite ?dict_setitem_insert, ?dict_get_insert);
    unfold th_get;
    repeat match goal with
           | |- context [ <[?i := ?x]> ?m !! ?j ] =>
               rewrite (lookup_insert_ne m i j x) by done
           end;
    reflexivity.
Qed.

Lemma fresh_loc_unused h : h !! fresh (dom h) = None.
Proof. apply not_elem_of_dom, is_fresh. Qed.

Lemma spec_rule1_frame stage d k :
  k ∉ adjusted_keys -> spec_rule1 stage d !! k = d !! k.
Proof.
  intros Hk. unfold spec_rule1. destruct (stage_is_sensitive stage); [| done].
  rewrite !lookup_insert_ne; [done | |]; intros <-; apply Hk; unfold adjusted_keys;
    rewrite !elem_of_cons; auto.
Qed.

Lemma spec_rule2_frame crop stage d k :
  k ∉ adjusted_keys -> spec_rule2 crop stage d !! k = d !! k.
Proof.
  intros Hk. unfold spec_rule2.
  destruct (_ && _); [| done].
  rewrite lookup_insert_ne; [done |]. intros <-. apply Hk. unfold adjusted_keys.
  rewrite !elem_of_cons; auto.
Qed.

Lemma spec_rule3_frame crop stage d k :
  k ∉ adjusted_keys -> spec_rule3 crop stage d !! k = d !! k.
Proof.
  intros Hk. unfold spec_rule3.
  destruct (_ && _); [| done].
  rewrite lookup_insert_ne; [done |]. intros <-. apply Hk. unfold adjusted_keys.
  rewrite !elem_of_cons; auto.
Qed.

Lemma spec_rule4_frame crop stage d k :
  k ∉ adjusted_keys -> spec_rule4 crop stage d !! k = d !! k.
Proof.
  intros Hk. unfold spec_rule4.
  destruct (_ && _); [| done].
  rewrite lookup_insert_ne; [done |]. intros <-. apply Hk. unfold adjusted_keys.
  rewrite !elem_of_cons; auto.
Qed.

(** C6. With stage "Flowering" and crop "Rice" the result is rule 1
    followed by rule 2, rule 2 reading the day count that rule 1 left:
    heatwave_temp_c = max(32, base - 3) and
    drought_risk_days = min(10, max(3, base - 2) + 3).  From the documented
    defaults this is 35 and 8, whereas computing every rule from the base
    values gives 10 drought days. *)
Theorem flowering_rice_composes :
  forall h l base,
    h !! l = Some base ->
    exists h' adjusted t,
      get_adjusted_thresholds h l "Rice" "Flowering" = Some (h', adjusted) /\
      h' !! adjusted = Some t /\
      t = spec_rule2 "Rice" "Flowering" (spec_rule1 "Flowering" base) /\
      t !! "heatwave_temp_c" = Some (Z.max 32 (th_get base "heatwave_temp_c" 38 - 3)) /\
      t !! "drought_risk_days" =
        Some (Z.min 10 (Z.max 3 (th_get base "drought_risk_days" 7 - 2) + 3)) /\
      (base = DEFAULT_THRESHOLDS ->
       t !! "heatwave_temp_c" = Some 35 /\
       t !! "drought_risk_days" = Some 8 /\
       spec_adjust_independent "Rice" "Flowering" base !! "drought_risk_days" = Some 10 /\
       t <> spec_adjust_independent "Rice" "Flowering" base).
Proof.
  intros h l base Hl.
  eexists _, _, _. split; [apply (get_adjusted_thresholds_run _ _ _ _ _ Hl) |].
  split; [apply lookup_insert_eq |].
  assert (Hseq : spec_adjust_sequential "Rice" "Flowering" base
                 = spec_rule2 "Rice" "Flowering" (spec_rule1 "Flowering" base))
    by reflexivity.
  rewrite Hseq. split; [reflexivity |].
  assert (Hheat : spec_rule2 "Rice" "Flowering" (spec_rule1 "Flowering" base)
                    !! "heatwave_temp_c"
                  = Some (Z.max 32 (th_get base "heatwave_temp_c" 38 - 3))).
  { unfold spec_rule2, spec_rule1; simpl.
    rewrite lookup_insert_ne by done. rewrite lookup_insert_ne by done.
    apply lookup_insert_eq. }
  assert (Hdry : spec_rule2 "Rice" "Flowering" (spec_rule1 "Flowering" base)
                   !! "drought_risk_days"
                 = Some (Z.min 10 (Z.max 3 (th_get base "drought_risk_days" 7 - 2) + 3))).
  { unfold spec_rule2, spec_rule1; simpl. rewrite lookup_insert_eq.
    unfold th_get at 1. rewrite lookup_insert_eq. reflexivity. }
  split; [exact Hheat |]. split; [exact Hdry |].
  intros ->.
  assert (Hind : spec_adjust_independent "Rice" "Flowering" DEFAULT_THRESHOLDS
                   !! "drought_risk_days" = Some 10).
  { unfold spec_adjust_independent; simpl. rewrite lookup_insert_eq. reflexivity. }
  split; [rewrite Hheat; reflexivity |].
  split; [rewrite Hdry; reflexivity |].
  split; [exact Hind |].
  intros Heq. rewrite Heq in Hdry. rewrite Hind in Hdry. discriminate Hdry.
Qed.

Lemma flowering_rice_composes_witness :
  exists h' adjusted t,
    get_adjusted_thresholds {[ 1%positive := DEFAULT_THRESHOLDS ]} 1%positive
      "Rice" "Flowering" = Some (h', adjusted) /\
    h' !! adjusted = Some t /\
    t !! "heatwave_temp_c" = Some 35 /\ t !! "drought_risk_days" = Some 8.
Proof.
  destruct (flowering_rice_composes {[ 1%positive := DEFAULT_THRESHOLDS ]} 1%positive
              DEFAULT_THRESHOLDS (lookup_singleton_eq _ _))
    as (h' & adjusted & t & Hrun & Ht & _ & _ & _ & Hdef).
  exists h', adjusted, t.
  destruct (Hdef eq_refl) as (H35 & H8 & _).
  repeat split; assumption.
Defined.

(** C8. The adjustment allocates a new dictionary: the dictionary passed
    in, and every other object of the store, is as before the call, and
    the new dictionary agrees with the base on every key other than the
    four that the rules assign. *)
Theorem adjust_copies_and_frames :
  forall h l base crop stage,
    h !! l = Some base ->
    exists h' adjusted t,
      get_adjusted_thresholds h l crop stage = Some (h', adjusted) /\
      adjusted <> l /\
      h !! adjusted = None /\
      h' !! l = Some base /\
      (forall l', l' <> adjusted -> h' !! l' = h !! l') /\
      h' !! adjusted = Some t /\
      (forall k, k ∉ adjusted_keys -> t !! k = base !! k).
Proof.
  intros h l base crop stage Hl.
  pose proof (fresh_loc_unused h) as Hfresh.
  assert (Hne : fresh (dom h) <> l) by (intros Heq; rewrite Heq, Hl in Hfresh; done).
  eexists _, _, _. split; [apply (get_adjusted_thresholds_run _ _ _ _ _ Hl) |].
  split; [exact Hne |]. split; [exact Hfresh |].
  split; [by rewrite lookup_insert_ne |].
  split; [intros l' Hl'; by rewrite lookup_insert_ne |].
  split; [apply lookup_insert_eq |].
  intros k Hk. unfold spec_adjust_sequential.
  rewrite spec_rule4_frame, spec_rule3_frame, spec_rule2_frame, spec_rule1_frame;
    done.
Qed.

Lemma adjust_copies_and_frames_witness :
  exists h' adjusted t,
    get_adjusted_thresholds {[ 1%positive := DEFAULT_THRESHOLDS ]} 1%positive
      "Maize" "Fruiting/Maturity" = Some (h', adjusted) /\
    adjusted <> 1%positive /\
    h' !! 1%positive = Some DEFAULT_THRESHOLDS /\
    h' !! adjusted = Some t /\
    t !! "flood_risk_mm_per_day" = DEFAULT_THRESHOLDS !! "flood_risk_mm_per_day".
Proof.
  destruct (adjust_copies_and_frames {[ 1%positive := DEFAULT_THRESHOLDS ]} 1%positive
              DEFAULT_THRESHOLDS "Maize" "Fruiting/Maturity" (lookup_singleton_eq _ _))
    as (h' & adjusted & t & Hrun & Hne & _ & Hbase & _ & Ht & Hframe).
  exists h', adjusted, t.
  repeat split; try assumption.
  apply Hframe. unfold adjusted_keys.
  rewrite !not_elem_of_cons. repeat split; try done. apply not_elem_of_nil.
Defined.

End ConfigFacts.

(* ================================================================== *)
(** * The advisory composer *)
(* ================================================================== *)

Section AdvisoryFacts.

(** The loop over the alerts from index [i <= 7] on: the next [7 - i]
    alerts as detail lines, then the marker when an alert is left. *)
Lemma detail_lines_from (alerts : list string) :
  forall i : nat,
    (i <= max_details_in_advisory)%nat ->
    detail_lines i alerts =
      map detail_line (take (max_details_in_advisory - i) alerts) ++
      (if Nat.ltb (max_details_in_advisory - i) (length alerts)
       then [TRUNCATION_MARKER] else []).
Proof.
  unfold max_details_in_advisory.
  induction alerts as [| a rest IH]; intros i Hi.
  - simpl. destruct (7 - i)%nat; reflexivity.
  - cbn [detail_lines]. unfold max_details_in_advisory.
    destruct (Nat.ltb_spec i 7) as [Hlt | Hge].
    + rewrite (IH (S i)) by lia.
      replace (7 - i)%nat with (S (7 - S i)) by lia.
      cbn [take map length app].
      destruct (Nat.ltb_spec (7 - S i) (length rest));
        destruct (Nat.ltb_spec (S (7 - S i)) (S (length rest)));
        try lia; reflexivity.
    + assert (i = 7%nat) as -> by lia. reflexivity.
Qed.

(** C7. For a report with at least one flagged category the composer
    emits, under the details header, the first 7 overall alerts as detail
    lines, followed by one truncation marker line (which contains "and
    potentially more") exactly when the report has more than 7 overall
    alerts; with 7 or fewer no marker is emitted. *)
Theorem advisory_details_truncated :
  forall (r : risks) (ci : crop_info),
    has_any_warning r = true ->
    generate_advisories_enhanced (Some r) ci =
      [HEADER_LINE] ++ category_lines r ci ++
      match overall_alerts r with
      | [] => []
      | _ =>
          DETAILS_HEADER ::
          map detail_line (take 7 (overall_alerts r)) ++
          (if Nat.ltb 7 (length (overall_alerts r)) then [TRUNCATION_MARKER] else [])
      end ++ DISCLAIMER /\
    contains "and potentially more" TRUNCATION_MARKER = true /\
    (length (take 7 (overall_alerts r)) <= 7)%nat.
Proof.
  intros r ci Hany. split; [| split].
  - unfold generate_advisories_enhanced. rewrite Hany. cbn [negb].
    unfold details_section.
    destruct (overall_alerts r) as [| a rest] eqn:Halerts; [reflexivity |].
    rewrite (detail_lines_from (a :: rest) 0) by (unfold max_details_in_advisory; lia).
    reflexivity.
  - reflexivity.
  - rewrite length_take. lia.
Qed.

Lemma advisory_details_truncated_witness :
  generate_advisories_enhanced
    (Some (mk_risks no_risk no_risk no_risk (mk_entry true ["f"]) no_risk no_risk
             ["a1"; "a2"; "a3"; "a4"; "a5"; "a6"; "a7"; "a8"; "a9"]))
    (mk_crop_info "Rice" "Vegetative") =
  [HEADER_LINE; NL +:+ "⚠️ Frost Risk:"; DETAILS_HEADER;
   "  - a1"; "  - a2"; "  - a3"; "  - a4"; "  - a5"; "  - a6"; "  - a7";
   TRUNCATION_MARKER] ++ DISCLAIMER.
Proof.
  destruct (advisory_details_truncated
              (mk_risks no_risk no_risk no_risk (mk_entry true ["f"]) no_risk no_risk
                 ["a1"; "a2"; "a3"; "a4"; "a5"; "a6"; "a7"; "a8"; "a9"])
              (mk_crop_info "Rice" "Vegetative") eq_refl) as [H _].
  rewrite H. reflexivity.
Defined.

End AdvisoryFacts.

(* ================================================================== *)
(** * Daily aggregation *)
(* ================================================================== *)

Section AssocFacts.

Context {A : Type}.
Implicit Types (l : list (string * A)) (k : string).

Lemma assoc_get_app k l1 l2 :
  assoc_get k (l1 ++ l2) =
    match assoc_get k l1 with
    | Some v => Some v
    | None => assoc_get k l2
    end.
Proof.
  induction l1 as [| [k' v] l1 IH]; simpl; [reflexivity |].
  destruct (String.eqb k k'); [reflexivity | exact IH].
Qed.


End AssocFacts.

Section SummaryFacts.

Implicit Types (ds : daily_summaries) (k d : string) (f : day_summary -> day_summary).

Lemma assoc_get_on_day k d f ds :
  assoc_get k (on_day d f ds) =
    if String.eqb d k then option_map f (assoc_get k ds) else assoc_get k ds.
Proof.
  induction ds as [| [k' s] ds IH]; simpl.
  - destruct (String.eqb d k); reflexivity.
  - destruct (String.eqb_spec d k') as [-> | Hd]; simpl.
    + destruct (String.eqb_spec k' k) as [-> | Hk].
      * rewrite String.eqb_refl. reflexivity.
      * destruct (String.eqb_spec k k'); [congruence | reflexivity].
    + destruct (String.eqb_spec k k') as [-> | Hk].
      * destruct (String.eqb_spec d k'); [congruence | reflexivity].
      * exact IH.
Qed.

Lemma assoc_get_init_day k d ds :
  assoc_get k (init_day d ds) =
    if String.eqb d k then Some (summary_of k ds) else assoc_get k ds.
Proof.
  unfold init_day, summary_of.
  destruct (String.eqb_spec d k) as [-> | Hd].
  - destruct (assoc_get k ds) eqn:Hk; [exact Hk |].
    rewrite assoc_get_app, Hk. simpl. rewrite String.eqb_refl. reflexivity.
  - destruct (assoc_get d ds); [reflexivity |].
    rewrite assoc_get_app. destruct (assoc_get k ds); [reflexivity |].
    simpl. destruct (String.eqb_spec k d); [congruence | reflexivity].
Qed.






Lemma keys_on_day d f ds : map fst (on_day d f ds) = map fst ds.
Proof.
  induction ds as [| [k s] ds IH]; simpl; [reflexivity |].
  destruct (String.eqb d k); simpl; [reflexivity | by rewrite IH].
Qed.


End SummaryFacts.

Section AggregationFacts.

Variable utc_offset : Z.









End AggregationFacts.




(* ================================================================== *)
(** * The evaluation loop *)
(* ================================================================== *)

Section MonadFacts.

Context {S : Type}.
Implicit Types (P E : S -> Prop).

Lemma triple_ret {A} P (a : A) (Q : A -> S -> Prop) E :
  (forall s, P s -> Q a s) -> triple P (ret a) Q E.
Proof. intros H s Hs. cbn. auto. Qed.

Lemma triple_bind {A B} P (m : M S A) (Q : A -> S -> Prop) (k : A -> M S B)
    (R : B -> S -> Prop) E :
  triple P m Q E -> (forall a, triple (Q a) (k a) R E) -> triple P (bind m k) R E.
Proof.
  intros Hm Hk s Hs. unfold bind. specialize (Hm s Hs).
  destruct (m s) as [s' [a | err]]; [| exact Hm].
  apply (Hk a s' Hm).
Qed.

Lemma triple_lift {A} P (r : result A) (Q : A -> S -> Prop) E :
  (forall s a, P s -> r = Ok a -> Q a s) ->
  (forall s e, P s -> r = Raise e -> E s) ->
  triple P (lift r) Q E.
Proof. intros Hok Herr s Hs. unfold lift. destruct r; eauto. Qed.

Lemma triple_modify P (f : S -> S) (Q : unit -> S -> Prop) E :
  (forall s, P s -> Q tt (f s)) -> triple P (modify f) Q E.
Proof. intros H s Hs. cbn. auto. Qed.

Lemma triple_gets {A} P (f : S -> A) (Q : A -> S -> Prop) E :
  (forall s, P s -> Q (f s) s) -> triple P (gets f) Q E.
Proof. intros H s Hs. cbn. auto. Qed.

Lemma triple_weaken {A} P P' (m : M S A) (Q Q' : A -> S -> Prop) E E' :
  triple P' m Q' E' ->
  (forall s, P s -> P' s) -> (forall a s, Q' a s -> Q a s) -> (forall s, E' s -> E s) ->
  triple P m Q E.
Proof.
  intros Hm HP HQ HE s Hs. specialize (Hm s (HP s Hs)).
  destruct (m s) as [s' [a | err]]; auto.
Qed.

End MonadFacts.

Section ReportFacts.

Implicit Types (r : risks) (c : category) (e : risk_entry) (st : loop_state).

Lemma entry_set_entry_eq c e r : entry c (set_entry c e r) = e.
Proof. destruct c; reflexivity. Qed.

Lemma entry_set_entry_ne c c' e r : c <> c' -> entry c (set_entry c' e r) = entry c r.
Proof. destruct c, c'; intros H; try reflexivity; congruence. Qed.

Lemma set_entry_twice c e1 e2 r : set_entry c e2 (set_entry c e1 r) = set_entry c e2 r.
Proof. destruct c; reflexivity. Qed.

Lemma overall_set_entry c e r : overall_alerts (set_entry c e r) = overall_alerts r.
Proof. destruct c; reflexivity. Qed.

Lemma entry_extend_overall c l r : entry c (extend_overall l r) = entry c r.
Proof. destruct c; reflexivity. Qed.

Lemma fire_set_entry c alert st :
  fire c alert st =
    on_risks (set_entry c (mk_entry true (details (entry c (rk st)) ++ [alert]))) st.
Proof.
  unfold fire, on_risks, append_detail, set_warning; cbn.
  rewrite entry_set_entry_eq, set_entry_twice. reflexivity.
Qed.

Lemma set_warning_set_entry c st :
  on_risks (set_warning c) st =
    on_risks (set_entry c (mk_entry true (details (entry c (rk st))))) st.
Proof. reflexivity. Qed.

Lemma stable_fire c P alert st : stable_for c P -> P st -> P (fire c alert st).
Proof. intros HP Hst. rewrite fire_set_entry. by apply HP. Qed.

Lemma stable_set_warning c P st :
  stable_for c P -> P st -> P (on_risks (set_warning c) st).
Proof. intros HP Hst. rewrite set_warning_set_entry. by apply HP. Qed.

End ReportFacts.

Section CheckFacts.

Variable thresholds : gmap string Z.
Implicit Types (st : loop_state) (summary : day_summary) (day_str : string).

(** The checks in closed form. *)

Lemma check_frost_run day_str summary st :
  check_frost thresholds day_str summary st =
    let frost_threshold := th_get thresholds "frost_risk_temp_c" 2 in
    if min_temp summary <=? frost_threshold then
      let alert := frost_alert day_str (min_temp summary) frost_threshold in
      (fire Frost alert st, Ok [alert])
    else (st, Ok []).
Proof. unfold check_frost. cbn zeta. destruct (_ <=? _); reflexivity. Qed.

Lemma check_flood_run day_str summary st :
  check_flood thresholds day_str summary st =
    let flood_thresh_day := th_get thresholds "flood_risk_mm_per_day" 50 in
    let flood_thresh_3h := th_get thresholds "heavy_rain_mm_per_3h" 15 in
    let max_3h_rain := max_or_zero (rain_3h_intervals summary) in
    if flood_thresh_day <=? total_rain summary then
      let alert := flood_alert day_str (total_rain summary) flood_thresh_day in
      (fire FloodHeavyRain alert st, Ok [alert])
    else if flood_thresh_3h <=? max_3h_rain then
      let alert := burst_alert day_str max_3h_rain flood_thresh_3h in
      (fire FloodHeavyRain alert st, Ok [alert])
    else (st, Ok []).
Proof.
  unfold check_flood. cbn zeta.
  destruct (_ <=? total_rain summary); [reflexivity |].
  destruct (_ <=? max_or_zero _); reflexivity.
Qed.

Lemma check_wind_run day_str summary st :
  check_wind thresholds day_str summary st =
    let wind_threshold := th_get thresholds "high_wind_speed_ms" 15 in
    if wind_threshold <=? max_wind_speed summary then
      let alert := wind_alert day_str (max_wind_speed summary) wind_threshold in
      (fire HighWind alert st, Ok [alert])
    else (st, Ok []).
Proof. unfold check_wind. cbn zeta. destruct (_ <=? _); reflexivity. Qed.

Lemma check_humidity_run day_str summary st :
  check_humidity thresholds day_str summary st =
    let humid_thresh := th_get thresholds "high_humidity_perc" 85 in
    let humid_dur_thresh := th_get thresholds "high_humidity_duration_h" 12 in
    let humid_readings := List.filter not_none (humidity_readings summary) in
    match readings_as_numbers humid_readings with
    | Raise err => (st, Raise err)
    | Ok readings =>
        let high := List.filter (fun h => humid_thresh <=? h) readings in
        let humid_hours := Z.of_nat (length high) * 3 in
        if (humid_dur_thresh <=? humid_hours) &&
           negb (Nat.eqb (length humid_readings) 0) then
          let avg_humid_high :=
            match high with
            | [] => str_Z humid_thresh
            | _ => fmt_div_0f (sum_Z high) (Z.of_nat (length high))
            end in
          let alert :=
            humidity_alert day_str humid_hours humid_thresh avg_humid_high
              humid_dur_thresh in
          (fire ProlongedHighHumidity alert st, Ok [alert])
        else (st, Ok [])
    end.
Proof.
  unfold check_humidity. cbn zeta. unfold bind at 1, lift. cbv beta.
  destruct (readings_as_numbers _) as [readings | err]; cbv beta iota;
    [| reflexivity].
  destruct (_ && _); reflexivity.
Qed.

Lemma check_humidity_shape day_str summary st :
  (exists err,
      readings_as_numbers (List.filter not_none (humidity_readings summary)) = Raise err /\
      check_humidity thresholds day_str summary st = (st, Raise err)) \/
  (exists readings,
      readings_as_numbers (List.filter not_none (humidity_readings summary)) = Ok readings /\
      (check_humidity thresholds day_str summary st = (st, Ok []) \/
       exists alert,
         check_humidity thresholds day_str summary st =
           (fire ProlongedHighHumidity alert st, Ok [alert]))).
Proof.
  rewrite check_humidity_run. cbn zeta.
  destruct (readings_as_numbers _) as [readings | err]; [right | left; eauto].
  exists readings. split; [reflexivity |].
  destruct (_ && _); eauto.
Qed.

Lemma check_drought_run day_date summary st :
  check_drought thresholds day_date summary st =
    let drought_mm_thresh := th_get thresholds "drought_risk_mm" 2 in
    let drought_days_thresh := th_get thresholds "drought_risk_days" 7 in
    let st1 :=
      if total_rain summary <=? drought_mm_thresh
      then set_dry (consecutive_dry_days st + 1) st
      else set_dry 0 st in
    let dry := consecutive_dry_days st1 in
    if (drought_days_thresh <=? dry) && negb (warning (drought (rk st1))) then
      match date_sub_days day_date (dry - 1) with
      | Ok start =>
          let alert := drought_alert dry drought_mm_thresh (strftime start) in
          (fire Drought alert st1, Ok [alert])
      | Raise err => (on_risks (set_warning Drought) st1, Raise err)
      end
    else (st1, Ok []).
Proof.
  unfold check_drought. cbn zeta. unfold bind at 1, modify at 1.
  unfold bind at 1, gets at 1. unfold bind at 1, gets at 1.
  destruct (_ && _); [| reflexivity].
  unfold bind at 1, modify at 1. unfold bind at 1, lift.
  destruct (date_sub_days _ _); reflexivity.
Qed.

Lemma check_heatwave_run day_str summary st :
  check_heatwave thresholds day_str summary st =
    let heat_temp_thresh := th_get thresholds "heatwave_temp_c" 38 in
    let heat_days_thresh := th_get thresholds "heatwave_days" 3 in
    let st1 :=
      if heat_temp_thresh <=? max_temp summary
      then set_hot (consecutive_hot_days st + 1) st
      else set_hot 0 st in
    let hot := consecutive_hot_days st1 in
    if (heat_days_thresh <=? hot) &&
       negb (already_alerted day_str (details (heatwave (rk st1)))) then
      let alert := heatwave_alert hot heat_temp_thresh day_str in
      (fire Heatwave alert st1, Ok [alert])
    else (st1, Ok []).
Proof.
  unfold check_heatwave. cbn zeta. unfold bind at 1, modify at 1.
  unfold bind at 1, gets at 1. unfold bind at 1, gets at 1.
  destruct (_ && _); reflexivity.
Qed.

(** The four checks of a single day either leave the state or fire. *)

Lemma check_frost_shape day_str summary st :
  check_frost thresholds day_str summary st = (st, Ok []) \/
  exists alert, check_frost thresholds day_str summary st = (fire Frost alert st, Ok [alert]).
Proof. rewrite check_frost_run. cbn zeta. destruct (_ <=? _); eauto. Qed.

Lemma check_flood_shape day_str summary st :
  check_flood thresholds day_str summary st = (st, Ok []) \/
  exists alert,
    check_flood thresholds day_str summary st = (fire FloodHeavyRain alert st, Ok [alert]).
Proof.
  rewrite check_flood_run. cbn zeta.
  destruct (_ <=? total_rain _); [eauto |]. destruct (_ <=? _); eauto.
Qed.

Lemma check_wind_shape day_str summary st :
  check_wind thresholds day_str summary st = (st, Ok []) \/
  exists alert, check_wind thresholds day_str summary st = (fire HighWind alert st, Ok [alert]).
Proof. rewrite check_wind_run. cbn zeta. destruct (_ <=? _); eauto. Qed.

(** Frame rules: a check leaves every property that assignments to its
    own entry (and, for the streak checks, to its own counter) cannot
    break. *)

Lemma check_frost_frame P E day_str summary :
  stable_for Frost P ->
  triple P (check_frost thresholds day_str summary) (fun _ => P) E.
Proof.
  intros HP st Hst.
  destruct (check_frost_shape day_str summary st) as [-> | [alert ->]];
    [exact Hst | by apply stable_fire].
Qed.

Lemma check_flood_frame P E day_str summary :
  stable_for FloodHeavyRain P ->
  triple P (check_flood thresholds day_str summary) (fun _ => P) E.
Proof.
  intros HP st Hst.
  destruct (check_flood_shape day_str summary st) as [-> | [alert ->]];
    [exact Hst | by apply stable_fire].
Qed.

Lemma check_wind_frame P E day_str summary :
  stable_for HighWind P ->
  triple P (check_wind thresholds day_str summary) (fun _ => P) E.
Proof.
  intros HP st Hst.
  destruct (check_wind_shape day_str summary st) as [-> | [alert ->]];
    [exact Hst | by apply stable_fire].
Qed.

Lemma check_humidity_frame P day_str summary :
  stable_for ProlongedHighHumidity P ->
  triple P (check_humidity thresholds day_str summary) (fun _ => P) P.
Proof.
  intros HP st Hst.
  destruct (check_humidity_shape day_str summary st)
    as [(err & _ & ->) | (readings & _ & [-> | [alert ->]])];
    [exact Hst | exact Hst | by apply stable_fire].
Qed.

Lemma check_drought_frame P day_date summary :
  stable_for Drought P ->
  (forall st v, P st -> P (set_dry v st)) ->
  triple P (check_drought thresholds day_date summary) (fun _ => P) P.
Proof.
  intros HP Hdry st Hst. rewrite check_drought_run. cbn zeta.
  set (st1 := if _ <=? _ then _ else _).
  assert (Hst1 : P st1) by (unfold st1; destruct (_ <=? _); by apply Hdry).
  destruct (_ && _); [| exact Hst1].
  destruct (date_sub_days _ _); [by apply stable_fire | by apply stable_set_warning].
Qed.

Lemma check_heatwave_frame P E day_str summary :
  stable_for Heatwave P ->
  (forall st v, P st -> P (set_hot v st)) ->
  triple P (check_heatwave thresholds day_str summary) (fun _ => P) E.
Proof.
  intros HP Hhot st Hst. rewrite check_heatwave_run. cbn zeta.
  set (st1 := if _ <=? _ then _ else _).
  assert (Hst1 : P st1) by (unfold st1; destruct (_ <=? _); by apply Hhot).
  destruct (_ && _); [by apply stable_fire | exact Hst1].
Qed.

End CheckFacts.

Section ConsistencyFacts.

Variable today : date.
Variable thresholds : gmap string Z.
Implicit Types (st : loop_state) (A : list string).

Lemma initial_risks_consistent : report_consistent initial_risks.
Proof.
  split.
  - intros []; cbn; congruence.
  - intros a Ha. cbn in Ha. by apply elem_of_nil in Ha.
Qed.

Lemma consistent_with_nil A st : consistent_with A st -> consistent_with [] st.
Proof.
  intros [Hr _]. split; [exact Hr |]. intros a Ha. by apply elem_of_nil in Ha.
Qed.

Lemma consistent_with_subset A A' st :
  (forall a, a ∈ A' -> a ∈ A) -> consistent_with A st -> consistent_with A' st.
Proof. intros Hsub [Hr HA]. split; [exact Hr | intros a Ha; apply HA, Hsub, Ha]. Qed.

Lemma details_grow_set_entry c c' e r a :
  (forall x, x ∈ details (entry c' r) -> x ∈ details e) ->
  a ∈ details (entry c r) ->
  a ∈ details (entry c (set_entry c' e r)).
Proof.
  intros He Ha. destruct c, c'; cbn in *; auto.
Qed.

Lemma consistent_set_entry A c e st :
  (forall x, x ∈ details (entry c (rk st)) -> x ∈ details e) ->
  (details e <> [] -> warning e = true) ->
  consistent_with A st -> consistent_with A (on_risks (set_entry c e) st).
Proof.
  intros Hgrow He [[Hw Ho] HA].
  change (rk (on_risks (set_entry c e) st)) with (set_entry c e (rk st)).
  unfold consistent_with, report_consistent.
  change (rk (on_risks (set_entry c e) st)) with (set_entry c e (rk st)).
  split; [split |].
  - intros c' Hd. specialize (Hw c'). destruct c, c'; cbn in *; auto.
  - intros a Ha. rewrite overall_set_entry in Ha. destruct (Ho a Ha) as [c' Hc'].
    exists c'. by apply details_grow_set_entry.
  - intros a Ha. destruct (HA a Ha) as [c' Hc']. exists c'.
    by apply details_grow_set_entry.
Qed.

Lemma consistent_set_warning A c st :
  consistent_with A st -> consistent_with A (on_risks (set_warning c) st).
Proof.
  intros Hst. rewrite set_warning_set_entry. apply consistent_set_entry; auto.
Qed.

Lemma consistent_fire A c alert st :
  consistent_with A st -> consistent_with (A ++ [alert]) (fire c alert st).
Proof.
  intros Hst. rewrite fire_set_entry.
  assert (Hgrow : forall x, x ∈ details (entry c (rk st)) ->
                    x ∈ details (mk_entry true (details (entry c (rk st)) ++ [alert]))).
  { intros x Hx. cbn. apply elem_of_app. by left. }
  pose proof (consistent_set_entry A c _ st Hgrow (fun _ => eq_refl) Hst) as [Hr HA].
  split; [exact Hr |].
  intros a Ha. apply elem_of_app in Ha as [Ha | Ha]; [by apply HA |].
  apply list_elem_of_singleton in Ha as ->. exists c.
  change (rk (on_risks ?f st)) with (f (rk st)).
  rewrite entry_set_entry_eq. cbn. apply elem_of_app. right. by left.
Qed.

Lemma consistent_extend A st :
  consistent_with A st -> consistent_with [] (on_risks (extend_overall A) st).
Proof.
  intros [[Hw Ho] HA]. split; [split |].
  - intros c. cbn. rewrite entry_extend_overall. apply Hw.
  - intros a Ha. cbn in Ha. apply elem_of_app in Ha as [Ha | Ha].
    + destruct (Ho a Ha) as [c Hc]. exists c. cbn. by rewrite entry_extend_overall.
    + destruct (HA a Ha) as [c Hc]. exists c. cbn. by rewrite entry_extend_overall.
  - intros a Ha. by apply elem_of_nil in Ha.
Qed.

Lemma check_frost_consistent A day_str summary :
  triple (consistent_with A) (check_frost thresholds day_str summary)
    (fun alerts => consistent_with (A ++ alerts)) (consistent_with []).
Proof.
  intros st Hst.
  destruct (check_frost_shape thresholds day_str summary st) as [-> | [alert ->]].
  - by rewrite app_nil_r.
  - by apply consistent_fire.
Qed.

Lemma check_flood_consistent A day_str summary :
  triple (consistent_with A) (check_flood thresholds day_str summary)
    (fun alerts => consistent_with (A ++ alerts)) (consistent_with []).
Proof.
  intros st Hst.
  destruct (check_flood_shape thresholds day_str summary st) as [-> | [alert ->]].
  - by rewrite app_nil_r.
  - by apply consistent_fire.
Qed.

Lemma check_wind_consistent A day_str summary :
  triple (consistent_with A) (check_wind thresholds day_str summary)
    (fun alerts => consistent_with (A ++ alerts)) (consistent_with []).
Proof.
  intros st Hst.
  destruct (check_wind_shape thresholds day_str summary st) as [-> | [alert ->]].
  - by rewrite app_nil_r.
  - by apply consistent_fire.
Qed.

Lemma check_humidity_consistent A day_str summary :
  triple (consistent_with A) (check_humidity thresholds day_str summary)
    (fun alerts => consistent_with (A ++ alerts)) (consistent_with []).
Proof.
  intros st Hst.
  destruct (check_humidity_shape thresholds day_str summary st)
    as [(err & _ & ->) | (readings & _ & [-> | [alert ->]])].
  - by apply (consistent_with_nil A).
  - by rewrite app_nil_r.
  - by apply consistent_fire.
Qed.

Lemma check_drought_consistent A day_date summary :
  triple (consistent_with A) (check_drought thresholds day_date summary)
    (fun alerts => consistent_with (A ++ alerts)) (consistent_with []).
Proof.
  intros st Hst. rewrite check_drought_run. cbn zeta.
  set (st1 := if _ <=? _ then _ else _).
  assert (Hst1 : consistent_with A st1) by (unfold st1; destruct (_ <=? _); exact Hst).
  destruct (_ && _); [| by rewrite app_nil_r].
  destruct (date_sub_days _ _).
  - by apply consistent_fire.
  - apply (consistent_with_nil A). by apply consistent_set_warning.
Qed.

Lemma check_heatwave_consistent A day_str summary :
  triple (consistent_with A) (check_heatwave thresholds day_str summary)
    (fun alerts => consistent_with (A ++ alerts)) (consistent_with []).
Proof.
  intros st Hst. rewrite check_heatwave_run. cbn zeta.
  set (st1 := if _ <=? _ then _ else _).
  assert (Hst1 : consistent_with A st1) by (unfold st1; destruct (_ <=? _); exact Hst).
  destruct (_ && _); [by apply consistent_fire | by rewrite app_nil_r].
Qed.

Lemma assess_day_consistent daily_summary day_str :
  triple (consistent_with []) (assess_day today thresholds daily_summary day_str)
    (fun _ => consistent_with []) (consistent_with []).
Proof.
  unfold assess_day, apply_rules.
  eapply triple_bind; [apply triple_lift with (Q := fun _ => consistent_with []); auto |].
  intros day_date. destruct (date_ltb day_date today); [by apply triple_ret |].
  eapply triple_bind;
    [apply triple_modify with (Q := fun _ => consistent_with []); auto |].
  intros ?.
  eapply triple_bind; [apply triple_lift with (Q := fun _ => consistent_with []); auto |].
  intros summary.
  eapply triple_bind; [apply check_frost_consistent |]. intros a_frost.
  eapply triple_bind; [apply check_flood_consistent |]. intros a_flood.
  eapply triple_bind; [apply check_wind_consistent |]. intros a_wind.
  eapply triple_bind; [apply check_humidity_consistent |]. intros a_humid.
  eapply triple_bind; [apply check_drought_consistent |]. intros a_drought.
  eapply triple_bind; [apply check_heatwave_consistent |]. intros a_heat.
  set (day_alerts := a_frost ++ a_flood ++ a_wind ++ a_humid ++ a_drought ++ a_heat).
  eapply triple_bind with (Q := fun _ => consistent_with []).
  - intros st Hst.
    assert (Hday : consistent_with day_alerts st).
    { revert Hst. apply consistent_with_subset. intros x. unfold day_alerts.
      rewrite !elem_of_app. tauto. }
    destruct day_alerts; [by apply (consistent_with_nil _ _ Hday) |].
    by apply consistent_extend.
  - intros ?. eapply triple_bind;
      [apply triple_gets with (Q := fun _ => consistent_with []); auto |].
    intros processed. destruct (5 <=? processed); by apply triple_ret.
Qed.

Lemma risk_loop_consistent daily_summary days :
  forall st,
    consistent_with [] st ->
    consistent_with [] (fst (risk_loop today thresholds daily_summary days st)).
Proof.
  induction days as [| day_str rest IH]; intros st Hst; [exact Hst |].
  cbn [risk_loop].
  pose proof (assess_day_consistent daily_summary day_str st Hst) as Hday.
  destruct (assess_day today thresholds daily_summary day_str st) as [st' [[] | err]];
    [by apply IH | exact Hday | by apply IH].
Qed.

End ConsistencyFacts.

(** C10. In every report the evaluator returns, a category with a
    non-empty details list is flagged, and every string of the overall
    alert list is a detail of some category. *)
Theorem report_is_consistent :
  forall (utc_offset : Z) (today : date) (thresholds : gmap string Z) (fd : pyval),
    let r := assess_climate_risks_enhanced utc_offset today thresholds fd in
    (forall c, details (entry c r) <> [] -> warning (entry c r) = true) /\
    (forall a, a ∈ overall_alerts r -> exists c, a ∈ details (entry c r)).
Proof.
  intros utc_offset today thresholds fd.
  change (report_consistent
            (assess_climate_risks_enhanced utc_offset today thresholds fd)).
  assert (Hinit : consistent_with [] initial_state).
  { split; [apply initial_risks_consistent |]. intros a Ha. by apply elem_of_nil in Ha. }
  unfold assess_climate_risks_enhanced.
  destruct fd as [ | | | | | d]; try apply initial_risks_consistent.
  destruct (assoc_get "list" d) as [[ | | | | [| item rest] | ] |];
    try apply initial_risks_consistent.
  unfold assess_list.
  destruct (aggregate utc_offset (item :: rest) []) as [ds [[] | err]];
    [| apply initial_risks_consistent].
  apply (risk_loop_consistent today thresholds ds _ initial_state Hinit).
Qed.

Section DayFacts.

Variable today : date.
Variable thresholds : gmap string Z.
Implicit Types (st : loop_state) (ds : daily_summaries) (k : string).

Lemma assess_day_processed ds k st d s :
  strptime k = Ok d -> date_ltb d today = false -> assoc_get k ds = Some s ->
  assess_day today thresholds ds k st =
    apply_rules thresholds k d s (incr_processed st).
Proof.
  intros Hk Hd Hs. unfold assess_day. rewrite Hk, Hs.
  unfold bind at 1, lift at 1. rewrite Hd. reflexivity.
Qed.

Lemma assess_day_past ds k st d :
  strptime k = Ok d -> date_ltb d today = true ->
  assess_day today thresholds ds k st = (st, Ok Next).
Proof.
  intros Hk Hd. unfold assess_day. rewrite Hk.
  unfold bind at 1, lift at 1. rewrite Hd. reflexivity.
Qed.

Lemma assess_day_unparsed ds k st err :
  strptime k = Raise err ->
  assess_day today thresholds ds k st = (st, Raise err).
Proof. intros Hk. unfold assess_day. rewrite Hk. reflexivity. Qed.


(** The steps of [apply_rules] after the checks. *)
Lemma finish_day_frame (P E : loop_state -> Prop) (day_alerts : list string) :
  (forall st l, P st -> P (on_risks (extend_overall l) st)) ->
  triple P
    (do _ <- (match day_alerts with
              | [] => ret tt
              | _ => modify (on_risks (extend_overall day_alerts))
              end);
     do processed <- gets days_processed_for_risk;
     if 5 <=? processed then ret Break else ret Next)
    (fun c st => P st /\ c = if 5 <=? days_processed_for_risk st then Break else Next)
    E.
Proof.
  intros Hext.
  eapply triple_bind with (Q := fun _ => P).
  - destruct day_alerts; [by apply triple_ret | apply triple_modify; auto].
  - intros ?.
    eapply triple_bind with (Q := fun p st => P st /\ p = days_processed_for_risk st);
      [apply triple_gets; auto |].
    intros processed. destruct (5 <=? processed) eqn:Hp; apply triple_ret;
      intros st [Hst ->]; by rewrite Hp.
Qed.


End DayFacts.



(* ================================================================== *)
(** * The calendar *)
(* ================================================================== *)

Section StringFacts.

Lemma append_cons c (s t : string) : String c s +:+ t = String c (s +:+ t).
Proof. reflexivity. Qed.

Lemma append_nil (t : string) : "" +:+ t = t.
Proof. reflexivity. Qed.

End StringFacts.

Section CalendarFacts.

Lemma digit_val_digit n : digit_val (digit n) = Some (n mod 10).
Proof.
  unfold digit.
  assert (H : 0 <= n mod 10 < 10) by (apply Z.mod_pos_bound; lia).
  assert (Hc : n mod 10 = 0 \/ n mod 10 = 1 \/ n mod 10 = 2 \/ n mod 10 = 3 \/
               n mod 10 = 4 \/ n mod 10 = 5 \/ n mod 10 = 6 \/ n mod 10 = 7 \/
               n mod 10 = 8 \/ n mod 10 = 9) by lia.
  destruct Hc as [-> | [-> | [-> | [-> | [-> | [-> | [-> | [-> | [-> | ->]]]]]]]]];
    reflexivity.
Qed.

Lemma valid_date_bounds d :
  valid_date d = true ->
  1 <= year d <= 9999 /\ 1 <= month d <= 12 /\
  1 <= day d <= days_in_month (year d) (month d).
Proof.
  unfold valid_date, MINYEAR, MAXYEAR. rewrite !andb_true_iff, !Z.leb_le. tauto.
Qed.

Lemma days_in_month_le_31 y m : days_in_month y m <= 31.
Proof.
  unfold days_in_month.
  destruct (m =? 2); [destruct (is_leap y); lia |].
  destruct (_ || _); lia.
Qed.

Lemma parse_two_digits hi v rest :
  1 <= v <= hi -> hi <= 99 ->
  parse_field hi (pad2 v +:+ rest) = Some (v, rest).
Proof.
  intros Hv Hhi. unfold pad2. rewrite !append_cons, append_nil. unfold parse_field.
  rewrite !digit_val_digit.
  assert (Heq : 10 * ((v / 10) mod 10) + v mod 10 = v).
  { rewrite (Z.mod_small (v / 10)) by (split; [apply Z.div_pos | apply Z.div_lt_upper_bound]; lia).
    pose proof (Z.div_mod v 10). lia. }
  rewrite Heq.
  destruct (Z.leb_spec 1 v); [| lia]. destruct (Z.leb_spec v hi); [| lia].
  reflexivity.
Qed.

(** Reading back a formatted date gives the date. *)
Lemma strptime_strftime d : valid_date d = true -> strptime (strftime d) = Ok d.
Proof.
  intros Hvalid. pose proof (valid_date_bounds d Hvalid) as (Hy & Hm & Hd).
  pose proof (days_in_month_le_31 (year d) (month d)) as H31.
  unfold strftime, pad4. unfold pad2 at 1.
  repeat (rewrite append_cons || rewrite append_nil).
  unfold strptime. rewrite !digit_val_digit. cbn [Ascii.eqb Bool.eqb].
  rewrite (parse_two_digits 12 (month d)) by lia.
  cbn [Ascii.eqb Bool.eqb].
  replace (pad2 (day d)) with (pad2 (day d) +:+ "") by
    (unfold pad2; reflexivity).
  rewrite (parse_two_digits 31 (day d)) by lia.
  assert (Hyear : 1000 * ((year d / 1000) mod 10) + 100 * ((year d / 100) mod 10) +
                  10 * ((year d / 10) mod 10) + year d mod 10 = year d).
  { generalize (year d) Hy. clear. intros y Hy. Z.div_mod_to_equations. lia. }
  rewrite Hyear. destruct d as [y m dd]. cbn in *. rewrite Hvalid. reflexivity.
Qed.

Lemma month_cases m :
  1 <= m <= 12 ->
  m = 1 \/ m = 2 \/ m = 3 \/ m = 4 \/ m = 5 \/ m = 6 \/
  m = 7 \/ m = 8 \/ m = 9 \/ m = 10 \/ m = 11 \/ m = 12.
Proof. lia. Qed.









End CalendarFacts.

(* ================================================================== *)
(** * The 5-day limit *)
(* ================================================================== *)

(** C4 fails on the code.  With six days ahead, of which the fifth raises
    while its humidity readings are compared, the handler resumes the loop
    without reaching the test of the 5-day limit: the frost rule is applied
    to the fifth and to the sixth day, and the sixth day's alert enters the
    overall alerts. *)
Theorem sixth_day_is_assessed :
  let r := assess_climate_risks_enhanced 0 (mkdate 2026 11 3) DEFAULT_THRESHOLDS
             six_day_forecast in
  details (frost r) =
    [ "Frost Risk on 2026-11-07: Min temp forecast 0.0°C (Threshold: <= 2°C).";
      "Frost Risk on 2026-11-08: Min temp forecast 1.0°C (Threshold: <= 2°C)." ] /\
  overall_alerts r =
    [ "Frost Risk on 2026-11-08: Min temp forecast 1.0°C (Threshold: <= 2°C)." ].
Proof. vm_compute. split; reflexivity. Qed.

Section SortedFacts.

Lemma elem_of_insert_sorted x k l : x ∈ insert_sorted k l <-> x = k \/ x ∈ l.
Proof.
  induction l as [| k' l IH]; cbn.
  - rewrite list_elem_of_singleton. split; [auto | intros [-> | H]; [done |]].
    by apply elem_of_nil in H.
  - destruct (String.leb k k').
    + rewrite !elem_of_cons. tauto.
    + rewrite !elem_of_cons, IH. tauto.
Qed.

Lemma elem_of_sorted x l : x ∈ sorted l <-> x ∈ l.
Proof.
  induction l as [| k l IH]; cbn; [reflexivity |].
  rewrite elem_of_insert_sorted, IH, elem_of_cons. reflexivity.
Qed.

Lemma insert_sorted_Sorted k l :
  Sorted (fun a b => String.leb a b = true) l ->
  Sorted (fun a b => String.leb a b = true) (insert_sorted k l).
Proof.
  induction 1 as [| k' l Hl IH Hhd]; cbn.
  - repeat constructor.
  - destruct (String.leb k k') eqn:Hle.
    + constructor; [by constructor | by constructor].
    + constructor; [exact IH |].
      assert (Hge : String.leb k' k = true).
      { destruct (String.leb_total k k') as [H | H]; [congruence | exact H]. }
      destruct Hhd as [| k'' l' Hk'']; cbn; [by constructor |].
      destruct (String.leb k k''); by constructor.
Qed.

(** The days are visited in ascending order of their keys. *)
Lemma sorted_Sorted l : Sorted (fun a b => String.leb a b = true) (sorted l).
Proof.
  induction l as [| k l IH]; cbn; [constructor | by apply insert_sorted_Sorted].
Qed.

End SortedFacts.

Section PastDays.

Variable utc_offset : Z.
Variable today : date.
Variable thresholds : gmap string Z.

Lemma fromtimestamp_valid ts d :
  fromtimestamp utc_offset ts = Ok d -> valid_date d = true.
Proof.
  unfold fromtimestamp. destruct (as_num ts) as [t |]; [| discriminate].
  destruct (_ && _); [| discriminate].
  destruct (valid_date _) eqn:Hv; [| discriminate].
  intros [= <-]. exact Hv.
Qed.

Lemma aggregate_sample_keys e ts ds k :
  k ∈ map fst (fst (aggregate_sample utc_offset e ts ds)) ->
  k ∈ map fst ds \/
  exists d, fromtimestamp utc_offset ts = Ok d /\ k = strftime d.
Proof.
  set (P := fun ds' : daily_summaries =>
              forall k, k ∈ map fst ds' ->
                k ∈ map fst ds \/
                exists d, fromtimestamp utc_offset ts = Ok d /\ k = strftime d).
  assert (Hon : forall d f ds', P ds' -> P (on_day d f ds')).
  { intros d f ds' H k' Hk'. rewrite keys_on_day in Hk'. by apply H. }
  assert (Ht : triple (fun ds0 => ds0 = ds) (aggregate_sample utc_offset e ts)
                 (fun _ => P) P).
  { unfold aggregate_sample.
    eapply triple_bind with (Q := fun d ds0 => ds0 = ds /\ fromtimestamp utc_offset ts = Ok d).
    { apply triple_lift; [auto |]. intros s err -> _ k' Hk'. by left. }
    intros d. eapply triple_bind with (Q := fun _ => P).
    { apply triple_modify. intros s [-> Hd] k' Hk'. unfold init_day in Hk'.
      destruct (assoc_get (strftime d) ds); [by left |].
      rewrite map_app in Hk'. apply elem_of_app in Hk' as [Hk' | Hk']; [by left |].
      right. exists d. split; [exact Hd |]. cbn in Hk'.
      by apply list_elem_of_singleton in Hk'. }
    intros ?.
    repeat first
      [ eapply triple_bind with (Q := fun _ => P);
        [ first [ apply triple_lift; by auto
                | apply triple_gets; by auto
                | apply triple_modify; by auto
                | destruct (0 <? _); [apply triple_modify | apply triple_ret]; by auto ]
        | intros ? ]
      | apply triple_modify; by auto ]. }
  intros Hk. specialize (Ht ds eq_refl).
  destruct (aggregate_sample utc_offset e ts ds) as [ds' [[] | err]]; by apply Ht.
Qed.

Lemma aggregate_entry_keys item ds k :
  k ∈ map fst (fst (aggregate_entry utc_offset item ds)) ->
  k ∈ map fst ds \/ key_of_sample utc_offset [item] k.
Proof.
  destruct item as [ | | | | | e]; try (by left).
  unfold aggregate_entry.
  destruct (assoc_get "dt" e) as [ts |] eqn:Hdt; [| by left].
  destruct (is_none ts) eqn:Hts; [by left |].
  intros Hk. apply aggregate_sample_keys in Hk as [Hk | (d & Hd & ->)]; [by left |].
  right. exists (VDict e), d. split; [by left |].
  split; [unfold sample_date; by rewrite Hdt, Hts, Hd |].
  split; [by apply (fromtimestamp_valid ts) | reflexivity].
Qed.

Lemma aggregate_keys samples :
  forall ds0 k,
    k ∈ map fst (fst (aggregate utc_offset samples ds0)) ->
    k ∈ map fst ds0 \/ key_of_sample utc_offset samples k.
Proof.
  induction samples as [| item rest IH]; intros ds0 k Hk; [by left |].
  cbn [aggregate] in Hk.
  assert (Hrest : k ∈ map fst (fst (aggregate utc_offset rest
                                      (fst (aggregate_entry utc_offset item ds0)))) \/
                  k ∈ map fst (fst (aggregate_entry utc_offset item ds0))).
  { destruct (aggregate_entry utc_offset item ds0) as [ds1 [[] | err]];
      cbn [fst] in *; [by left |].
    destruct (entry_handler_catches err); [by left | by right]. }
  assert (Hentry : k ∈ map fst (fst (aggregate_entry utc_offset item ds0)) ->
                   k ∈ map fst ds0 \/ key_of_sample utc_offset (item :: rest) k).
  { intros H. apply aggregate_entry_keys in H as [H | (it & d & Hin & Hrest')];
      [by left |].
    right. exists it, d. split; [| exact Hrest'].
    apply list_elem_of_singleton in Hin as ->. by left. }
  destruct Hrest as [Hrest | Hrest]; [| by apply Hentry].
  apply IH in Hrest as [Hrest | (it & d & Hin & Hrest')]; [by apply Hentry |].
  right. exists it, d. split; [by right | exact Hrest'].
Qed.

(** Days before [today] leave the state of the loop as it is. *)
Lemma risk_loop_past ds days :
  forall st,
    (forall k, k ∈ days -> exists d, strptime k = Ok d /\ date_ltb d today = true) ->
    risk_loop today thresholds ds days st = (st, Next).
Proof.
  induction days as [| k rest IH]; intros st Hpast; [reflexivity |].
  cbn [risk_loop].
  destruct (Hpast k) as (d & Hk & Hd); [by left |].
  rewrite (assess_day_past today thresholds ds k st d Hk Hd).
  apply IH. intros k' Hk'. apply Hpast. by right.
Qed.

(** A forecast whose samples all fall before [today] is answered by the
    report in which nothing is flagged. *)
Lemma past_forecast_all_clear samples :
  (forall item d, item ∈ samples -> sample_date utc_offset item = Some d ->
                  date_ltb d today = true) ->
  assess_list utc_offset today thresholds samples = initial_risks.
Proof.
  intros Hpast. unfold assess_list.
  pose proof (aggregate_keys samples []) as Hkeys.
  destruct (aggregate utc_offset samples []) as [ds [[] | err]]; [| reflexivity].
  cbn [fst] in Hkeys.
  rewrite risk_loop_past; [reflexivity |].
  intros k Hk. apply (proj1 (elem_of_sorted _ _)) in Hk.
  destruct (Hkeys k Hk) as [Hnil | (item & d & Hin & Hdate & Hvalid & ->)].
  { cbn in Hnil. by apply elem_of_nil in Hnil. }
  exists d. split; [by apply strptime_strftime | by apply (Hpast item)].
Qed.

End PastDays.

(* ================================================================== *)
(** * The drought streak *)
(* ================================================================== *)

Section LoopFacts.

Variable today : date.
Variable thresholds : gmap string Z.
Implicit Types (st : loop_state) (ds : daily_summaries) (k : string).




End LoopFacts.

Section DroughtFacts.

Variable today : date.
Variable thresholds : gmap string Z.
Implicit Types (st : loop_state) (ds : daily_summaries) (k : string) (w : bool).

Local Abbreviation N := (th_get thresholds "drought_risk_days" 7).
Local Abbreviation mm := (th_get thresholds "drought_risk_mm" 2).

Hypothesis today_valid : valid_date today = true.
Hypothesis threshold_positive : 1 <= N.
Hypothesis today_late_enough : N <= ymd2ord today.

Lemma drought_view_stable P c : drought_view P -> c <> Drought -> stable_for c P.
Proof.
  intros HP Hc st e Hst. apply (HP st); try reflexivity; [| exact Hst].
  change (rk (on_risks (set_entry c e) st)) with (set_entry c e (rk st)).
  change (entry Drought (set_entry c e (rk st)) = entry Drought (rk st)).
  apply entry_set_entry_ne. congruence.
Qed.


Lemma drought_view_and P Q : drought_view P -> drought_view Q ->
  drought_view (fun st => P st /\ Q st).
Proof. intros HP HQ st st' H1 H2 H3 [? ?]. split; eauto. Qed.





Lemma drought_inv_incr w st :
  drought_inv N w st -> drought_inv N w (incr_processed st).
Proof. intros H. exact H. Qed.





End DroughtFacts.




(* ================================================================== *)
(** * The heatwave streak *)
(* ================================================================== *)

Section SubstringFacts.

Implicit Types (s t u v : string) (c : ascii).













End SubstringFacts.

Section HeatFacts.

Variable today : date.
Variable thresholds : gmap string Z.
Implicit Types (st : loop_state) (ds : daily_summaries) (k : string)
  (keys days : list string).

Local Abbreviation HDAYS := (th_get thresholds "heatwave_days" 3).
Local Abbreviation HTEMP := (th_get thresholds "heatwave_temp_c" 38).
Local Abbreviation DDAYS := (th_get thresholds "drought_risk_days" 7).







Hypothesis today_valid : valid_date today = true.
Hypothesis drought_threshold_positive : 1 <= DDAYS.
Hypothesis today_late_enough : DDAYS <= ymd2ord today.






End HeatFacts.






(* ================================================================== *)
(** * The 5-day limit when no day raises, and the keys of the loop *)
(* ================================================================== *)

Section HorizonFacts.

Variable today : date.
Variable thresholds : gmap string Z.
Implicit Types (st : loop_state) (ds : daily_summaries) (k : string).

(** How a day changes the count of processed days. *)
Lemma apply_rules_counts k d s (p : Z) :
  triple (fun st => days_processed_for_risk st = p)
    (apply_rules thresholds k d s)
    (fun c st => days_processed_for_risk st = p /\
                 c = if 5 <=? p then Break else Next)
    (fun st => days_processed_for_risk st = p).
Proof.
  set (P := fun st : loop_state => days_processed_for_risk st = p).
  assert (Hst : forall c, stable_for c P) by (intros c st e Hp; exact Hp).
  unfold apply_rules.
  eapply triple_bind; [by apply check_frost_frame |]. intros a_frost.
  eapply triple_bind; [by apply check_flood_frame |]. intros a_flood.
  eapply triple_bind; [by apply check_wind_frame |]. intros a_wind.
  eapply triple_bind; [by apply check_humidity_frame |]. intros a_humid.
  eapply triple_bind; [apply check_drought_frame; [by apply Hst | auto] |].
  intros a_drought.
  eapply triple_bind; [apply check_heatwave_frame; [by apply Hst | auto] |].
  intros a_heat.
  eapply triple_weaken; [apply (finish_day_frame P P) | auto | | auto].
  - intros st l Hp. exact Hp.
  - intros c st [Hp ->]. unfold P in Hp. by rewrite Hp.
Qed.

Lemma assess_day_counts ds k st :
  match assess_day today thresholds ds k st with
  | (st', Ok Next) =>
      days_processed_for_risk st' = days_processed_for_risk st \/
      (days_processed_for_risk st' = days_processed_for_risk st + 1 /\
       days_processed_for_risk st' < 5)
  | (st', Ok Break) =>
      days_processed_for_risk st' = days_processed_for_risk st + 1 /\
      5 <= days_processed_for_risk st'
  | (st', Raise _) =>
      days_processed_for_risk st' = days_processed_for_risk st \/
      days_processed_for_risk st' = days_processed_for_risk st + 1
  end.
Proof.
  destruct (strptime k) as [d | err] eqn:Hk;
    [| rewrite (assess_day_unparsed today thresholds ds k st err Hk); by left].
  destruct (date_ltb d today) eqn:Hd;
    [rewrite (assess_day_past today thresholds ds k st d Hk Hd); by left |].
  destruct (assoc_get k ds) as [s |] eqn:Hs.
  - rewrite (assess_day_processed today thresholds ds k st d s Hk Hd Hs).
    pose proof (apply_rules_counts k d s _ (incr_processed st) eq_refl) as Ht.
    cbn [incr_processed days_processed_for_risk] in Ht.
    destruct (apply_rules thresholds k d s (incr_processed st)) as [st' [c | err]].
    + destruct Ht as [Hp ->].
      destruct (Z.leb_spec 5 (days_processed_for_risk st + 1)); [split | right]; lia.
    + by right.
  - unfold assess_day. rewrite Hk, Hs. unfold bind at 1, lift at 1. rewrite Hd.
    cbn. by right.
Qed.

(** When no day raises, the loop counts at most five days. *)
Lemma five_day_limit_without_faults ds days :
  forall st,
    days_processed_for_risk st < 5 ->
    (forall k st0 err, k ∈ days ->
        snd (assess_day today thresholds ds k st0) <> Raise err) ->
    days_processed_for_risk (fst (risk_loop today thresholds ds days st)) <= 5.
Proof.
  induction days as [| k rest IH]; intros st Hlt Hok; [cbn; lia |].
  cbn [risk_loop].
  pose proof (assess_day_counts ds k st) as Hcount.
  pose proof (Hok k st) as Hno.
  destruct (assess_day today thresholds ds k st) as [st' [[] | err]]; cbn [fst snd] in *.
  - apply IH; [lia |]. intros k' st0 err Hk'. apply Hok. by right.
  - lia.
  - exfalso. apply (Hno err); [by left | reflexivity].
Qed.

End HorizonFacts.

Section PipelineKeys.




End PipelineKeys.

(* ================================================================== *)
(** * The model on concrete values *)
(* ================================================================== *)

Example ord_epoch : ymd2ord (mkdate 1970 1 1) = 719163.
Proof. reflexivity. Qed.
Example ord_max : ymd2ord (mkdate 9999 12 31) = MAXORDINAL.
Proof. reflexivity. Qed.
Example fromts_leap :
  fromtimestamp 0 (VNum 951782400) = Ok (mkdate 2000 2 29).
Proof. reflexivity. Qed.
Example fromts_0 : fromtimestamp 0 (VNum 0) = Ok (mkdate 1970 1 1).
Proof. reflexivity. Qed.
Example fromts_neg : fromtimestamp 0 (VNum (-1)) = Ok (mkdate 1969 12 31).
Proof. reflexivity. Qed.
Example fromts_2026 :
  fromtimestamp 0 (VNum 1793664000) = Ok (mkdate 2026 11 3).
Proof. reflexivity. Qed.
Example fromts_tz :
  fromtimestamp 19800 (VNum 1793730600) = Ok (mkdate 2026 11 4).
Proof. reflexivity. Qed.
Example strftime_ex : strftime (mkdate 2026 11 3) = "2026-11-03".
Proof. reflexivity. Qed.
Example strptime_ex : strptime "2026-11-03" = Ok (mkdate 2026 11 3).
Proof. reflexivity. Qed.
Example strptime_short : strptime "2026-1-3" = Ok (mkdate 2026 1 3).
Proof. reflexivity. Qed.
Example strptime_bad : strptime "2026-02-30" = Raise ValueError.
Proof. reflexivity. Qed.
Example ord2ymd_dec31 : ord2ymd (ymd2ord (mkdate 2024 12 31)) = mkdate 2024 12 31.
Proof. reflexivity. Qed.
Example ord2ymd_mar1 : ord2ymd (ymd2ord (mkdate 2100 3 1)) = mkdate 2100 3 1.
Proof. reflexivity. Qed.
Example fmt_examples :
  fmt_1f (-3) = "-3.0" /\ fmt_div_0f 171 2 = "86" /\ fmt_div_0f 173 2 = "86" /\
  fmt_div_0f 256 3 = "85" /\ fmt_div_0f (-1) 2 = "-0".
Proof. repeat split; reflexivity. Qed.
Example contains_ex :
  contains "ending 2026-11-03" "x (ending 2026-11-03)." = true /\
  contains "ending 2026-11-04" "x (ending 2026-11-03)." = false.
Proof. split; reflexivity. Qed.

(** A day whose body raises before the streak checks neither extends nor
    resets a streak: with a drought threshold of 2 days, a dry day, a day
    with a humidity reading that is a string, and another dry day make a
    streak of 2. *)
Example skipped_day_keeps_streak :
  let ds := [ ("2026-11-03", mk_summary 24 12 0 3 [VNum 50] [] 1);
              ("2026-11-04", mk_summary 25 13 0 4 [VStr "high"] [] 1);
              ("2026-11-05", mk_summary 26 14 0 2 [VNum 60] [] 1) ] in
  let st := fst (risk_loop (mkdate 2026 11 3)
                   (<["drought_risk_days" := 2]> DEFAULT_THRESHOLDS) ds
                   ["2026-11-03"; "2026-11-04"; "2026-11-05"] initial_state) in
  details (drought (rk st)) =
    [ "Drought Risk Developing: 2 consecutive days with <= 2mm rain starting around 2026-11-04." ] /\
  days_processed_for_risk st = 3.
Proof. vm_compute. split; reflexivity. Qed.

(* ================================================================== *)
(** * The keys of the days and the order of the visit *)
(* ================================================================== *)

Section KeyOrder.




Lemma insert_sorted_Permutation k (l : list string) : insert_sorted k l ≡ₚ k :: l.
Proof.
  induction l as [| k' l IH]; cbn; [reflexivity |].
  destruct (String.leb k k'); [reflexivity |].
  rewrite IH. apply Permutation_swap.
Qed.

End KeyOrder.





(** X3. [sorted] rearranges its argument into ascending order: the result
    is a permutation of the keys, and each element is at most the next. *)
Theorem sorted_is_ascending_permutation :
  forall l : list string,
    sorted l ≡ₚ l /\ Sorted (fun a b => String.leb a b = true) (sorted l).
Proof.
  intros l. split; [| apply sorted_Sorted].
  induction l as [| k l IH]; cbn; [reflexivity |].
  rewrite insert_sorted_Permutation. by rewrite IH.
Qed.



(* ================================================================== *)
(** * More on the aggregation *)
(* ================================================================== *)

Section AggregationLoop.

Variable utc_offset : Z.

Lemma aggregate_app l1 l2 ds :
  aggregate utc_offset (l1 ++ l2) ds =
    match aggregate utc_offset l1 ds with
    | (ds', Ok _) => aggregate utc_offset l2 ds'
    | (ds', Raise err) => (ds', Raise err)
    end.
Proof.
  revert ds. induction l1 as [| item rest IH]; intros ds; [reflexivity |].
  cbn [app aggregate].
  destruct (aggregate_entry utc_offset item ds) as [ds1 [[] | err]]; [apply IH |].
  destruct (entry_handler_catches err); [apply IH | reflexivity].
Qed.

Lemma passed_over_entry item ds :
  passed_over utc_offset item = true ->
  aggregate_entry utc_offset item ds = (ds, Ok tt) \/
  exists err, entry_handler_catches err = true /\
              aggregate_entry utc_offset item ds = (ds, Raise err).
Proof.
  destruct item as [ | | | | | e]; try (by left).
  unfold passed_over, aggregate_entry.
  destruct (assoc_get "dt" e) as [ts |]; [| by left].
  destruct (is_none ts); [by left |]. cbn [orb].
  unfold aggregate_sample, bind, lift.
  destruct (fromtimestamp utc_offset ts) as [d | err]; [discriminate |].
  intros Hc. right. by exists err.
Qed.



(** ** The shape of the summaries *)

Lemma new_summary_shape : summary_shape new_summary.
Proof. unfold summary_shape; cbn. repeat split; try lia. constructor. Qed.

Lemma summary_of_shape k ds : shaped ds -> summary_shape (summary_of k ds).
Proof.
  intros H. unfold summary_of. destruct (assoc_get k ds) eqn:Hk; [by apply (H k) |].
  apply new_summary_shape.
Qed.

Lemma shaped_at_intro d ds : shaped ds -> shaped_at d summary_shape ds.
Proof. intros H k s Hk. destruct (String.eqb d k); by apply (H k). Qed.

Lemma shaped_at_elim d ds : shaped_at d summary_shape ds -> shaped ds.
Proof. intros H k s Hk. specialize (H k s Hk). by destruct (String.eqb d k). Qed.

Lemma shaped_init_day d ds : shaped ds -> shaped (init_day d ds).
Proof.
  intros H k s. rewrite assoc_get_init_day.
  destruct (String.eqb d k); [| apply H].
  intros [= <-]. by apply summary_of_shape.
Qed.

Lemma shaped_at_on_day (X Y : day_summary -> Prop) d f ds :
  (forall s, X s -> Y (f s)) ->
  shaped_at d X ds -> shaped_at d Y (on_day d f ds).
Proof.
  intros Hf H k s. rewrite assoc_get_on_day.
  destruct (String.eqb d k) eqn:Hd.
  - destruct (assoc_get k ds) as [s0 |] eqn:Hk; [| discriminate].
    intros [= <-]. apply Hf. specialize (H k s0 Hk). by rewrite Hd in H.
  - intros Hk. specialize (H k s Hk). by rewrite Hd in H.
Qed.

Lemma shaped_on_day d f ds :
  (forall s, summary_shape s -> summary_shape (f s)) ->
  shaped ds -> shaped (on_day d f ds).
Proof.
  intros Hf H. apply (shaped_at_elim d).
  apply (shaped_at_on_day summary_shape); [exact Hf | by apply shaped_at_intro].
Qed.

Lemma aggregate_sample_shaped e ts :
  triple shaped (aggregate_sample utc_offset e ts) (fun _ => shaped) shaped.
Proof.
  unfold aggregate_sample.
  eapply triple_bind with (Q := fun _ => shaped); [by apply triple_lift |].
  intros dt_obj. cbv zeta. set (k := strftime dt_obj).
  eapply triple_bind with (Q := fun _ => shaped);
    [apply triple_modify; intros; by apply shaped_init_day |].
  intros ?.
  eapply triple_bind with (Q := fun _ => shaped); [by apply triple_lift |].
  intros rain_3h_v.
  eapply triple_bind with (Q := fun cur ds => shaped ds /\ -100 <= cur).
  { apply triple_gets. intros ds H. split; [exact H |].
    apply (summary_of_shape k ds H). }
  intros cur_max.
  eapply triple_bind with (Q := fun _ ds => shaped ds /\ -100 <= cur_max);
    [apply triple_lift; [auto | by intros ? ? [? ?]] |].
  intros temp_max_v.
  eapply triple_bind with (Q := fun _ ds => shaped ds /\ -100 <= cur_max);
    [apply triple_lift; [auto | by intros ? ? [? ?]] |].
  intros temp_max.
  eapply triple_bind with (Q := fun _ => shaped).
  { apply triple_modify. intros ds [H Hc]. apply shaped_on_day; [| exact H].
    intros s (? & ? & ? & ? & ? & ?). unfold summary_shape; cbn. repeat split; try done; lia. }
  intros ?.
  eapply triple_bind with (Q := fun cur ds => shaped ds /\ cur <= 200).
  { apply triple_gets. intros ds H. split; [exact H |].
    apply (summary_of_shape k ds H). }
  intros cur_min.
  eapply triple_bind with (Q := fun _ ds => shaped ds /\ cur_min <= 200);
    [apply triple_lift; [auto | by intros ? ? [? ?]] |].
  intros temp_min_v.
  eapply triple_bind with (Q := fun _ ds => shaped ds /\ cur_min <= 200);
    [apply triple_lift; [auto | by intros ? ? [? ?]] |].
  intros temp_min.
  eapply triple_bind with (Q := fun _ => shaped).
  { apply triple_modify. intros ds [H Hc]. apply shaped_on_day; [| exact H].
    intros s (? & ? & ? & ? & ? & ?). unfold summary_shape; cbn. repeat split; try done; lia. }
  intros ?.
  eapply triple_bind with (Q := fun _ => shaped); [by apply triple_lift |].
  intros rain_3h.
  eapply triple_bind with (Q := fun _ => shaped).
  { apply triple_modify. intros ds H. apply shaped_on_day; [| exact H].
    intros s Hs. exact Hs. }
  intros ?.
  eapply triple_bind with (Q := fun _ => shaped); [by apply triple_lift |].
  intros speed_v.
  eapply triple_bind with (Q := fun _ => shaped); [by apply triple_lift |].
  intros speed.
  eapply triple_bind with (Q := fun _ => shaped).
  { apply triple_modify. intros ds H. apply shaped_on_day; [| exact H].
    intros s (? & ? & ? & ? & ? & ?). unfold summary_shape; cbn. repeat split; try done; lia. }
  intros ?.
  eapply triple_bind with (Q := fun _ => shaped); [by apply triple_lift |].
  intros humidity.
  set (A := fun s : day_summary =>
              count s + 1 = Z.of_nat (length (humidity_readings s)) /\
              (length (rain_3h_intervals s) + 1 <= length (humidity_readings s))%nat /\
              Forall (fun r => 0 < r) (rain_3h_intervals s) /\
              0 <= max_wind_speed s /\ -100 <= max_temp s /\ min_temp s <= 200).
  set (B := fun s : day_summary =>
              count s + 1 = Z.of_nat (length (humidity_readings s)) /\
              (length (rain_3h_intervals s) <= length (humidity_readings s))%nat /\
              Forall (fun r => 0 < r) (rain_3h_intervals s) /\
              0 <= max_wind_speed s /\ -100 <= max_temp s /\ min_temp s <= 200).
  eapply triple_bind with (Q := fun _ => shaped_at k A).
  { apply triple_modify. intros ds H.
    apply (shaped_at_on_day summary_shape); [| by apply shaped_at_intro].
    intros s (? & ? & ? & ? & ? & ?). unfold A; cbn. rewrite length_app. cbn.
    repeat split; try done; lia. }
  intros ?.
  eapply triple_bind with (Q := fun _ => shaped_at k B).
  { destruct (Z.ltb_spec 0 rain_3h) as [Hpos | Hneg].
    - apply triple_modify. intros ds H.
      apply (shaped_at_on_day A); [| exact H].
      intros s (? & ? & ? & ? & ? & ?). unfold B; cbn. rewrite length_app. cbn.
      split; [done |]. split; [lia |]. split; [| done].
      apply Forall_app. split; [done |]. by repeat constructor.
    - apply triple_ret. intros ds H k' s Hk'. specialize (H k' s Hk').
      destruct (String.eqb k k'); [| exact H].
      destruct H as (? & ? & ? & ? & ? & ?). unfold B. repeat split; try done; lia. }
  intros ?.
  apply triple_modify. intros ds H. apply (shaped_at_elim k).
  apply (shaped_at_on_day B); [| exact H].
  intros s (? & ? & ? & ? & ? & ?). unfold summary_shape; cbn. repeat split; try done; lia.
Qed.

Lemma aggregate_entry_shaped item ds :
  shaped ds -> shaped (fst (aggregate_entry utc_offset item ds)).
Proof.
  intros H.
  assert (Ht : triple shaped (aggregate_entry utc_offset item) (fun _ => shaped) shaped).
  { destruct item as [ | | | | | e]; try (by apply triple_ret).
    unfold aggregate_entry. destruct (assoc_get "dt" e) as [ts |]; [| by apply triple_ret].
    destruct (is_none ts); [by apply triple_ret | apply aggregate_sample_shaped]. }
  specialize (Ht ds H).
  by destruct (aggregate_entry utc_offset item ds) as [ds' [[] | err]].
Qed.

Lemma aggregate_shaped samples :
  forall ds, shaped ds -> shaped (fst (aggregate utc_offset samples ds)).
Proof.
  induction samples as [| item rest IH]; intros ds H; [exact H |].
  cbn [aggregate].
  pose proof (aggregate_entry_shaped item ds H) as H1.
  destruct (aggregate_entry utc_offset item ds) as [ds1 [[] | err]]; cbn [fst] in *;
    [by apply IH |].
  destruct (entry_handler_catches err); [by apply IH | exact H1].
Qed.

End AggregationLoop.

(** X5. An item of the forecast list that is not a record, that has no
    timestamp or a null one, or whose timestamp raises an exception caught
    by the handler of the loop when it is converted, has no effect: the
    aggregation of the list with the item is the aggregation of the list
    without it. *)
Theorem passed_over_item_is_ignored :
  forall (utc_offset : Z) (before after : list pyval) (item : pyval)
         (ds : daily_summaries),
    passed_over utc_offset item = true ->
    aggregate utc_offset (before ++ item :: after) ds =
    aggregate utc_offset (before ++ after) ds.
Proof.
  intros utc_offset before after item ds Hp.
  rewrite !aggregate_app.
  destruct (aggregate utc_offset before ds) as [ds1 [[] | err]]; [| reflexivity].
  cbn [aggregate].
  destruct (passed_over_entry utc_offset item ds1 Hp) as [-> | (err & Hc & ->)];
    [reflexivity | by rewrite Hc].
Qed.

Lemma passed_over_item_is_ignored_witness :
  aggregate 0 ([forecast_sample T0 21 12 (VNum 60) 3 0] ++
               VDict [("dt", VStr "noon")] ::
               [forecast_sample (T0 + DAY) 27 9 (VNum 55) 4 2]) [] =
  aggregate 0 ([forecast_sample T0 21 12 (VNum 60) 3 0] ++
               [forecast_sample (T0 + DAY) 27 9 (VNum 55) 4 2]) [].
Proof.
  apply (passed_over_item_is_ignored 0 [forecast_sample T0 21 12 (VNum 60) 3 0]
           [forecast_sample (T0 + DAY) 27 9 (VNum 55) 4 2]
           (VDict [("dt", VStr "noon")]) []).
  reflexivity.
Defined.

(** X6. Whatever the samples are, and whether or not the aggregation runs
    to its end, every summary it leaves has the same shape: [count] is the
    number of humidity readings, there are at most as many rain intervals,
    each of them positive, the wind maximum is not negative, [max_temp] is
    at least -100 and [min_temp] at most 200. *)
Theorem summaries_keep_their_shape :
  forall (utc_offset : Z) (samples : list pyval) (k : string) (s : day_summary),
    assoc_get k (fst (aggregate utc_offset samples [])) = Some s ->
    count s = Z.of_nat (length (humidity_readings s)) /\
    (length (rain_3h_intervals s) <= length (humidity_readings s))%nat /\
    Forall (fun r => 0 < r) (rain_3h_intervals s) /\
    0 <= max_wind_speed s /\ -100 <= max_temp s /\ min_temp s <= 200.
Proof.
  intros utc_offset samples k s Hk.
  apply (aggregate_shaped utc_offset samples [] (fun k s H => ltac:(discriminate H)) k s Hk).
Qed.

Lemma summaries_keep_their_shape_witness :
  exists s,
    assoc_get "2026-11-03"
      (fst (aggregate 0 [ forecast_sample T0 21 12 VNone 3 4;
                          VDict [("dt", VNum T0); ("rain", VNum 3)];
                          forecast_sample (T0 + 10800) 27 9 (VNum 55) 4 0 ] [])) = Some s /\
    count s = 2 /\ length (rain_3h_intervals s) = 1%nat.
Proof.
  assert (H : assoc_get "2026-11-03"
                (fst (aggregate 0 [ forecast_sample T0 21 12 VNone 3 4;
                                    VDict [("dt", VNum T0); ("rain", VNum 3)];
                                    forecast_sample (T0 + 10800) 27 9 (VNum 55) 4 0 ] []))
              = Some (mk_summary 27 9 4 4 [VNone; VNum 55] [4] 2))
    by (vm_compute; reflexivity).
  exists (mk_summary 27 9 4 4 [VNone; VNum 55] [4] 2). split; [exact H |].
  destruct (summaries_keep_their_shape 0
              [ forecast_sample T0 21 12 VNone 3 4;
                VDict [("dt", VNum T0); ("rain", VNum 3)];
                forecast_sample (T0 + 10800) 27 9 (VNum 55) 4 0 ]
              "2026-11-03" _ H) as (Hc & _).
  split; [exact Hc | reflexivity].
Defined.



(* ================================================================== *)
(** * Complete samples, and when the aggregation is left *)
(* ================================================================== *)

Section RaisesOnly.

Context {S : Type}.
Implicit Types (C : exn -> Prop).






End RaisesOnly.

Section CompleteSamples.

Variable utc_offset : Z.








(** ** A sample with every field *)





End CompleteSamples.




(* ================================================================== *)
(** * The checks of a single day *)
(* ================================================================== *)

Section SingleDayChecks.

Variable today : date.
Variable thresholds : gmap string Z.
Implicit Types (st : loop_state) (ds : daily_summaries) (k : string) (c : category).


Lemma overall_fire c alert st :
  overall_alerts (rk (fire c alert st)) = overall_alerts (rk st).
Proof.
  rewrite fire_set_entry.
  change (rk (on_risks ?f st)) with (f (rk st)). apply overall_set_entry.
Qed.












End SingleDayChecks.









(* ================================================================== *)
(** * What the evaluation loop maintains *)
(* ================================================================== *)

Section GrowthFacts.

Variable today : date.
Variable thresholds : gmap string Z.
Implicit Types (st : loop_state) (r : risks) (c : category).

Lemma report_extends_refl r : report_extends r r.
Proof. split; [intros c; split; [reflexivity | auto] | reflexivity]. Qed.

Lemma report_extends_trans r1 r2 r3 :
  report_extends r1 r2 -> report_extends r2 r3 -> report_extends r1 r3.
Proof.
  intros [H1 O1] [H2 O2]. split; [| by etrans].
  intros c. destruct (H1 c) as [P1 W1]. destruct (H2 c) as [P2 W2].
  split; [by etrans | auto].
Qed.

Lemma report_extends_set_entry c e r :
  details (entry c r) `prefix_of` details e ->
  (warning (entry c r) = true -> warning e = true) ->
  report_extends r (set_entry c e r).
Proof.
  intros Hp Hw. split; [| by rewrite overall_set_entry].
  intros c'. destruct c, c'; cbn in *; (split; [done || reflexivity | auto]).
Qed.

Lemma extends_fire r0 c alert st :
  report_extends r0 (rk st) -> report_extends r0 (rk (fire c alert st)).
Proof.
  intros H. eapply report_extends_trans; [exact H |].
  rewrite fire_set_entry. change (rk (on_risks ?f st)) with (f (rk st)).
  apply report_extends_set_entry; cbn; [by apply prefix_app_r | auto].
Qed.

Lemma extends_set_warning r0 c st :
  report_extends r0 (rk st) -> report_extends r0 (rk (on_risks (set_warning c) st)).
Proof.
  intros H. eapply report_extends_trans; [exact H |].
  change (rk (on_risks ?f st)) with (f (rk st)). unfold set_warning.
  apply report_extends_set_entry; cbn; [reflexivity | auto].
Qed.

Lemma extends_extend_overall r0 l st :
  report_extends r0 (rk st) -> report_extends r0 (rk (on_risks (extend_overall l) st)).
Proof.
  intros H. eapply report_extends_trans; [exact H |].
  change (rk (on_risks ?f st)) with (f (rk st)).
  split; [| cbn; by apply prefix_app_r].
  intros c. rewrite entry_extend_overall. split; [reflexivity | auto].
Qed.

Lemma assess_day_extends r0 ds k :
  triple (fun st => report_extends r0 (rk st)) (assess_day today thresholds ds k)
    (fun _ st => report_extends r0 (rk st)) (fun st => report_extends r0 (rk st)).
Proof.
  set (P := fun st : loop_state => report_extends r0 (rk st)).
  unfold assess_day, apply_rules.
  eapply triple_bind; [apply triple_lift with (Q := fun _ => P); auto |].
  intros day_date. destruct (date_ltb day_date today); [by apply triple_ret |].
  eapply triple_bind; [apply triple_modify with (Q := fun _ => P); auto |].
  intros ?.
  eapply triple_bind; [apply triple_lift with (Q := fun _ => P); auto |].
  intros summary.
  eapply triple_bind with (Q := fun _ => P).
  { intros st Hst.
    destruct (check_frost_shape thresholds k summary st) as [-> | [alert ->]];
      [exact Hst | by apply extends_fire]. }
  intros a_frost.
  eapply triple_bind with (Q := fun _ => P).
  { intros st Hst.
    destruct (check_flood_shape thresholds k summary st) as [-> | [alert ->]];
      [exact Hst | by apply extends_fire]. }
  intros a_flood.
  eapply triple_bind with (Q := fun _ => P).
  { intros st Hst.
    destruct (check_wind_shape thresholds k summary st) as [-> | [alert ->]];
      [exact Hst | by apply extends_fire]. }
  intros a_wind.
  eapply triple_bind with (Q := fun _ => P).
  { intros st Hst.
    destruct (check_humidity_shape thresholds k summary st)
      as [(err & _ & ->) | (readings & _ & [-> | [alert ->]])];
      [exact Hst | exact Hst | by apply extends_fire]. }
  intros a_humid.
  eapply triple_bind with (Q := fun _ => P).
  { intros st Hst. rewrite check_drought_run. cbn zeta.
    set (st1 := if _ <=? _ then _ else _).
    assert (Hst1 : P st1) by (unfold st1; destruct (_ <=? _); exact Hst).
    destruct (_ && _); [| exact Hst1].
    destruct (date_sub_days _ _); [by apply extends_fire | by apply extends_set_warning]. }
  intros a_drought.
  eapply triple_bind with (Q := fun _ => P).
  { intros st Hst. rewrite check_heatwave_run. cbn zeta.
    set (st1 := if _ <=? _ then _ else _).
    assert (Hst1 : P st1) by (unfold st1; destruct (_ <=? _); exact Hst).
    destruct (_ && _); [by apply extends_fire | exact Hst1]. }
  intros a_heat.
  eapply triple_weaken; [apply (finish_day_frame P P) | auto | | auto].
  - intros st l Hst. by apply extends_extend_overall.
  - intros c st [Hst _]. exact Hst.
Qed.

End GrowthFacts.

(** X14. The evaluation loop only adds to the report.  From whatever
    state it is entered and whatever the days are, also those whose body
    raises, every category keeps the details it had, in their order, at the
    front of its list; a flag that was set is still set; and the overall
    alerts it had are at the front of the overall alerts. *)
Theorem risk_loop_only_adds :
  forall (today : date) (thresholds : gmap string Z) (ds : daily_summaries)
         (days : list string) (st : loop_state),
    let r := rk st in
    let r' := rk (fst (risk_loop today thresholds ds days st)) in
    (forall c, details (entry c r) `prefix_of` details (entry c r') /\
               (warning (entry c r) = true -> warning (entry c r') = true)) /\
    overall_alerts r `prefix_of` overall_alerts r'.
Proof.
  intros today thresholds ds days st. cbv zeta.
  change (report_extends (rk st) (rk (fst (risk_loop today thresholds ds days st)))).
  generalize (report_extends_refl (rk st)). generalize (rk st) at 1 3. intros r0.
  revert st. induction days as [| k rest IH]; intros st Hst; [exact Hst |].
  cbn [risk_loop].
  pose proof (assess_day_extends today thresholds r0 ds k st Hst) as Hday.
  destruct (assess_day today thresholds ds k st) as [st' [[] | err]];
    [by apply IH | exact Hday | by apply IH].
Qed.

Section CountFacts.

Variable today : date.
Variable thresholds : gmap string Z.
Implicit Types (st : loop_state) (c : category) (n : Z).

Lemma within_stable c c' n : c <> c' -> stable_for c' (details_within c n).
Proof.
  intros Hne st e H. unfold details_within in *.
  change (rk (on_risks (set_entry c' e) st)) with (set_entry c' e (rk st)).
  by rewrite entry_set_entry_ne.
Qed.

Lemma within_mono c n st : details_within c n st -> details_within c (n + 1) st.
Proof. unfold details_within. lia. Qed.

Lemma within_fire c n alert st :
  details_within c n st -> details_within c (n + 1) (fire c alert st).
Proof.
  unfold details_within. rewrite fire_set_entry.
  change (rk (on_risks ?f st)) with (f (rk st)).
  rewrite entry_set_entry_eq. cbn. rewrite length_app. cbn. lia.
Qed.

Lemma within_set_warning c c' n st :
  details_within c n st -> details_within c n (on_risks (set_warning c') st).
Proof.
  unfold details_within. change (rk (on_risks ?f st)) with (f (rk st)).
  unfold set_warning. destruct c, c'; cbn; auto.
Qed.

Lemma check_frost_within n E k s :
  triple (details_within Frost n) (check_frost thresholds k s)
    (fun _ => details_within Frost (n + 1)) E.
Proof.
  intros st Hst.
  destruct (check_frost_shape thresholds k s st) as [-> | [alert ->]];
    [by apply within_mono | by apply within_fire].
Qed.

Lemma check_flood_within n E k s :
  triple (details_within FloodHeavyRain n) (check_flood thresholds k s)
    (fun _ => details_within FloodHeavyRain (n + 1)) E.
Proof.
  intros st Hst.
  destruct (check_flood_shape thresholds k s st) as [-> | [alert ->]];
    [by apply within_mono | by apply within_fire].
Qed.

Lemma check_wind_within n E k s :
  triple (details_within HighWind n) (check_wind thresholds k s)
    (fun _ => details_within HighWind (n + 1)) E.
Proof.
  intros st Hst.
  destruct (check_wind_shape thresholds k s st) as [-> | [alert ->]];
    [by apply within_mono | by apply within_fire].
Qed.

Lemma check_humidity_within n k s :
  triple (details_within ProlongedHighHumidity n) (check_humidity thresholds k s)
    (fun _ => details_within ProlongedHighHumidity (n + 1))
    (details_within ProlongedHighHumidity (n + 1)).
Proof.
  intros st Hst.
  destruct (check_humidity_shape thresholds k s st)
    as [(err & _ & ->) | (readings & _ & [-> | [alert ->]])];
    [by apply within_mono | by apply within_mono | by apply within_fire].
Qed.

Lemma check_drought_within n d s :
  triple (details_within Drought n) (check_drought thresholds d s)
    (fun _ => details_within Drought (n + 1)) (details_within Drought (n + 1)).
Proof.
  intros st Hst. rewrite check_drought_run. cbn zeta.
  set (st1 := if _ <=? _ then _ else _).
  assert (Hst1 : details_within Drought n st1)
    by (unfold st1; destruct (_ <=? _); exact Hst).
  destruct (_ && _); [| by apply within_mono].
  destruct (date_sub_days _ _);
    [by apply within_fire | by apply within_mono, within_set_warning].
Qed.

Lemma check_heatwave_within n E k s :
  triple (details_within Heatwave n) (check_heatwave thresholds k s)
    (fun _ => details_within Heatwave (n + 1)) E.
Proof.
  intros st Hst. rewrite check_heatwave_run. cbn zeta.
  set (st1 := if _ <=? _ then _ else _).
  assert (Hst1 : details_within Heatwave n st1)
    by (unfold st1; destruct (_ <=? _); exact Hst).
  destruct (_ && _); [by apply within_fire | by apply within_mono].
Qed.

Lemma check_humidity_frame_weak (P E : loop_state -> Prop) k s :
  stable_for ProlongedHighHumidity P -> (forall st, P st -> E st) ->
  triple P (check_humidity thresholds k s) (fun _ => P) E.
Proof.
  intros HP HE. eapply triple_weaken; [by apply check_humidity_frame | auto ..].
Qed.

Lemma check_drought_frame_weak (P E : loop_state -> Prop) d s :
  stable_for Drought P -> (forall st v, P st -> P (set_dry v st)) ->
  (forall st, P st -> E st) ->
  triple P (check_drought thresholds d s) (fun _ => P) E.
Proof.
  intros HP Hdry HE. eapply triple_weaken; [by apply check_drought_frame | auto ..].
Qed.

Ltac within_step :=
  eapply triple_bind;
  [ first
      [ apply check_frost_within | apply check_flood_within | apply check_wind_within
      | apply check_humidity_within | apply check_drought_within
      | apply check_heatwave_within
      | apply check_frost_frame; by apply within_stable
      | apply check_flood_frame; by apply within_stable
      | apply check_wind_frame; by apply within_stable
      | apply check_humidity_frame_weak;
          [by apply within_stable | first [by auto | by apply within_mono]]
      | apply check_drought_frame_weak;
          [by apply within_stable | by auto | first [by auto | by apply within_mono]]
      | apply check_heatwave_frame; [by apply within_stable | by auto] ]
  | intros ?; cbv beta ].

(** The rules of a day add at most one detail to a category. *)
Lemma apply_rules_within c n k d s :
  triple (details_within c n) (apply_rules thresholds k d s)
    (fun _ => details_within c (n + 1)) (details_within c (n + 1)).
Proof.
  unfold apply_rules.
  destruct c; do 6 within_step;
    match goal with
    | |- triple (details_within ?c0 ?m) _ _ _ =>
        eapply triple_weaken;
        [ apply (finish_day_frame (details_within c0 m) (details_within c0 m));
          intros st l H; unfold details_within in *;
          change (rk (on_risks ?f st)) with (f (rk st));
          by rewrite entry_extend_overall
        | auto
        | intros ? ? [H _]; exact H
        | auto ]
    end.
Qed.

Lemma assess_day_counted ds k st :
  details_counted st -> details_counted (fst (assess_day today thresholds ds k st)).
Proof.
  intros Hinv.
  destruct (strptime k) as [d | err] eqn:Hk;
    [| by rewrite (assess_day_unparsed today thresholds ds k st err Hk)].
  destruct (date_ltb d today) eqn:Hd;
    [by rewrite (assess_day_past today thresholds ds k st d Hk Hd) |].
  destruct (assoc_get k ds) as [s |] eqn:Hs.
  - rewrite (assess_day_processed today thresholds ds k st d s Hk Hd Hs).
    intros c.
    pose proof (apply_rules_within c (days_processed_for_risk st) k d s
                  (incr_processed st) (Hinv c)) as Hc.
    pose proof (apply_rules_counts thresholds k d s _ (incr_processed st) eq_refl) as Hp.
    cbn [incr_processed days_processed_for_risk] in Hp.
    destruct (apply_rules thresholds k d s (incr_processed st)) as [st' [ctl | err]];
      cbn [fst].
    + destruct Hp as [Hp _]. unfold details_within in *. by rewrite Hp.
    + unfold details_within in *. by rewrite Hp.
  - unfold assess_day. rewrite Hk, Hs. unfold bind at 1, lift at 1. rewrite Hd.
    cbn. intros c. specialize (Hinv c). unfold details_within in *. cbn. lia.
Qed.

Lemma risk_loop_counted ds days :
  forall st, details_counted st ->
             details_counted (fst (risk_loop today thresholds ds days st)).
Proof.
  induction days as [| k rest IH]; intros st Hst; [exact Hst |].
  cbn [risk_loop].
  pose proof (assess_day_counted ds k st Hst) as Hday.
  destruct (assess_day today thresholds ds k st) as [st' [[] | err]];
    [by apply IH | exact Hday | by apply IH].
Qed.

Lemma initial_state_counted : details_counted initial_state.
Proof. intros []; unfold details_within; cbn; lia. Qed.

(** ** The drought entry *)

Lemma drought_once_view : drought_view drought_once.
Proof.
  intros st st' Hd _ _ H. unfold drought_once in *. by rewrite Hd.
Qed.

Lemma check_drought_once d s :
  triple drought_once (check_drought thresholds d s) (fun _ => drought_once) drought_once.
Proof.
  intros st [Hnil Hlen]. rewrite check_drought_run. cbn zeta.
  set (st1 := if _ <=? _ then _ else _).
  assert (Hrk : rk st1 = rk st) by (unfold st1; by destruct (_ <=? _)).
  rewrite Hrk.
  destruct (_ <=? consecutive_dry_days st1); cbn [andb];
    [| unfold drought_once; rewrite Hrk; by split].
  destruct (warning (drought (rk st))) eqn:Hw; cbn [negb];
    [unfold drought_once; rewrite Hrk, Hw; by split |].
  specialize (Hnil eq_refl).
  destruct (date_sub_days _ _).
  - rewrite fire_set_entry. unfold drought_once. cbn. rewrite Hrk, Hnil. cbn.
    split; [discriminate | lia].
  - unfold drought_once. cbn. rewrite Hrk, Hnil. cbn. split; [discriminate | lia].
Qed.

Lemma assess_day_drought_once ds k st :
  drought_once st -> drought_once (fst (assess_day today thresholds ds k st)).
Proof.
  intros Hinv.
  assert (Hst : forall c, c <> Drought -> stable_for c drought_once).
  { intros c Hc. by apply drought_view_stable; [apply drought_once_view |]. }
  assert (Ht : triple drought_once (assess_day today thresholds ds k)
                 (fun _ => drought_once) drought_once).
  { unfold assess_day, apply_rules.
    eapply triple_bind; [apply triple_lift with (Q := fun _ => drought_once); auto |].
    intros day_date. destruct (date_ltb day_date today); [by apply triple_ret |].
    eapply triple_bind; [apply triple_modify with (Q := fun _ => drought_once); auto |].
    intros ?.
    eapply triple_bind; [apply triple_lift with (Q := fun _ => drought_once); auto |].
    intros summary.
    eapply triple_bind; [apply check_frost_frame; by apply Hst |]. intros ?.
    eapply triple_bind; [apply check_flood_frame; by apply Hst |]. intros ?.
    eapply triple_bind; [apply check_wind_frame; by apply Hst |]. intros ?.
    eapply triple_bind; [apply check_humidity_frame; by apply Hst |]. intros ?.
    eapply triple_bind; [apply check_drought_once |]. intros ?.
    eapply triple_bind; [apply check_heatwave_frame; [by apply Hst | by auto] |].
    intros ?.
    eapply triple_weaken;
      [apply (finish_day_frame drought_once drought_once) | auto | | auto].
    - intros st0 l H. exact H.
    - intros c st0 [H _]. exact H. }
  specialize (Ht st Hinv).
  by destruct (assess_day today thresholds ds k st) as [st' [c | err]].
Qed.

Lemma risk_loop_drought_once ds days :
  forall st, drought_once st ->
             drought_once (fst (risk_loop today thresholds ds days st)).
Proof.
  induction days as [| k rest IH]; intros st Hst; [exact Hst |].
  cbn [risk_loop].
  pose proof (assess_day_drought_once ds k st Hst) as Hday.
  destruct (assess_day today thresholds ds k st) as [st' [[] | err]];
    [by apply IH | exact Hday | by apply IH].
Qed.

End CountFacts.

(** X15. No report of the evaluator has more than one drought detail,
    whatever the forecast, the thresholds and the date are, and a drought
    detail is only found with the drought flag set. *)
Theorem at_most_one_drought_detail :
  forall (utc_offset : Z) (today : date) (thresholds : gmap string Z) (fd : pyval),
    let r := assess_climate_risks_enhanced utc_offset today thresholds fd in
    (length (details (drought r)) <= 1)%nat /\
    (warning (drought r) = false -> details (drought r) = []).
Proof.
  intros utc_offset today thresholds fd. cbv zeta.
  assert (Hinit : (length (details (drought initial_risks)) <= 1)%nat /\
                  (warning (drought initial_risks) = false ->
                   details (drought initial_risks) = [])) by (cbn; auto).
  unfold assess_climate_risks_enhanced.
  destruct fd as [ | | | | | d]; try exact Hinit.
  destruct (assoc_get "list" d) as [[ | | | | [| item rest] | ] |]; try exact Hinit.
  unfold assess_list.
  destruct (aggregate utc_offset (item :: rest) []) as [ds [[] | err]];
    [| exact Hinit].
  destruct (risk_loop_drought_once today thresholds ds (sorted (map fst ds)) initial_state)
    as [Hnil Hlen]; [split; cbn; auto |].
  split; assumption.
Qed.

(** X16. In the state the evaluation loop leaves, no category has more
    details than days have been counted as processed: a day adds at most
    one detail to a category, also when its body raises. *)
Theorem details_bounded_by_days_counted :
  forall (today : date) (thresholds : gmap string Z) (ds : daily_summaries)
         (days : list string) (c : category),
    let st := fst (risk_loop today thresholds ds days initial_state) in
    Z.of_nat (length (details (entry c (rk st)))) <= days_processed_for_risk st.
Proof.
  intros today thresholds ds days c. cbv zeta.
  apply (risk_loop_counted today thresholds ds days initial_state initial_state_counted c).
Qed.

(* ================================================================== *)
(** * Forecasts whose days all run to their end *)
(* ================================================================== *)

Section CleanForecasts.

Variable utc_offset : Z.
Variable today : date.
Variable thresholds : gmap string Z.








Hypothesis today_valid : valid_date today = true.
Hypothesis threshold_positive : 1 <= th_get thresholds "drought_risk_days" 7.
Hypothesis today_late_enough : th_get thresholds "drought_risk_days" 7 <= ymd2ord today.


End CleanForecasts.

(** X17. A forecast whose samples all fall on days before today is
    answered by the report in which nothing is flagged: days in the past
    are skipped before any rule is applied, whatever their values. *)
Theorem past_forecast_is_all_clear :
  forall (utc_offset : Z) (today : date) (thresholds : gmap string Z)
         (d : list (string * pyval)) (samples : list pyval),
    assoc_get "list" d = Some (VList samples) ->
    (forall item dd, item ∈ samples -> sample_date utc_offset item = Some dd ->
                     date_ltb dd today = true) ->
    assess_climate_risks_enhanced utc_offset today thresholds (VDict d) = initial_risks.
Proof.
  intros utc_offset today thresholds d samples Hd Hpast.
  unfold assess_climate_risks_enhanced. rewrite Hd.
  destruct samples as [| item rest]; [reflexivity |].
  by apply past_forecast_all_clear.
Qed.

Lemma past_forecast_is_all_clear_witness :
  assess_climate_risks_enhanced 0 (mkdate 2026 11 5) DEFAULT_THRESHOLDS
    (VDict [("list", VList [ forecast_sample T0 45 (-5) (VNum 99) 30 80;
                             forecast_sample (T0 + DAY) 45 (-5) (VNum 99) 30 80 ])])
  = initial_risks.
Proof.
  apply (past_forecast_is_all_clear 0 (mkdate 2026 11 5) DEFAULT_THRESHOLDS
           [("list", VList [ forecast_sample T0 45 (-5) (VNum 99) 30 80;
                             forecast_sample (T0 + DAY) 45 (-5) (VNum 99) 30 80 ])]
           [ forecast_sample T0 45 (-5) (VNum 99) 30 80;
             forecast_sample (T0 + DAY) 45 (-5) (VNum 99) 30 80 ] eq_refl).
  intros item dd Hin Hdate.
  apply elem_of_cons in Hin as [-> | Hin];
    [| apply elem_of_cons in Hin as [-> | Hin]; [| by apply elem_of_nil in Hin]];
    vm_compute in Hdate; injection Hdate as <-; reflexivity.
Defined.



(* ================================================================== *)
(** * Ordinals and dates *)
(* ================================================================== *)

Section OrdinalFacts.

Lemma days_before_year_cycles a b c e :
  0 <= b <= 3 -> 0 <= c <= 24 -> 0 <= e <= 3 -> 0 <= a ->
  days_before_year (a * 400 + 1 + b * 100 + c * 4 + e) =
    a * 146097 + b * 36524 + c * 1461 + e * 365.
Proof.
  intros Hb Hc He Ha. unfold days_before_year. cbv zeta.
  replace (a * 400 + 1 + b * 100 + c * 4 + e - 1) with (a * 400 + b * 100 + c * 4 + e)
    by lia.
  Z.div_mod_to_equations. lia.
Qed.

Lemma is_leap_cycles a b c e :
  0 <= b <= 3 -> 0 <= c <= 24 -> 0 <= e <= 3 -> 0 <= a ->
  is_leap (a * 400 + 1 + b * 100 + c * 4 + e) =
    (e =? 3) && (negb (c =? 24) || (b =? 3)).
Proof.
  intros Hb Hc He Ha. unfold is_leap.
  destruct (Z.eqb_spec e 3), (Z.eqb_spec c 24), (Z.eqb_spec b 3);
    destruct (Z.eqb_spec ((a * 400 + 1 + b * 100 + c * 4 + e) mod 4) 0);
    destruct (Z.eqb_spec ((a * 400 + 1 + b * 100 + c * 4 + e) mod 100) 0);
    destruct (Z.eqb_spec ((a * 400 + 1 + b * 100 + c * 4 + e) mod 400) 0);
    cbn; try reflexivity; exfalso; Z.div_mod_to_equations; lia.
Qed.

End OrdinalFacts.

Section OrdinalRoundTrip.

Ltac literals :=
  try change (1 - 1) with 0; try change (2 - 1) with 1; try change (3 - 1) with 2;
  try change (4 - 1) with 3; try change (5 - 1) with 4; try change (6 - 1) with 5;
  try change (7 - 1) with 6; try change (8 - 1) with 7; try change (9 - 1) with 8;
  try change (10 - 1) with 9; try change (11 - 1) with 10; try change (12 - 1) with 11;
  try change (is_leap 1) with false;
  cbn [DAYS_BEFORE_MONTH Z.eqb Pos.eqb Z.ltb Z.compare Pos.compare Pos.compare_cont
       andb orb negb].

Ltac calendar_leaf Hleap :=
  unfold ymd2ord, valid_date, MINYEAR, MAXYEAR, days_before_month, days_in_month;
  cbn [year month day];
  rewrite ?days_before_year_cycles by lia;
  rewrite ?is_leap_cycles by lia;
  rewrite ?Hleap;
  literals;
  split; [lia |];
  rewrite !andb_true_iff, !Z.leb_le; lia.

Lemma ymd2ord_ord2ymd n :
  1 <= n <= MAXORDINAL ->
  ymd2ord (ord2ymd n) = n /\ valid_date (ord2ymd n) = true.
Proof.
  intros Hn. unfold MAXORDINAL in Hn. unfold ord2ymd. cbv zeta.
  rewrite Z.shiftr_div_pow2 by lia. change (2 ^ 5) with 32.
  pose proof (Z.div_mod (n - 1) 146097 ltac:(lia)) as E1.
  pose proof (Z.mod_pos_bound (n - 1) 146097 ltac:(lia)) as B1.
  set (a := (n - 1) / 146097) in *. set (r1 := (n - 1) mod 146097) in *.
  pose proof (Z.div_mod r1 36524 ltac:(lia)) as E2.
  pose proof (Z.mod_pos_bound r1 36524 ltac:(lia)) as B2.
  set (b := r1 / 36524) in *. set (r2 := r1 mod 36524) in *.
  pose proof (Z.div_mod r2 1461 ltac:(lia)) as E3.
  pose proof (Z.mod_pos_bound r2 1461 ltac:(lia)) as B3.
  set (c := r2 / 1461) in *. set (r3 := r2 mod 1461) in *.
  pose proof (Z.div_mod r3 365 ltac:(lia)) as E4.
  pose proof (Z.mod_pos_bound r3 365 ltac:(lia)) as B4.
  set (e := r3 / 365) in *. set (r4 := r3 mod 365) in *.
  pose proof (Z.div_mod (r4 + 50) 32 ltac:(lia)) as E5.
  pose proof (Z.mod_pos_bound (r4 + 50) 32 ltac:(lia)) as B5.
  set (m := (r4 + 50) / 32) in *. set (r5 := (r4 + 50) mod 32) in *.
  clearbody a r1 b r2 c r3 e r4 m r5.
  assert (Ha : 0 <= a <= 24) by lia.
  assert (Hb : 0 <= b <= 4) by lia.
  assert (Hc : 0 <= c <= 24) by lia.
  assert (He : 0 <= e <= 4) by lia.
  assert (Hm : 1 <= m <= 12) by lia.
  destruct (Z.eqb_spec e 4) as [He4 | He4]; cbn [orb].
  { replace (a * 400 + 1 + b * 100 + c * 4 + e - 1)
      with (a * 400 + 1 + b * 100 + c * 4 + 3) by lia.
    assert (Hleap : (3 =? 3) && (negb (c =? 24) || (b =? 3)) = true).
    { destruct (Z.eqb_spec c 24); [lia | reflexivity]. }
    calendar_leaf Hleap. }
  destruct (Z.eqb_spec b 4) as [Hb4 | Hb4].
  { replace (a * 400 + 1 + b * 100 + c * 4 + e - 1)
      with (a * 400 + 1 + 3 * 100 + 24 * 4 + 3) by lia.
    assert (Hleap : (3 =? 3) && (negb (24 =? 24) || (3 =? 3)) = true) by reflexivity.
    calendar_leaf Hleap. }
  destruct ((e =? 3) && (negb (c =? 24) || (b =? 3))) eqn:Hleap;
    destruct (month_cases m Hm)
      as [-> | [-> | [-> | [-> | [-> | [-> | [-> | [-> | [-> | [-> | [-> | ->]]]]]]]]]]];
    literals;
    match goal with
    | |- context [?x <? ?y] => destruct (Z.ltb_spec x y)
    end;
    try lia;
    calendar_leaf Hleap.
Qed.

End OrdinalRoundTrip.

(** X19. The start date that a drought alert names is exact: when the
    drought check fires on a day of the calendar with a streak of [n] dry
    days, the alert carries the formatted date that lies [n - 1] days
    before the day, and this is a date of the calendar. *)
Theorem drought_start_date_is_exact :
  forall (thresholds : gmap string Z) (d : date) (s : day_summary)
         (st st' : loop_state) (alerts : list string),
    valid_date d = true ->
    check_drought thresholds d s st = (st', Ok alerts) ->
    alerts = [] \/
    exists start,
      alerts = [drought_alert (consecutive_dry_days st')
                  (th_get thresholds "drought_risk_mm" 2) (strftime start)] /\
      valid_date start = true /\
      ymd2ord start = ymd2ord d - (consecutive_dry_days st' - 1) /\
      th_get thresholds "drought_risk_days" 7 <= consecutive_dry_days st'.
Proof.
  intros thresholds d s st st' alerts Hd. rewrite check_drought_run. cbn zeta.
  set (st1 := if _ <=? _ then _ else _).
  destruct (Z.leb_spec (th_get thresholds "drought_risk_days" 7)
              (consecutive_dry_days st1)) as [Hreach | Hbelow]; cbn [andb];
    [| intros [= <- <-]; by left].
  destruct (negb _); [| intros [= <- <-]; by left].
  unfold date_sub_days.
  set (o := ymd2ord d - (consecutive_dry_days st1 - 1)).
  destruct (Z.ltb_spec 0 o) as [Hlo | Hlo]; [| discriminate].
  destruct (Z.leb_spec o MAXORDINAL) as [Hhi | Hhi]; [| discriminate].
  cbn [andb]. intros [= <- <-]. right. exists (ord2ymd o).
  destruct (ymd2ord_ord2ymd o) as [Hord Hvalid]; [lia |].
  split; [reflexivity |]. split; [exact Hvalid |]. split; [exact Hord | exact Hreach].
Qed.

Lemma drought_start_date_is_exact_witness :
  exists start,
    valid_date start = true /\ ymd2ord start = ymd2ord (mkdate 2026 3 1) - 1.
Proof.
  assert (Hrun : check_drought (<["drought_risk_days" := 2]> DEFAULT_THRESHOLDS)
                   (mkdate 2026 3 1) (mk_summary 24 12 0 3 [VNum 50] [] 1)
                   (mk_state initial_risks 1 0 1) =
                 (fire Drought (drought_alert 2 2 "2026-02-28")
                    (mk_state initial_risks 2 0 1),
                  Ok [drought_alert 2 2 "2026-02-28"]))
    by (vm_compute; reflexivity).
  destruct (drought_start_date_is_exact _ (mkdate 2026 3 1) _ _ _ _ eq_refl Hrun)
    as [Hnil | (start & _ & Hvalid & Hord & _)]; [discriminate Hnil |].
  exists start. split; [exact Hvalid | exact Hord].
Defined.

(* ================================================================== *)
(** * More on the threshold provider *)
(* ================================================================== *)

Section ProviderFacts.

Implicit Types (h : store) (l : loc) (base t : gmap string Z).

Lemma th_get_insert_eq t k v dflt : th_get (<[k := v]> t) k dflt = v.
Proof. unfold th_get. by rewrite lookup_insert_eq. Qed.

Lemma th_get_insert_ne t k k' v dflt :
  k <> k' -> th_get (<[k := v]> t) k' dflt = th_get t k' dflt.
Proof. intros Hne. unfold th_get. by rewrite lookup_insert_ne. Qed.

Lemma stage_sensitive_not_seedling stage :
  stage_is_sensitive stage = true -> String.eqb stage "Germination/Seedling" = false.
Proof.
  unfold stage_is_sensitive. intros H. apply orb_true_iff in H as [H | H];
    apply String.eqb_eq in H; subst; reflexivity.
Qed.

End ProviderFacts.

(** X20. Whatever the base values are, the adjusted thresholds respect the
    floors and the cap of the rules: for a flowering or fruiting stage the
    heatwave temperature is at least 32 and the drought day count at least
    3; for rice past the seedling stage the drought day count is at most
    10; for vegetable seedlings the frost temperature is at least 3; for
    mature maize the wind speed is at least 10. *)
Theorem adjusted_thresholds_respect_bounds :
  forall (h : store) (l : loc) (base : gmap string Z) (crop stage : string),
    h !! l = Some base ->
    exists h' adjusted t,
      get_adjusted_thresholds h l crop stage = Some (h', adjusted) /\
      h' !! adjusted = Some t /\
      (stage_is_sensitive stage = true ->
       32 <= th_get t "heatwave_temp_c" 38 /\ 3 <= th_get t "drought_risk_days" 7) /\
      (crop = "Rice" -> stage <> "Germination/Seedling" ->
       th_get t "drought_risk_days" 7 <= 10) /\
      (crop = "Vegetables" -> stage = "Germination/Seedling" ->
       3 <= th_get t "frost_risk_temp_c" 2) /\
      (crop = "Maize" -> stage = "Fruiting/Maturity" ->
       10 <= th_get t "high_wind_speed_ms" 15).
Proof.
  intros h l base crop stage Hl.
  eexists _, _, _. split; [apply (get_adjusted_thresholds_run _ _ _ _ _ Hl) |].
  split; [apply lookup_insert_eq |].
  unfold spec_adjust_sequential, spec_rule4, spec_rule3, spec_rule2, spec_rule1.
  split; [| split; [| split]].
  - intros Hs. rewrite Hs. rewrite (stage_sensitive_not_seedling stage Hs).
    rewrite andb_false_r. cbn [negb]. rewrite andb_true_r.
    destruct (String.eqb crop "Rice"); destruct (String.eqb crop "Maize" && _);
      repeat first [ rewrite th_get_insert_eq | rewrite th_get_insert_ne by done ];
      lia.
  - intros -> Hne. apply String.eqb_neq in Hne. rewrite Hne. cbn.
    destruct (stage_is_sensitive stage); destruct (String.eqb stage "Fruiting/Maturity");
      repeat first [ rewrite th_get_insert_eq | rewrite th_get_insert_ne by done ];
      lia.
  - intros -> ->. cbn.
    repeat first [ rewrite th_get_insert_eq | rewrite th_get_insert_ne by done ]. lia.
  - intros -> ->. cbn.
    repeat first [ rewrite th_get_insert_eq | rewrite th_get_insert_ne by done ]. lia.
Qed.

Lemma adjusted_thresholds_respect_bounds_witness :
  exists h' adjusted t,
    get_adjusted_thresholds
      {[ 1%positive := <["heatwave_temp_c" := 20]> DEFAULT_THRESHOLDS ]} 1%positive
      "Wheat" "Flowering" = Some (h', adjusted) /\
    h' !! adjusted = Some t /\
    32 <= th_get t "heatwave_temp_c" 38.
Proof.
  destruct (adjusted_thresholds_respect_bounds
              {[ 1%positive := <["heatwave_temp_c" := 20]> DEFAULT_THRESHOLDS ]}
              1%positive (<["heatwave_temp_c" := 20]> DEFAULT_THRESHOLDS)
              "Wheat" "Flowering" (lookup_singleton_eq _ _))
    as (h' & adjusted & t & Hrun & Ht & Hsens & _).
  exists h', adjusted, t. split; [exact Hrun |]. split; [exact Ht |].
  apply Hsens. reflexivity.
Defined.

(** X21. When no rule applies, the adjustment returns a new dictionary
    with the bindings of the base: this is so for a stage that is neither
    flowering nor fruiting, with a crop that is not rice unless the stage
    is the seedling stage, and not vegetables at the seedling stage.  It
    is the case of the crop and the stage that the request handler takes
    when the form names none. *)
Theorem unadjusted_copy_when_no_rule_applies :
  forall (h : store) (l : loc) (base : gmap string Z) (crop stage : string),
    h !! l = Some base ->
    stage_is_sensitive stage = false ->
    (crop = "Rice" -> stage = "Germination/Seedling") ->
    (crop = "Vegetables" -> stage <> "Germination/Seedling") ->
    exists h' adjusted,
      get_adjusted_thresholds h l crop stage = Some (h', adjusted) /\
      adjusted <> l /\ h' !! adjusted = Some base /\ h' !! l = Some base.
Proof.
  intros h l base crop stage Hl Hs Hrice Hveg.
  pose proof (fresh_loc_unused h) as Hfresh.
  assert (Hne : fresh (dom h) <> l) by (intros Heq; rewrite Heq, Hl in Hfresh; done).
  eexists _, _. split; [apply (get_adjusted_thresholds_run _ _ _ _ _ Hl) |].
  split; [exact Hne |]. split; [| by rewrite lookup_insert_ne].
  rewrite lookup_insert_eq. f_equal.
  unfold spec_adjust_sequential, spec_rule4, spec_rule3, spec_rule2, spec_rule1.
  rewrite Hs.
  assert (H4 : String.eqb crop "Maize" && String.eqb stage "Fruiting/Maturity" = false).
  { unfold stage_is_sensitive in Hs. apply orb_false_iff in Hs as [_ ->].
    apply andb_false_r. }
  assert (H3 : String.eqb crop "Vegetables" && String.eqb stage "Germination/Seedling"
               = false).
  { destruct (String.eqb_spec crop "Vegetables") as [Hc | Hc]; [| reflexivity].
    apply Hveg in Hc. apply String.eqb_neq in Hc. by rewrite Hc. }
  assert (H2 : String.eqb crop "Rice" && negb (String.eqb stage "Germination/Seedling")
               = false).
  { destruct (String.eqb_spec crop "Rice") as [Hc | Hc]; [| reflexivity].
    rewrite (Hrice Hc). reflexivity. }
  rewrite H2, H3, H4. reflexivity.
Qed.

Lemma unadjusted_copy_when_no_rule_applies_witness :
  exists h' adjusted,
    get_adjusted_thresholds {[ 1%positive := DEFAULT_THRESHOLDS ]} 1%positive
      "Other" "Vegetative" = Some (h', adjusted) /\
    adjusted <> 1%positive /\ h' !! adjusted = Some DEFAULT_THRESHOLDS.
Proof.
  destruct (unadjusted_copy_when_no_rule_applies
              {[ 1%positive := DEFAULT_THRESHOLDS ]} 1%positive DEFAULT_THRESHOLDS
              "Other" "Vegetative" (lookup_singleton_eq _ _) eq_refl)
    as (h' & adjusted & Hrun & Hne & Ht & _).
  - intros H; discriminate H.
  - intros H; discriminate H.
  - exists h', adjusted. repeat split; assumption.
Defined.

(* ================================================================== *)
(** * More on the advisory composer *)
(* ================================================================== *)

Section ComposerFacts.

Implicit Types (r : risks) (ci : crop_info) (c : category).

Lemma has_any_warning_true r :
  has_any_warning r = true <-> exists c, warning (entry c r) = true.
Proof.
  unfold has_any_warning, categories. cbn [existsb].
  rewrite !orb_true_iff. split.
  - intros [H | [H | [H | [H | [H | [H | H]]]]]]; try discriminate;
      [by exists Drought | by exists FloodHeavyRain | by exists Heatwave
      | by exists Frost | by exists HighWind | by exists ProlongedHighHumidity].
  - intros [[] H]; cbn in H; tauto.
Qed.

Lemma has_any_warning_false r :
  has_any_warning r = false <-> forall c, warning (entry c r) = false.
Proof.
  split.
  - intros H c. destruct (warning (entry c r)) eqn:Hc; [| reflexivity].
    assert (Ht : has_any_warning r = true) by (apply has_any_warning_true; eauto).
    congruence.
  - intros H. destruct (has_any_warning r) eqn:Ht; [| reflexivity].
    apply has_any_warning_true in Ht as [c Hc]. rewrite H in Hc. discriminate.
Qed.

(** The report of the evaluator is consistent. *)
Lemma evaluator_report_consistent utc_offset today thresholds fd :
  report_consistent (assess_climate_risks_enhanced utc_offset today thresholds fd).
Proof.
  assert (Hinit : consistent_with [] initial_state).
  { split; [apply initial_risks_consistent |]. intros a Ha. by apply elem_of_nil in Ha. }
  unfold assess_climate_risks_enhanced.
  destruct fd as [ | | | | | d]; try apply initial_risks_consistent.
  destruct (assoc_get "list" d) as [[ | | | | [| item rest] | ] |];
    try apply initial_risks_consistent.
  unfold assess_list.
  destruct (aggregate utc_offset (item :: rest) []) as [ds [[] | err]];
    [| apply initial_risks_consistent].
  apply (risk_loop_consistent today thresholds ds _ initial_state Hinit).
Qed.

Lemma length_category_lines r ci :
  (length (category_lines r ci) <= 8)%nat /\
  (has_any_warning r = true -> 1 <= length (category_lines r ci))%nat.
Proof.
  unfold has_any_warning, categories, category_lines, drought_lines. cbn [existsb entry].
  destruct (warning (drought r)), (warning (flood_heavy_rain r)), (warning (heatwave r)),
    (warning (frost r)), (warning (high_wind r)), (warning (prolonged_high_humidity r));
    cbn; split; try lia; discriminate.
Qed.

Lemma length_details_section (alerts : list string) :
  (length (details_section alerts) <= 9)%nat.
Proof.
  unfold details_section. destruct alerts as [| a rest]; [cbn; lia |].
  rewrite (detail_lines_from (a :: rest) 0) by (unfold max_details_in_advisory; lia).
  cbn [length]. rewrite length_app, length_map, length_take.
  unfold max_details_in_advisory.
  destruct (Nat.ltb _ _); cbn [length]; lia.
Qed.

Lemma heading_first_char c : first_char (category_heading c) = Some "010"%char.
Proof. by destruct c. Qed.

Lemma heading_inj c c' : category_heading c = category_heading c' -> c = c'.
Proof. destruct c, c'; intros H; try reflexivity; vm_compute in H; discriminate H. Qed.

Lemma detail_lines_indented (alerts : list string) :
  forall (i : nat) x, x ∈ detail_lines i alerts -> first_char x = Some " "%char.
Proof.
  induction alerts as [| a rest IH]; intros i x Hx; cbn [detail_lines] in Hx.
  - by apply elem_of_nil in Hx.
  - destruct (Nat.ltb i max_details_in_advisory).
    + apply elem_of_cons in Hx as [-> | Hx]; [reflexivity | by apply (IH (S i))].
    + destruct (Nat.eqb i max_details_in_advisory); [| by apply (IH (S i))].
      apply list_elem_of_singleton in Hx as ->. reflexivity.
Qed.

(** A line of the advice blocks is the heading of a flagged category or
    one of the two lines under the drought heading. *)
Lemma category_lines_elem r ci x :
  x ∈ category_lines r ci ->
  exists c, warning (entry c r) = true /\
            (x = category_heading c \/ (c = Drought /\ x ∈ tail (drought_lines ci))).
Proof.
  assert (Hblock : forall c' (w : bool) x,
            x ∈ (if w then [category_heading c'] else []) ->
            w = true /\ x = category_heading c').
  { intros c' [] y H; [by apply list_elem_of_singleton in H |].
    by apply elem_of_nil in H. }
  unfold category_lines.
  change [NL +:+ "⚠️ Flood / Heavy Rain Risk:"] with [category_heading FloodHeavyRain].
  change [NL +:+ "⚠️ Heatwave Risk:"] with [category_heading Heatwave].
  change [NL +:+ "⚠️ Frost Risk:"] with [category_heading Frost].
  change [NL +:+ "⚠️ High Wind Risk:"] with [category_heading HighWind].
  change [NL +:+ "⚠️ Prolonged High Humidity Risk:"]
    with [category_heading ProlongedHighHumidity].
  rewrite !elem_of_app.
  intros [H | [H | [H | [H | [H | H]]]]];
    [| apply Hblock in H as [Hw ->]; eexists; split; [| by left]; exact Hw ..].
  destruct (warning (drought r)) eqn:Hw; [| by apply elem_of_nil in H].
  exists Drought. split; [exact Hw |].
  unfold drought_lines in *. cbn [tail]. apply elem_of_cons in H as [-> | H]; auto.
Qed.

Lemma drought_advice_indented ci x :
  x ∈ tail (drought_lines ci) -> first_char x = Some " "%char.
Proof.
  unfold drought_lines. cbn [tail]. intros Hx.
  apply elem_of_cons in Hx as [-> | Hx]; [reflexivity |].
  apply list_elem_of_singleton in Hx as ->. by destruct (_ || _).
Qed.

Lemma heading_in_category_lines c r ci :
  category_heading c ∈ category_lines r ci <-> warning (entry c r) = true.
Proof.
  split.
  - intros H. apply (category_lines_elem r ci) in H as (c' & Hw & [Heq | [_ Hin]]).
    + apply heading_inj in Heq. by subst.
    + apply (drought_advice_indented ci) in Hin. rewrite heading_first_char in Hin.
      discriminate Hin.
  - intros Hw. unfold category_lines, drought_lines. rewrite !elem_of_app.
    destruct c; cbn [entry] in Hw; rewrite Hw.
    + left. by left.
    + right. left. by left.
    + do 2 right. left. by left.
    + do 3 right. left. by left.
    + do 4 right. left. by left.
    + do 5 right. by left.
Qed.

End ComposerFacts.

(** X22. For a report of the evaluator the composer answers with the
    single no-risk line exactly when nothing is flagged in the report: no
    category then has a detail and there is no overall alert, so the
    shortcut hides no alert. *)
Theorem no_risk_line_iff_all_clear :
  forall (utc_offset : Z) (today : date) (thresholds : gmap string Z) (fd : pyval)
         (ci : crop_info),
    let r := assess_climate_risks_enhanced utc_offset today thresholds fd in
    generate_advisories_enhanced (Some r) ci = [NO_RISK_LINE] <-> all_clear r.
Proof.
  intros utc_offset today thresholds fd ci r.
  destruct (evaluator_report_consistent utc_offset today thresholds fd) as [Hflag Hover].
  fold r in Hflag, Hover.
  unfold generate_advisories_enhanced. split.
  - destruct (has_any_warning r) eqn:Hany; cbn [negb].
    { intros H. cbn [app] in H. injection H as H _. vm_compute in H. discriminate H. }
    intros _. pose proof (proj1 (has_any_warning_false r) Hany) as Hall.
    assert (Hdet : forall c, details (entry c r) = []).
    { intros c. destruct (details (entry c r)) eqn:Hd; [reflexivity |].
      assert (Hw : warning (entry c r) = true) by (apply Hflag; by rewrite Hd).
      rewrite Hall in Hw. discriminate. }
    split; [intros c; by split |].
    destruct (overall_alerts r) as [| a rest] eqn:Ho; [reflexivity |].
    destruct (Hover a) as [c Hc]; [by left |]. rewrite Hdet in Hc.
    by apply elem_of_nil in Hc.
  - intros [Hall _].
    assert (Hany : has_any_warning r = false).
    { apply has_any_warning_false. intros c. apply Hall. }
    by rewrite Hany.
Qed.

(** X23. An advisory has at least one line and at most 20.  For a report
    with a flagged category it has at least 4 lines, opens with the header
    line and closes with the two lines of the disclaimer. *)
Theorem advisory_shape :
  forall (risks : option risks) (ci : crop_info),
    let out := generate_advisories_enhanced risks ci in
    (1 <= length out <= 20)%nat /\
    (forall r, risks = Some r -> has_any_warning r = true ->
       (4 <= length out)%nat /\
       head out = Some HEADER_LINE /\
       drop (length out - 2) out = DISCLAIMER).
Proof.
  intros risks ci out. unfold out, generate_advisories_enhanced.
  destruct risks as [r |]; [| split; [cbn; lia | intros r H; discriminate H]].
  pose proof (length_category_lines r ci) as [Hc8 Hc1].
  pose proof (length_details_section (overall_alerts r)) as Hd9.
  destruct (has_any_warning r) eqn:Hany; cbn [negb].
  - specialize (Hc1 eq_refl).
    assert (Hlen : length ([HEADER_LINE] ++ category_lines r ci ++
                            details_section (overall_alerts r) ++ DISCLAIMER) =
                   (1 + length (category_lines r ci) +
                    length (details_section (overall_alerts r)) + 2)%nat).
    { rewrite !length_app. change (length DISCLAIMER) with 2%nat. cbn [length]. lia. }
    split; [lia |]. intros r' [= <-] _.
    split; [lia |]. split; [reflexivity |].
    rewrite Hlen.
    replace ([HEADER_LINE] ++ category_lines r ci ++
             details_section (overall_alerts r) ++ DISCLAIMER)
      with (([HEADER_LINE] ++ category_lines r ci ++
             details_section (overall_alerts r)) ++ DISCLAIMER)
      by (by rewrite <- !app_assoc).
    rewrite drop_app_length'; [reflexivity |].
    rewrite !length_app. cbn [length]. lia.
  - split; [cbn; lia |]. intros r' [= <-] H. congruence.
Qed.

(** X24. In the advisory of a report with a flagged category, the heading
    of a category is among the lines exactly when the category is flagged
    in the report. *)
Theorem heading_shown_iff_flagged :
  forall (r : risks) (ci : crop_info) (c : category),
    has_any_warning r = true ->
    (category_heading c ∈ generate_advisories_enhanced (Some r) ci <->
     warning (entry c r) = true).
Proof.
  intros r ci c Hany. unfold generate_advisories_enhanced. rewrite Hany. cbn [negb].
  rewrite <- (heading_in_category_lines c r ci).
  rewrite !elem_of_app. split; [| tauto].
  intros [H | [H | [H | H]]]; [| exact H | |].
  - apply list_elem_of_singleton in H. destruct c; vm_compute in H; discriminate H.
  - unfold details_section in H. destruct (overall_alerts r) as [| a rest];
      [by apply elem_of_nil in H |].
    apply elem_of_cons in H as [H | H].
    + destruct c; vm_compute in H; discriminate H.
    + apply detail_lines_indented in H. rewrite heading_first_char in H. discriminate H.
  - unfold DISCLAIMER in H. apply elem_of_cons in H as [H | H];
      [destruct c; vm_compute in H; discriminate H |].
    apply list_elem_of_singleton in H. destruct c; vm_compute in H; discriminate H.
Qed.

Lemma heading_shown_iff_flagged_witness :
  category_heading Frost ∈
    generate_advisories_enhanced
      (Some (mk_risks no_risk no_risk no_risk (mk_entry true ["f"]) no_risk no_risk ["f"]))
      (mk_crop_info "Rice" "Vegetative").
Proof.
  apply (proj2 (heading_shown_iff_flagged
                  (mk_risks no_risk no_risk no_risk (mk_entry true ["f"]) no_risk no_risk
                     ["f"])
                  (mk_crop_info "Rice" "Vegetative") Frost eq_refl)).
  reflexivity.
Defined.

(* ================================================================== *)
(** * Geocoding and the request handler *)
(* ================================================================== *)

Section HandlerFacts.


Lemma category_lines_first_char r ci x :
  x ∈ category_lines r ci ->
  first_char x = Some "010"%char \/ first_char x = Some " "%char.
Proof.
  intros H. apply (category_lines_elem r ci x) in H as (c & _ & [-> | [_ Hin]]).
  - left. apply heading_first_char.
  - right. by apply (drought_advice_indented ci).
Qed.

Lemma missing_line_not_composed r ci :
  MISSING_LINE ∉ generate_advisories_enhanced (Some r) ci.
Proof.
  unfold generate_advisories_enhanced.
  destruct (negb (has_any_warning r)).
  { intros H. apply list_elem_of_singleton in H. vm_compute in H. discriminate H. }
  rewrite !elem_of_app. intros [H | [H | [H | H]]].
  - apply list_elem_of_singleton in H. vm_compute in H. discriminate H.
  - apply category_lines_first_char in H as [H | H]; vm_compute in H; discriminate H.
  - unfold details_section in H. destruct (overall_alerts r) as [| a rest];
      [by apply elem_of_nil in H |].
    apply elem_of_cons in H as [H | H]; [vm_compute in H; discriminate H |].
    apply detail_lines_indented in H. vm_compute in H. discriminate H.
  - unfold DISCLAIMER in H. apply elem_of_cons in H as [H | H];
      [vm_compute in H; discriminate H |].
    apply list_elem_of_singleton in H. vm_compute in H. discriminate H.
Qed.

Lemma composed_length r ci :
  (1 <= length (generate_advisories_enhanced (Some r) ci) <= 20)%nat.
Proof.
  unfold generate_advisories_enhanced.
  pose proof (length_category_lines r ci) as [Hc8 _].
  pose proof (length_details_section (overall_alerts r)) as Hd9.
  destruct (negb (has_any_warning r)); [cbn; lia |].
  rewrite !length_app. change (length DISCLAIMER) with 2%nat. cbn [length]. lia.
Qed.

(** The steps of the handler up to the adjustment of the thresholds. *)
Lemma get_advisory_render API_KEY form geocoding weather utc_offset today h defaults
    h' adv address lat lon ci :
  get_advisory API_KEY form geocoding weather utc_offset today h defaults =
    Some (h', Render adv address lat lon ci) ->
  exists key wd adjusted thresholds,
    API_KEY = Some key /\ key <> EmptyString /\
    assoc_get "address" form = Some address /\ address <> EmptyString /\
    geocode_address address key geocoding = Returned (Some lat) (Some lon) /\
    weather = Http.Decoded wd /\ wd <> VNone /\
    ci = mk_crop_info (form_get form "crop_type" "Other")
           (form_get form "growth_stage" "Vegetative") /\
    get_adjusted_thresholds h defaults (crop_type ci) (crop_stage ci) =
      Some (h', adjusted) /\
    h' !! adjusted = Some thresholds /\
    adv = generate_advisories_enhanced
            (Some (assess_climate_risks_enhanced utc_offset today thresholds wd)) ci.
Proof.
  unfold get_advisory.
  destruct API_KEY as [[| k0 key] |]; try discriminate.
  destruct (assoc_get "address" form) as [[| a0 addr] |]; try discriminate.
  cbv zeta.
  destruct (geocode_address (String a0 addr) (String k0 key) geocoding)
    as [[la |] [lo |] |] eqn:Hgeo; try discriminate.
  unfold get_weather_forecast_latlon.
  destruct weather as [ | | wd]; try discriminate.
  destruct (is_none wd) eqn:Hwd; [discriminate |].
  destruct (get_adjusted_thresholds h defaults _ _) as [[h1 adjusted] |] eqn:Hadj;
    [| discriminate].
  destruct (h1 !! adjusted) as [thresholds |] eqn:Hth; [| discriminate].
  intros [= <- <- <- <- <- <-].
  exists (String k0 key), wd, adjusted, thresholds.
  repeat split; try done. intros ->. discriminate Hwd.
Qed.

(** The handler when every step succeeds. *)
Lemma get_advisory_run key form geocoding weather utc_offset today h defaults base
    address lat lon wd :
  key <> EmptyString -> assoc_get "address" form = Some address -> address <> EmptyString ->
  geocode_address address key geocoding = Returned (Some lat) (Some lon) ->
  weather = Http.Decoded wd -> is_none wd = false ->
  h !! defaults = Some base ->
  let ci := mk_crop_info (form_get form "crop_type" "Other")
              (form_get form "growth_stage" "Vegetative") in
  let t := spec_adjust_sequential (crop_type ci) (crop_stage ci) base in
  get_advisory (Some key) form geocoding weather utc_offset today h defaults =
    Some (<[fresh (dom h) := t]> h,
          Render (generate_advisories_enhanced
                    (Some (assess_climate_risks_enhanced utc_offset today t wd)) ci)
            address lat lon ci).
Proof.
  intros Hkey Hform Haddr Hgeo -> Hwd Hbase ci t.
  unfold get_advisory. rewrite Hform.
  destruct key as [| k0 key]; [done |]. destruct address as [| a0 address]; [done |].
  cbv zeta. rewrite Hgeo. unfold get_weather_forecast_latlon. rewrite Hwd.
  rewrite (get_adjusted_thresholds_run h defaults base _ _ Hbase).
  rewrite lookup_insert_eq. reflexivity.
Qed.

End HandlerFacts.



(** X26. The geocoder does not always return.  With an address and a key
    that are not empty, an exchange that ends with an exception outside the
    [requests] library, a first result that is not a record, and a
    coordinate that is present but not a number each make the function
    raise [NameError]: the handler meant for these cases names a module
    that is not imported.  The request handler then answers with the
    message of an unexpected server error instead of the message that the
    location was not found. *)
Theorem geocode_fault_escapes :
  forall (address_query api_key : string) (first_result : pyval) (rest : list pyval),
    address_query <> EmptyString -> api_key <> EmptyString ->
    geocode_address address_query api_key Http.OtherError = NameErrorRaised /\
    ((forall r, first_result <> VDict r) ->
     geocode_address address_query api_key
       (Http.Decoded (VList (first_result :: rest))) = NameErrorRaised) /\
    (forall r s lon,
       first_result = VDict r -> assoc_get "lat" r = Some (VStr s) ->
       assoc_get "lon" r = Some lon -> lon <> VNone ->
       geocode_address address_query api_key
         (Http.Decoded (VList (first_result :: rest))) = NameErrorRaised) /\
    (forall form weather utc_offset today h defaults,
       assoc_get "address" form = Some address_query ->
       geocode_address address_query api_key
         (Http.Decoded (VList (first_result :: rest))) = NameErrorRaised ->
       get_advisory (Some api_key) form (Http.Decoded (VList (first_result :: rest)))
         weather utc_offset today h defaults = Some (h, Redirect SERVER_ERROR)).
Proof.
  intros a k first rest Ha Hk.
  apply String.eqb_neq in Ha as Ha'. apply String.eqb_neq in Hk as Hk'.
  unfold geocode_address. rewrite Ha', Hk'. cbn [orb].
  split; [reflexivity |]. split; [| split].
  - intros Hnr. unfold geocode_results. cbn [falsy].
    destruct first; try reflexivity. exfalso. by eapply Hnr.
  - intros r s lon -> Hlat Hlon Hnn. unfold geocode_results, get_or_none. cbn [falsy].
    rewrite Hlat, Hlon. cbn [is_none negb andb as_num].
    destruct lon; try reflexivity. done.
  - intros form weather utc_offset today h defaults Hform Hgeo.
    unfold get_advisory. rewrite Hform.
    destruct k as [| k0 k1]; [done |]. destruct a as [| a0 a1]; [done |].
    cbv zeta. unfold geocode_address. rewrite Ha', Hk'. cbn [orb]. by rewrite Hgeo.
Qed.

Lemma geocode_fault_escapes_witness :
  geocode_address "Bhopal, IN" "k" (Http.Decoded (VList [VStr "Bhopal"])) =
  NameErrorRaised.
Proof.
  destruct (geocode_fault_escapes "Bhopal, IN" "k" (VStr "Bhopal") [])
    as (_ & Hnr & _); [discriminate | discriminate |].
  apply Hnr. intros r H. discriminate H.
Defined.

(** X27. The handler shows the results page only after every step has
    succeeded: the key and the address are not empty, the geocoder
    returned the two coordinates shown, and the forecast exchange decoded
    a document that is not null.  The advisories shown are those composed
    from the report of the evaluator on that document, under the thresholds
    adjusted for the crop and the stage of the form, which default to
    'Other' and 'Vegetative'. *)
Theorem results_page_only_after_all_steps :
  forall (API_KEY : option string) (form : list (string * string))
         (geocoding weather : Http.outcome) (utc_offset : Z) (today : date)
         (h : store) (defaults : loc) (h' : store) (adv : list string)
         (address : string) (lat lon : Z) (ci : crop_info),
    get_advisory API_KEY form geocoding weather utc_offset today h defaults =
      Some (h', Render adv address lat lon ci) ->
    exists key wd adjusted thresholds,
      API_KEY = Some key /\ key <> EmptyString /\
      assoc_get "address" form = Some address /\ address <> EmptyString /\
      geocode_address address key geocoding = Returned (Some lat) (Some lon) /\
      weather = Http.Decoded wd /\ wd <> VNone /\
      ci = mk_crop_info (form_get form "crop_type" "Other")
             (form_get form "growth_stage" "Vegetative") /\
      get_adjusted_thresholds h defaults (crop_type ci) (crop_stage ci) =
        Some (h', adjusted) /\
      h' !! adjusted = Some thresholds /\
      adv = generate_advisories_enhanced
              (Some (assess_climate_risks_enhanced utc_offset today thresholds wd)) ci.
Proof. intros until ci. apply get_advisory_render. Qed.

Lemma results_page_only_after_all_steps_witness :
  exists wd, Http.Decoded (VDict [("cod", VStr "200")]) = Http.Decoded wd /\ wd <> VNone.
Proof.
  pose proof (get_advisory_run "k" [("address", "Bhopal, IN")]
                (Http.Decoded (VList [VDict [("lat", VNum 23); ("lon", VNum 77)]]))
                (Http.Decoded (VDict [("cod", VStr "200")]))
                0 (mkdate 2026 11 3) {[ 1%positive := DEFAULT_THRESHOLDS ]} 1%positive
                DEFAULT_THRESHOLDS "Bhopal, IN" 23 77 (VDict [("cod", VStr "200")])
                ltac:(discriminate) eq_refl ltac:(discriminate) eq_refl eq_refl eq_refl
                (lookup_singleton_eq _ _)) as Hrun.
  cbv zeta in Hrun.
  pose proof (results_page_only_after_all_steps _ _ _ _ _ _ _ _ _ _ _ _ _ _ Hrun)
    as (key & wd & adjusted & thresholds & _ & _ & _ & _ & _ & Hw & Hne & _).
  by exists wd.
Defined.

(** X28. The handler always answers, and it leaves the dictionaries of
    the store as they were, the default thresholds among them: the
    thresholds of a request depend on its own crop and stage only.  On
    the results page the advisories have between 1 and 20 lines and never
    contain the line of a missing risk assessment; for a forecast document
    without a non-empty list of samples they are the single no-risk
    line. *)
Theorem handler_answers_and_keeps_defaults :
  forall (API_KEY : option string) (form : list (string * string))
         (geocoding weather : Http.outcome) (utc_offset : Z) (today : date)
         (h : store) (defaults : loc) (base : gmap string Z),
    h !! defaults = Some base ->
    exists h' resp,
      get_advisory API_KEY form geocoding weather utc_offset today h defaults =
        Some (h', resp) /\
      h' !! defaults = Some base /\
      (forall l d, h !! l = Some d -> h' !! l = Some d) /\
      (forall adv address lat lon ci,
         resp = Render adv address lat lon ci ->
         (1 <= length adv <= 20)%nat /\ (MISSING_LINE ∉ adv) /\
         (forall wd, weather = Http.Decoded wd -> degraded_document wd ->
                     adv = [NO_RISK_LINE])).
Proof.
  intros API_KEY form geocoding weather utc_offset today h defaults base Hbase.
  assert (Hsame : forall msg,
            exists h' resp,
              Some (h, Redirect msg) = Some (h', resp) /\
              h' !! defaults = Some base /\
              (forall l d, h !! l = Some d -> h' !! l = Some d) /\
              (forall adv address lat lon ci,
                 resp = Render adv address lat lon ci ->
                 (1 <= length adv <= 20)%nat /\ (MISSING_LINE ∉ adv) /\
                 (forall wd, weather = Http.Decoded wd -> degraded_document wd ->
                             adv = [NO_RISK_LINE]))).
  { intros msg. exists h, (Redirect msg). split; [reflexivity |].
    split; [exact Hbase |]. split; [auto |]. intros ? ? ? ? ? H. discriminate H. }
  unfold get_advisory.
  destruct API_KEY as [[| k0 key] |]; try apply Hsame.
  destruct (assoc_get "address" form) as [[| a0 addr] |]; try apply Hsame.
  cbv zeta.
  destruct (geocode_address (String a0 addr) (String k0 key) geocoding)
    as [[la |] [lo |] |]; try apply Hsame.
  destruct (is_none _) eqn:Hwd; [apply Hsame |].
  rewrite (get_adjusted_thresholds_run h defaults base _ _ Hbase).
  rewrite lookup_insert_eq.
  pose proof (fresh_loc_unused h) as Hfresh.
  eexists _, _. split; [reflexivity |].
  split.
  { rewrite lookup_insert_ne; [exact Hbase |]. intros Heq.
    rewrite Heq, Hbase in Hfresh. discriminate Hfresh. }
  split.
  { intros l d Hl. rewrite lookup_insert_ne; [exact Hl |]. intros Heq.
    rewrite Heq, Hl in Hfresh. discriminate Hfresh. }
  intros adv address lat lon ci [= <- <- <- <- <-].
  split; [apply composed_length |]. split; [apply missing_line_not_composed |].
  intros wd Hw Hdeg. unfold get_weather_forecast_latlon. rewrite Hw.
  assert (Hinit : forall t, assess_climate_risks_enhanced utc_offset today t wd
                            = initial_risks).
  { intros t. destruct Hdeg as [ | v Hv | d Hd | d Hd | d v Hd Hv ]; simpl.
    - reflexivity.
    - destruct v; try reflexivity. exfalso. eapply Hv. reflexivity.
    - rewrite Hd. reflexivity.
    - rewrite Hd. reflexivity.
    - rewrite Hd. destruct v; try reflexivity. exfalso. eapply Hv. reflexivity. }
  rewrite Hinit. reflexivity.
Qed.

Lemma handler_answers_and_keeps_defaults_witness :
  exists h' resp,
    get_advisory (Some "k") [("address", "Bhopal, IN"); ("crop_type", "Rice")]
      (Http.Decoded (VList [VDict [("lat", VNum 23); ("lon", VNum 77)]]))
      (Http.Decoded (VDict [("cod", VStr "200")]))
      0 (mkdate 2026 11 3) {[ 1%positive := DEFAULT_THRESHOLDS ]} 1%positive
      = Some (h', resp) /\
    h' !! 1%positive = Some DEFAULT_THRESHOLDS.
Proof.
  destruct (handler_answers_and_keeps_defaults (Some "k")
              [("address", "Bhopal, IN"); ("crop_type", "Rice")]
              (Http.Decoded (VList [VDict [("lat", VNum 23); ("lon", VNum 77)]]))
              (Http.Decoded (VDict [("cod", VStr "200")]))
              0 (mkdate 2026 11 3) {[ 1%positive := DEFAULT_THRESHOLDS ]} 1%positive
              DEFAULT_THRESHOLDS (lookup_singleton_eq _ _))
    as (h' & resp & Hrun & Hdef & _).
  by exists h', resp.
Defined.

(** X29. From the default thresholds, whatever the crop and the stage
    are, the adjusted heatwave temperature is 35 or 38, the drought day
    count 5, 7, 8 or 10, the frost temperature 2 or 3 and the wind speed 12
    or 15, and the six other thresholds have their default values.  These
    are the thresholds under which the request handler has the forecast
    evaluated. *)
Theorem thresholds_of_a_request :
  forall (h : store) (l : loc) (crop stage : string),
    h !! l = Some DEFAULT_THRESHOLDS ->
    exists h' adjusted t,
      get_adjusted_thresholds h l crop stage = Some (h', adjusted) /\
      h' !! adjusted = Some t /\
      (t !! "heatwave_temp_c" = Some 35 \/ t !! "heatwave_temp_c" = Some 38) /\
      (t !! "drought_risk_days" = Some 5 \/ t !! "drought_risk_days" = Some 7 \/
       t !! "drought_risk_days" = Some 8 \/ t !! "drought_risk_days" = Some 10) /\
      (t !! "frost_risk_temp_c" = Some 2 \/ t !! "frost_risk_temp_c" = Some 3) /\
      (t !! "high_wind_speed_ms" = Some 12 \/ t !! "high_wind_speed_ms" = Some 15) /\
      t !! "drought_risk_mm" = Some 2 /\ t !! "flood_risk_mm_per_day" = Some 50 /\
      t !! "heavy_rain_mm_per_3h" = Some 15 /\ t !! "heatwave_days" = Some 3 /\
      t !! "high_humidity_perc" = Some 85 /\ t !! "high_humidity_duration_h" = Some 12.
Proof.
  intros h l crop stage Hl.
  eexists _, _, _. split; [apply (get_adjusted_thresholds_run _ _ _ _ _ Hl) |].
  split; [apply lookup_insert_eq |].
  unfold spec_adjust_sequential, spec_rule4, spec_rule3, spec_rule2, spec_rule1.
  destruct (stage_is_sensitive stage);
    destruct (String.eqb crop "Rice" && negb (String.eqb stage "Germination/Seedling"));
    destruct (String.eqb crop "Vegetables" && String.eqb stage "Germination/Seedling");
    destruct (String.eqb crop "Maize" && String.eqb stage "Fruiting/Maturity");
    vm_compute; tauto.
Qed.

Lemma thresholds_of_a_request_witness :
  exists h' adjusted t,
    get_adjusted_thresholds {[ 1%positive := DEFAULT_THRESHOLDS ]} 1%positive
      "Rice" "Vegetative" = Some (h', adjusted) /\
    h' !! adjusted = Some t /\
    t !! "heatwave_days" = Some 3.
Proof.
  destruct (thresholds_of_a_request {[ 1%positive := DEFAULT_THRESHOLDS ]} 1%positive
              "Rice" "Vegetative" (lookup_singleton_eq _ _))
    as (h' & adjusted & t & Hrun & Ht & _ & _ & _ & _ & _ & _ & _ & Hdays & _).
  by exists h', adjusted, t.
Defined.
